(** * NeuroBuilder: container registry and build lifecycle

    A shallow embedding of [main.py]: the registry ([load_registry],
    [save_registry], [get_container_path]), the version space
    ([get_container_version_path]), the build sequence of [cmd_create] and the
    commands [cmd_run], [cmd_list] and [cmd_replay].

    The program is a sequence of calls into [os], [json], [subprocess] and
    [asciinema].  Its state is the file system; every command is a function of
    the state in an exception monad that also emits the observable events
    (directories made, files written, external tools started, lines printed). *)

From Stdlib Require Import Ascii String.
From stdpp Require Import gmap strings list fin_maps.

Open Scope string_scope.
Open Scope list_scope.

(** ** Strings as Python uses them *)

Definition sep : ascii := "/"%char.

(** [needle in hay] on [str]. *)
Fixpoint str_in (needle hay : string) : bool :=
  String.prefix needle hay ||
  match hay with
  | EmptyString => false
  | String _ hay' => str_in needle hay'
  end.

(** [s.startswith("/")] and [s.endswith("/")]. *)
Definition startswith_sep (s : string) : bool :=
  match s with
  | String c _ => bool_decide (c = sep)
  | EmptyString => false
  end.

Fixpoint endswith_sep (s : string) : bool :=
  match s with
  | EmptyString => false
  | String c EmptyString => bool_decide (c = sep)
  | String _ s' => endswith_sep s'
  end.

(** [posixpath.join(a, b)]: an absolute [b] discards [a]; a separator is put
    between the two unless [a] is empty or already ends with one. *)
Definition os_path_join (a b : string) : string :=
  if startswith_sep b then b
  else if bool_decide (a = "") || endswith_sep a then a +:+ b
  else a +:+ "/" +:+ b.

(** [posixpath.join(a, b, c)] folds the two-argument case. *)
Definition os_path_join3 (a b c : string) : string :=
  os_path_join (os_path_join a b) c.

Fixpoint has_sep (s : string) : bool :=
  match s with
  | EmptyString => false
  | String c s' => bool_decide (c = sep) || has_sep s'
  end.

(** [p[: p.rfind("/") + 1]]. *)
Fixpoint dir_head (p : string) : string :=
  match p with
  | EmptyString => ""
  | String c p' => if has_sep p then String c (dir_head p') else ""
  end.

(** [s.rstrip("/")]. *)
Fixpoint rstrip_sep (s : string) : string :=
  match s with
  | EmptyString => ""
  | String c s' =>
      match rstrip_sep s' with
      | EmptyString => if bool_decide (c = sep) then "" else String c ""
      | r => String c r
      end
  end.

(** [posixpath.dirname]: the head up to the last separator, with its trailing
    separators removed unless it consists of separators only. *)
Definition os_path_dirname (p : string) : string :=
  let head := dir_head p in
  match rstrip_sep head with
  | EmptyString => head
  | stripped => stripped
  end.

(** [s.split("/")]. *)
Fixpoint components (s : string) : list string :=
  match s with
  | EmptyString => [""]
  | String c s' =>
      if bool_decide (c = sep) then "" :: components s'
      else match components s' with
           | h :: t => String c h :: t
           | [] => [String c ""]
           end
  end.

(** A name that is one path component: not empty, no separator, and neither
    of the two names every directory has. *)
Definition plain_name (n : string) : Prop :=
  n ≠ "" ∧ has_sep n = false ∧ n ≠ "." ∧ n ≠ "..".

(** ** The file system *)

(** The registry record that [registry.json] holds:
    [{"version": int, "containers": {name: path}}].  A Python [dict] keeps its
    keys in insertion order, which [cmd_list] follows, so the mapping is an
    association list; its keys are distinct ([dict_wf]). *)
Record registry := Registry {
  reg_version : Z;
  containers : list (string * string);
}.


(** [name in d] and [d[name]]. *)
Fixpoint dict_get (d : list (string * string)) (k : string) : option string :=
  match d with
  | [] => None
  | (k', v) :: d' => if bool_decide (k' = k) then Some v else dict_get d' k
  end.

(** [d[k] = v]: an existing key keeps its place, a new one goes last. *)
Fixpoint dict_set (d : list (string * string)) (k v : string)
  : list (string * string) :=
  match d with
  | [] => [(k, v)]
  | (k', v') :: d' =>
      if bool_decide (k' = k) then (k, v) :: d' else (k', v') :: dict_set d' k v
  end.

(** What a file holds.  [json.dump] followed by [json.load] gives back a
    record of strings and an integer unchanged, so a file written by
    [write_json] is kept as the record itself; [Text] is any content that
    [json.load] rejects, such as the build template. *)
Inductive content :=
  | Json (r : registry)
  | Text (s : string).

Inductive node :=
  | Dir
  | File (c : content).

(** The disk maps absolute paths, as lists of components from the root, to
    nodes.  The root itself is always a directory and is not stored. *)
Abbreviation apath := (list string).
Abbreviation disk := (gmap (list string) node).

Definition is_dir_abs (d : disk) (a : apath) : bool :=
  match a with
  | [] => true
  | _ => match d !! a with Some Dir => true | _ => false end
  end.

Definition exists_abs (d : disk) (a : apath) : bool :=
  match a with
  | [] => true
  | _ => bool_decide (is_Some (d !! a))
  end.

Definition special (c : string) : bool :=
  bool_decide (c = "") || bool_decide (c = ".").

(** One step of path resolution from the directory [cur]. *)
Definition step (cur : apath) (c : string) : apath :=
  if special c then cur
  else if bool_decide (c = "..") then removelast cur
  else cur ++ [c].

(** Path resolution without symbolic links: every component is looked up in a
    directory, so the walk stops as soon as it stands on something else.  The
    last component itself need not exist. *)
Fixpoint walk (d : disk) (cur : apath) (cs : list string) : option apath :=
  match cs with
  | [] => Some cur
  | c :: cs' => if is_dir_abs d cur then walk d (step cur c) cs' else None
  end.

(** Where resolution starts and what it walks: from the root for an absolute
    path, from the working directory otherwise. *)
Definition anchor (cwd : apath) (s : string) : apath * list string :=
  match s with
  | String c s' => if bool_decide (c = sep) then ([], components s')
                   else (cwd, components s)
  | EmptyString => (cwd, [])
  end.

Definition resolve (d : disk) (cwd : apath) (s : string) : option apath :=
  match s with
  | EmptyString => None
  | _ => walk d (anchor cwd s).1 (anchor cwd s).2
  end.

Definition path_exists (d : disk) (cwd : apath) (s : string) : bool :=
  match resolve d cwd s with
  | Some a => exists_abs d a
  | None => false
  end.

Definition path_isdir (d : disk) (cwd : apath) (s : string) : bool :=
  match resolve d cwd s with
  | Some a => is_dir_abs d a
  | None => false
  end.

(** The entry of [k] in the directory [a], when [k] lies directly in it. *)
Definition child_name (a k : apath) : option string :=
  match drop (length a) k with
  | [c] => if bool_decide (take (length a) k = a) then Some c else None
  | _ => None
  end.

Definition children (d : disk) (a : apath) : list string :=
  omap (child_name a) (map_to_list d).*1.

(** The exceptions a command can end with: the program's own [Exception]
    with its message, the [OSError]s of the file operations, the decoding
    error of [json.load], and the failures of the external tools. *)
Inductive exn :=
  | Exception (msg : string)
  | FileExistsError
  | FileNotFoundError
  | NotADirectoryError
  | IsADirectoryError
  | JSONDecodeError
  | CalledProcessError (args : list string)
  | RecorderError
  | PlayerError.

Inductive result (A : Type) :=
  | Ok (a : A)
  | Raise (e : exn).
Arguments Ok {A} a.
Arguments Raise {A} e.

(** Directory creation.  [mk_walk] follows the components like [walk] and
    creates what is missing: every missing component when [all] is set
    ([os.makedirs]), only the last one otherwise ([os.mkdir], which accepts
    trailing separators after it).  It returns where it ended and whether the
    directory it ended on was made by this call. *)
Fixpoint mk_walk (all : bool) (d : disk) (cur : apath) (cs : list string)
    (made : bool) : disk * result (apath * bool) :=
  match cs with
  | [] => (d, Ok (cur, made))
  | c :: cs' =>
      if is_dir_abs d cur then
        if special c then mk_walk all d cur cs' made
        else if bool_decide (c = "..") then
          mk_walk all d (removelast cur) cs' false
        else
          match d !! (cur ++ [c]) with
          | Some _ => mk_walk all d (cur ++ [c]) cs' false
          | None =>
              if all || forallb (λ x, bool_decide (x = "")) cs' then
                mk_walk all (<[cur ++ [c] := Dir]> d) (cur ++ [c]) cs' true
              else (d, Raise FileNotFoundError)
          end
      else
        (d, Raise (if exists_abs d cur then NotADirectoryError
                   else FileNotFoundError))
  end.

(** [os.makedirs(s, exist_ok=...)] and [os.mkdir(s)] on the disk.  A call that
    fails half-way keeps the directories it had made. *)
Definition mk_disk (all exist_ok : bool) (d : disk) (cwd : apath) (s : string)
  : disk * result unit :=
  match s with
  | EmptyString => (d, Raise FileNotFoundError)
  | _ =>
      match mk_walk all d (anchor cwd s).1 (anchor cwd s).2 false with
      | (d', Ok (fin, made)) =>
          if made || (exist_ok && is_dir_abs d' fin) then (d', Ok tt)
          else (d', Raise FileExistsError)
      | (d', Raise e) => (d', Raise e)
      end
  end.

(** [open(s, "w")] followed by a write: the file is created or replaced; a
    directory is never replaced. *)
Definition write_disk (d : disk) (cwd : apath) (s : string) (c : content)
  : result disk :=
  match resolve d cwd s with
  | None => Raise FileNotFoundError
  | Some a =>
      if is_dir_abs d a then Raise IsADirectoryError
      else if is_dir_abs d (removelast a) then Ok (<[a := File c]> d)
      else Raise FileNotFoundError
  end.

(** [open(s, "r")] followed by a read. *)
Definition read_disk (d : disk) (cwd : apath) (s : string) : result content :=
  match resolve d cwd s with
  | None => Raise FileNotFoundError
  | Some a =>
      if is_dir_abs d a then Raise IsADirectoryError
      else match d !! a with
           | Some (File c) => Ok c
           | _ => Raise FileNotFoundError
           end
  end.

(** [os.listdir(s)]; the order of the entries is the disk's. *)
Definition listdir_disk (d : disk) (cwd : apath) (s : string)
  : result (list string) :=
  match resolve d cwd s with
  | None => Raise FileNotFoundError
  | Some a =>
      if is_dir_abs d a then Ok (children d a)
      else if exists_abs d a then Raise NotADirectoryError
      else Raise FileNotFoundError
  end.

(** ** The world a command runs in *)

(** What is outside the program: the platform's data directory, the source of
    random identifiers, and the external tools.  A tool is given its arguments
    and the disk, and gives back whether it succeeded and the disk it left. *)
Record Platform := {
  user_data_dir : string;
  uuid4 : nat → string;
  check_call : list string → apath → disk → bool * disk;
  record_asciicast : string → string → apath → disk → bool * disk;
  play : string → apath → disk → bool * disk;
}.

Record World := {
  w_disk : disk;
  w_cwd : apath;
  w_drawn : nat;
  w_now : string;
}.

Definition with_disk (d : disk) (w : World) : World :=
  {| w_disk := d; w_cwd := w_cwd w; w_drawn := w_drawn w; w_now := w_now w |}.

(** What a command does that can be seen from outside: a call of
    [os.makedirs] or [os.mkdir] that returned, a file that was written, an
    external tool that was started and how it ended, a line that was
    printed. *)
Inductive event :=
  | EvMkdir (path : string)
  | EvWrite (path : string)
  | EvExec (args : list string) (ok : bool)
  | EvRecord (path command : string) (ok : bool)
  | EvPlay (path : string) (ok : bool)
  | EvPrint (line : string).

(** State, exceptions and the events emitted so far. *)
Definition M (A : Type) : Type := World → result A * World * list event.

#[global] Instance M_ret : MRet M := λ A a w, (Ok a, w, []).

#[global] Instance M_bind : MBind M := λ A B f m w,
  match m w with
  | (Ok a, w', ev) =>
      match f a w' with
      | (r, w'', ev') => (r, w'', ev ++ ev')
      end
  | (Raise e, w', ev) => (Raise e, w', ev)
  end.

Definition raise {A} (e : exn) : M A := λ w, (Raise e, w, []).

Definition os_path_exists (s : string) : M bool := λ w,
  (Ok (path_exists (w_disk w) (w_cwd w) s), w, []).

Definition os_mk (all exist_ok : bool) (s : string) : M unit := λ w,
  match mk_disk all exist_ok (w_disk w) (w_cwd w) s with
  | (d', Ok _) => (Ok tt, with_disk d' w, [EvMkdir s])
  | (d', Raise e) => (Raise e, with_disk d' w, [])
  end.

Definition os_makedirs (s : string) (exist_ok : bool) : M unit :=
  os_mk true exist_ok s.

Definition os_mkdir (s : string) : M unit := os_mk false false s.

Definition os_listdir (s : string) : M (list string) := λ w,
  match listdir_disk (w_disk w) (w_cwd w) s with
  | Ok l => (Ok l, w, [])
  | Raise e => (Raise e, w, [])
  end.

Definition write_content (filename : string) (c : content) : M unit := λ w,
  match write_disk (w_disk w) (w_cwd w) filename c with
  | Ok d' => (Ok tt, with_disk d' w, [EvWrite filename])
  | Raise e => (Raise e, w, [])
  end.

Definition read_content (filename : string) : M content := λ w,
  match read_disk (w_disk w) (w_cwd w) filename with
  | Ok c => (Ok c, w, [])
  | Raise e => (Raise e, w, [])
  end.

Definition print (line : string) : M unit := λ w, (Ok tt, w, [EvPrint line]).

(** ** The program *)

Definition REGISTRY_VERSION : Z := 1.

(** The command line after [argparse]: one namespace for all sub-commands,
    with [""] for an option that was not given. *)
Record Namespace := {
  arg_env : string;
  arg_name : string;
  arg_base : string;
  arg_version : string;
  arg_pkg : string;
}.

(** The three exceptions the program raises itself, under the names the
    design gives them. *)
Definition UnknownPackageManager : exn :=
  Exception "could not autodetect package manager".

Definition DuplicateVersion (name version : string) : exn :=
  Exception ("container " +:+ name +:+ " already has version " +:+ version
             +:+ ".").

Definition VersionNotFound : exn := Exception "that version doesn't exist".

Definition nl : string := String (ascii_of_nat 10) "".

Definition get_package_manager (base : string) : string :=
  if str_in "ubuntu" base then "apt"
  else if str_in "debian" base then "apt"
  else if str_in "centos" base then "yum"
  else if str_in "fedora" base then "yum"
  else "unknown".

Definition get_template (package_manager base : string) : string :=
  let template := "" in
  let template := template +:+ "BootStrap: docker" +:+ nl in
  let template := template +:+ "From: " +:+ base +:+ nl in
  let template := template +:+
    "%post -c /bin/bash" +:+ nl +:+
    "  set -ex" +:+ nl +:+
    "  touch /etc/localtime" +:+ nl +:+
    "  CUSTOM_ENV=/.singularity.d/env/99-zz_custom_env.sh" +:+ nl +:+
    "  cat >$CUSTOM_ENV <<EOF" +:+ nl +:+
    "#!/bin/bash" +:+ nl +:+
    "PS1='\u@neurodesk-builder:\w\$ '" +:+ nl +:+
    "EOF" +:+ nl +:+
    "  chmod 755 $CUSTOM_ENV" +:+ nl in
  let template :=
    if str_in "ubuntu" base then
      template +:+
      "sed -i -e 's/ports.ubuntu.com\/ubuntu-ports/mirror.aarnet.edu.au\/pub\/ubuntu\/ports/g' /etc/apt/sources.list"
      +:+ nl +:+
      "sed -i -e 's/archive.ubuntu.com\/ubuntu/mirror.aarnet.edu.au\/pub\/ubuntu\/archive/g' /etc/apt/sources.list"
      +:+ nl
    else template in
  if bool_decide (package_manager = "apt") then
    template +:+ "apt update -y" +:+ nl
  else if bool_decide (package_manager = "yum") then
    template +:+ "yum update -y" +:+ nl
  else template.

Definition get_container_run_command (sandbox : string) : string :=
  "sudo singularity shell --writable " +:+ sandbox.

Definition get_container_recording_path (version_path : string) : string :=
  os_path_join version_path "recording.cast".

Section Program.

Variable P : Platform.

Definition write_file (filename content : string) : M unit :=
  write_content filename (Text content).

Definition read_json (filename : string) : M registry :=
  c ← read_content filename;
  match c with
  | Json r => mret r
  | Text _ => raise JSONDecodeError
  end.

Definition write_json (filename : string) (obj : registry) : M unit :=
  write_content filename (Json obj).

(** [subprocess.check_call]: a non-zero exit raises. *)
Definition run_command (args : list string) : M unit := λ w,
  match check_call P args (w_cwd w) (w_disk w) with
  | (true, d') => (Ok tt, with_disk d' w, [EvExec args true])
  | (false, d') =>
      (Raise (CalledProcessError args), with_disk d' w, [EvExec args false])
  end.

Definition asciinema_record_asciicast (path command : string) : M unit := λ w,
  match record_asciicast P path command (w_cwd w) (w_disk w) with
  | (true, d') => (Ok tt, with_disk d' w, [EvRecord path command true])
  | (false, d') =>
      (Raise RecorderError, with_disk d' w, [EvRecord path command false])
  end.

(** [open_from_url] and [Player().play] together. *)
Definition asciinema_play (path : string) : M unit := λ w,
  match play P path (w_cwd w) (w_disk w) with
  | (true, d') => (Ok tt, with_disk d' w, [EvPlay path true])
  | (false, d') => (Raise PlayerError, with_disk d' w, [EvPlay path false])
  end.

Definition get_default_environment_path : M string :=
  mret (user_data_dir P).

(** [str(uuid.uuid4())]: the next identifier of the platform's source. *)
Definition uuid_uuid4 : M string := λ w,
  (Ok (uuid4 P (w_drawn w)),
   {| w_disk := w_disk w; w_cwd := w_cwd w; w_drawn := S (w_drawn w);
      w_now := w_now w |},
   []).

Definition generate_container_id : M string := uuid_uuid4.

Definition generate_version : M string := λ w, (Ok (w_now w), w, []).

Definition load_registry (env : string) : M registry :=
  let registry_path := os_path_join env "registry.json" in
  found ← os_path_exists registry_path;
  if negb found then
    _ ← os_makedirs (os_path_dirname registry_path) false;
    mret {| reg_version := REGISTRY_VERSION; containers := [] |}
  else read_json registry_path.

Definition save_registry (env : string) (registry : registry) : M unit :=
  let registry_path := os_path_join env "registry.json" in
  found ← os_path_exists registry_path;
  _ ← (if negb found then os_makedirs (os_path_dirname registry_path) true
       else mret tt);
  write_json registry_path registry.

Definition get_container_path (env name : string) : M string :=
  registry ← load_registry env;
  match dict_get (containers registry) name with
  | Some path => mret path
  | None =>
      container_id ← generate_container_id;
      let container_path := os_path_join env container_id in
      _ ← os_makedirs container_path false;
      let registry :=
        {| reg_version := reg_version registry;
           containers := dict_set (containers registry) name container_path |}
      in
      _ ← save_registry env registry;
      mret container_path
  end.

Definition get_container_version_path (container_path version : string)
    (mkdir : bool) : M (string * bool) :=
  let version_path := os_path_join container_path version in
  found ← os_path_exists version_path;
  if negb found then
    _ ← (if mkdir then os_mkdir version_path else mret tt);
    mret (version_path, false)
  else mret (version_path, true).

Definition build_container_sandbox (env package_manager base : string)
  : M (string * string) :=
  let template := get_template package_manager base in
  uuid ← uuid_uuid4;
  let temp_dir := os_path_join3 env "temp" uuid in
  _ ← os_makedirs temp_dir false;
  let template_file := os_path_join temp_dir "template" in
  _ ← write_file template_file template;
  let sandbox_dir := os_path_join temp_dir "sandbox" in
  _ ← run_command
        ["sudo"; "singularity"; "build"; "--sandbox"; sandbox_dir;
         template_file];
  mret (temp_dir, sandbox_dir).

Definition convert_container_to_sif (version_path sandbox_path : string)
  : M unit :=
  let container_path := os_path_join version_path "container.sif" in
  run_command ["sudo"; "singularity"; "build"; container_path; sandbox_path].

Definition cleanup_temporary_path (temp_dir : string) : M unit :=
  run_command ["sudo"; "rm"; "-rf"; temp_dir].

Definition resolve_env (env : string) : M string :=
  if bool_decide (env = "") then get_default_environment_path else mret env.

Definition cmd_create (args : Namespace) : M unit :=
  let name := arg_name args in
  let base := arg_base args in
  env ← resolve_env (arg_env args);
  version ← (if bool_decide (arg_version args = "") then generate_version
             else mret (arg_version args));
  package_manager ←
    (if bool_decide (arg_pkg args = "") then
       let package_manager := get_package_manager base in
       if bool_decide (package_manager = "unknown") then
         raise UnknownPackageManager
       else mret package_manager
     else mret (arg_pkg args));
  container_path ← get_container_path env name;
  '(version_path, found) ←
    get_container_version_path container_path version true;
  if found : bool then raise (DuplicateVersion name version)
  else
    '(temp_dir, sandbox) ← build_container_sandbox env package_manager base;
    let record_command := get_container_run_command sandbox in
    let recording_path := get_container_recording_path version_path in
    _ ← asciinema_record_asciicast recording_path record_command;
    _ ← convert_container_to_sif version_path sandbox;
    cleanup_temporary_path temp_dir.

Definition cmd_run (args : Namespace) : M unit :=
  let name := arg_name args in
  let version := arg_version args in
  env ← resolve_env (arg_env args);
  container_path ← get_container_path env name;
  '(version_path, found) ←
    get_container_version_path container_path version true;
  if negb found then raise VersionNotFound
  else
    let sif_path := os_path_join version_path "container.sif" in
    run_command ["singularity"; "run"; sif_path].

(** The inner loop of [cmd_list]: one container's versions. *)
Fixpoint list_children (container container_path : string)
    (entries : list string) : M unit :=
  match entries with
  | [] => mret tt
  | child :: rest =>
      let child_name := os_path_join3 container_path child "container.sif" in
      found ← os_path_exists child_name;
      _ ← (if found : bool then print (container +:+ " " +:+ child)
           else mret tt);
      list_children container container_path rest
  end.

(** The outer loop of [cmd_list]: the registry's containers in order. *)
Fixpoint list_containers (items : list (string * string)) : M unit :=
  match items with
  | [] => mret tt
  | (container, container_path) :: rest =>
      entries ← os_listdir container_path;
      _ ← list_children container container_path entries;
      list_containers rest
  end.

Definition cmd_list (args : Namespace) : M unit :=
  env ← resolve_env (arg_env args);
  registry ← load_registry env;
  list_containers (containers registry).

Definition cmd_replay (args : Namespace) : M unit :=
  let name := arg_name args in
  let version := arg_version args in
  env ← resolve_env (arg_env args);
  container_path ← get_container_path env name;
  '(version_path, found) ←
    get_container_version_path container_path version false;
  if negb found then raise VersionNotFound
  else
    let cast_filename := get_container_recording_path version_path in
    asciinema_play cast_filename.

End Program.

(** ** Notions the statements use *)

(** *** How the disk changes *)

(** [grows d d']: every entry of [d] is still there in [d'], a directory as a
    directory; an entry that changed was a file or absent before.  This is all
    the program itself ever does to the disk. *)
Definition grows (d d' : disk) : Prop :=
  ∀ a, d' !! a = d !! a ∨ (d !! a ≠ Some Dir ∧ is_Some (d' !! a)).

(** [adds_dirs d d']: the only change is new directories. *)
Definition adds_dirs (d d' : disk) : Prop :=
  ∀ a, d' !! a = d !! a ∨ (d !! a = None ∧ d' !! a = Some Dir).

(** A disk is well formed when every entry lies in a directory. *)
Definition disk_wf (d : disk) : Prop :=
  ∀ a, is_Some (d !! a) → is_dir_abs d (removelast a) = true.

(** *** Worlds and registries *)

Definition exists_in (w : World) (s : string) : bool :=
  path_exists (w_disk w) (w_cwd w) s.

Definition isdir_in (w : World) (s : string) : bool :=
  path_isdir (w_disk w) (w_cwd w) s.

(** The record stored in [<env>/registry.json], when there is one. *)
Definition stored_registry (w : World) (env : string) : option registry :=
  match read_disk (w_disk w) (w_cwd w) (os_path_join env "registry.json") with
  | Ok (Json r) => Some r
  | _ => None
  end.

(** [name] is registered under [env] with the directory [p]. *)
Definition registered (w : World) (env name p : string) : Prop :=
  ∃ r, stored_registry w env = Some r ∧ dict_get (containers r) name = Some p.

(** The environment root a command works in. *)
Definition the_env (P : Platform) (args : Namespace) : string :=
  if bool_decide (arg_env args = "") then user_data_dir P else arg_env args.

(** The working directory and the clock stay, and the disk [grows]. *)
Definition world_grows (w w' : World) : Prop :=
  grows (w_disk w) (w_disk w') ∧ w_cwd w' = w_cwd w ∧ w_now w' = w_now w.

(** The version a [create] builds: the one given, or the clock's. *)
Definition the_version (args : Namespace) (w : World) : string :=
  if bool_decide (arg_version args = "") then w_now w else arg_version args.

(** The package manager a [create] settles on, if any. *)
Definition package_manager_of (args : Namespace) : option string :=
  if bool_decide (arg_pkg args = "") then
    if bool_decide (get_package_manager (arg_base args) = "unknown") then None
    else Some (get_package_manager (arg_base args))
  else Some (arg_pkg args).

(** *** Package managers, tools and build traces *)

(** [sub] occurs in [s]. *)
Definition contains (sub s : string) : Prop :=
  ∃ pre post, s = pre +:+ sub +:+ post.

Definition is_tool (e : event) : bool :=
  match e with
  | EvExec _ _ | EvRecord _ _ _ | EvPlay _ _ => true
  | _ => false
  end.

(** The external tools a command started, in order, with their outcome. *)
Definition tool_events (ev : list event) : list event := List.filter is_tool ev.

(** A computation that starts no tool. *)
Definition quiet {A} (m : M A) : Prop := ∀ w, tool_events (m w).2 = [].

Definition sandbox_command (sandbox_dir template_file : string) : list string :=
  ["sudo"; "singularity"; "build"; "--sandbox"; sandbox_dir; template_file].

Definition convert_command (image sandbox : string) : list string :=
  ["sudo"; "singularity"; "build"; image; sandbox].

Definition cleanup_command (temp_dir : string) : list string :=
  ["sudo"; "rm"; "-rf"; temp_dir].




(** *** Writes of the registry *)

Definition writes_to (path : string) (e : event) : bool :=
  match e with
  | EvWrite p => bool_decide (p = path)
  | _ => false
  end.

(** How many times [path] was written. *)
Definition count_writes (path : string) (ev : list event) : nat :=
  length (List.filter (writes_to path) ev).

Definition is_registered (w : World) (env name : string) : bool :=
  match stored_registry w env with
  | Some r => bool_decide (is_Some (dict_get (containers r) name))
  | None => false
  end.

Definition fresh_registry : registry :=
  {| reg_version := REGISTRY_VERSION; containers := [] |}.

(** The record that [get_container_path] starts from when the name is new. *)
Definition base_registry (w : World) (env : string) : registry :=
  match stored_registry w env with
  | Some reg => reg
  | None => fresh_registry
  end.

Definition with_container (reg : registry) (name path : string) : registry :=
  {| reg_version := reg_version reg;
     containers := dict_set (containers reg) name path |}.

(** *** Invariants *)

(** The path that resolving [name] under [env] returns in the world [w]: the
    stored one, or [env] joined with the next identifier. *)
Definition container_path_of (P : Platform) (w : World) (env name : string)
  : string :=
  match stored_registry w env with
  | Some r =>
      match dict_get (containers r) name with
      | Some p => p
      | None => os_path_join env (uuid4 P (w_drawn w))
      end
  | None => os_path_join env (uuid4 P (w_drawn w))
  end.

(** The record stored at the place [a], if there is one, maps every name to
    a directory that exists. *)
Definition registry_ok_at (a : apath) (w : World) : Prop :=
  ∀ r, w_disk w !! a = Some (File (Json r)) →
  ∀ name p, dict_get (containers r) name = Some p → isdir_in w p = true.

(** The same for the record of an environment root. *)
Definition registry_ok (env : string) (w : World) : Prop :=
  ∀ r, stored_registry w env = Some r →
  ∀ name p, dict_get (containers r) name = Some p → isdir_in w p = true.


(** A run of an external tool, and the world it leaves. *)
Inductive tool_call :=
  | CallExec (args : list string)
  | CallRecord (path command : string)
  | CallPlay (path : string).

Definition after_call (P : Platform) (c : tool_call) (w : World) : World :=
  with_disk
    match c with
    | CallExec args => (check_call P args (w_cwd w) (w_disk w)).2
    | CallRecord path command =>
        (record_asciicast P path command (w_cwd w) (w_disk w)).2
    | CallPlay path => (play P path (w_cwd w) (w_disk w)).2
    end w.

(** The tool runs the commands issue when they work in the environment root
    [env]: the sandbox build, the recorder on a version's recording, the
    conversion into a version's image, the removal of a temporary workspace
    [<env>/temp/<uuid>], the run of a version's image and the replay of a
    version's recording. *)
Inductive issued (P : Platform) (env : string) : tool_call → Prop :=
  | issued_sandbox sb tf :
      issued P env (CallExec (sandbox_command sb tf))
  | issued_record vp command :
      issued P env (CallRecord (os_path_join vp "recording.cast") command)
  | issued_convert vp sb :
      issued P env
        (CallExec (convert_command (os_path_join vp "container.sif") sb))
  | issued_cleanup n :
      issued P env
        (CallExec (cleanup_command (os_path_join3 env "temp" (uuid4 P n))))
  | issued_run vp :
      issued P env
        (CallExec ["singularity"; "run"; os_path_join vp "container.sif"])
  | issued_play vp :
      issued P env (CallPlay (os_path_join vp "recording.cast")).

(** Every tool run that the commands issue under [env] keeps [I]. *)
Definition tools_preserve (P : Platform) (env : string) (I : World → Prop)
  : Prop :=
  ∀ c, issued P env c → ∀ w, I w → I (after_call P c w).

(** [m] keeps [I], however it ends. *)
Definition preserves {A} (I : World → Prop) (m : M A) : Prop :=
  ∀ w, I w → I (m w).1.2.

(** [I] survives what the program itself does to the world outside the
    registry: new directories, the template file, and drawing identifiers. *)
Record stable (I : World → Prop) : Prop := {
  stable_dirs : ∀ w d', adds_dirs (w_disk w) d' → I w → I (with_disk d' w);
  stable_template : ∀ w t c d',
    write_disk (w_disk w) (w_cwd w) (os_path_join t "template") (Text c)
    = Ok d' →
    I w → I (with_disk d' w);
  stable_frame : ∀ w w',
    w_disk w' = w_disk w → w_cwd w' = w_cwd w → w_now w' = w_now w →
    I w → I w';
}.

(** The steps of a [create] after the version was allocated. *)
Definition build_steps (P : Platform) (env package_manager base : string)
    (version_path : string) : M unit :=
  '(temp_dir, sandbox) ← build_container_sandbox P env package_manager base;
  _ ← asciinema_record_asciicast P
        (get_container_recording_path version_path)
        (get_container_run_command sandbox);
  _ ← convert_container_to_sif P version_path sandbox;
  cleanup_temporary_path P temp_dir.

(** The version [version] of [name] is allocated: the name is registered
    with [p] and the version path under [p] exists. *)
Definition allocated (env name version p : string) (w : World) : Prop :=
  registered w env name p ∧ exists_in w (os_path_join p version) = true.

(** *** Listings *)

(** The version [child] of the container stored at [container_path] has its
    image. *)
Definition has_image (w : World) (container_path child : string) : bool :=
  exists_in w (os_path_join3 container_path child "container.sif").

(** The entries of a directory, as [os.listdir] gives them. *)
Definition entries_of (w : World) (s : string) : list string :=
  match listdir_disk (w_disk w) (w_cwd w) s with
  | Ok entries => entries
  | Raise _ => []
  end.

(** What [list] should print for one container, and for all of them. *)
Definition listing_of (w : World) (item : string * string)
  : list (string * string) :=
  (λ child, (item.1, child)) <$>
  List.filter (has_image w item.2) (entries_of w item.2).

Definition listing (w : World) (items : list (string * string))
  : list (string * string) :=
  items ≫= listing_of w.

Definition render (cv : string * string) : event :=
  EvPrint (cv.1 +:+ " " +:+ cv.2).

(** *** Errors, shared directories, kept files and lines *)

(** A computation that never ends with one of the program's own errors. *)
Definition no_program_error {A} (m : M A) : Prop :=
  ∀ w msg, (m w).1.1 ≠ Raise (Exception msg).

(** No two names of the registry of [env] stand for the same directory. *)
Definition directories_distinct (env : string) (w : World) : Prop :=
  ∀ n1 n2 q1 q2 a,
    registered w env n1 q1 → registered w env n2 q2 →
    resolve (w_disk w) (w_cwd w) q1 = Some a →
    resolve (w_disk w) (w_cwd w) q2 = Some a →
    n1 = n2.


(** [s.split("\n")], and whether [s] has a line break. *)
Fixpoint lines (s : string) : list string :=
  match s with
  | EmptyString => [""]
  | String c s' =>
      if bool_decide (c = ascii_of_nat 10) then "" :: lines s'
      else match lines s' with
           | h :: t => String c h :: t
           | [] => [String c ""]
           end
  end.

Fixpoint has_line_break (s : string) : bool :=
  match s with
  | EmptyString => false
  | String c s' => bool_decide (c = ascii_of_nat 10) || has_line_break s'
  end.

(** ** A sample platform

    Tools that behave as the design expects of them, used to run the commands
    on concrete disks: the build engine makes the sandbox from an existing
    template and the image from an existing sandbox, the recorder writes the
    recording, [rm -rf] removes a subtree, and running or replaying needs the
    file to be there. *)
Module Sample.

Definition rm_rf (d : disk) (cwd : apath) (s : string) : disk :=
  match resolve d cwd s with
  | Some a => filter (λ kn, ¬ a `prefix_of` kn.1) d
  | None => d
  end.

Definition is_file (d : disk) (cwd : apath) (s : string) : bool :=
  match read_disk d cwd s with Ok _ => true | Raise _ => false end.

Definition tool (args : list string) (cwd : apath) (d : disk) : bool * disk :=
  match args with
  | [_; _; _; _; sandbox; template] =>
      if bool_decide (take 4 args = ["sudo"; "singularity"; "build"; "--sandbox"])
         && is_file d cwd template then
        match mk_disk false false d cwd sandbox with
        | (d', Ok _) => (true, d')
        | (_, Raise _) => (false, d)
        end
      else (false, d)
  | [_; _; _; image; sandbox] =>
      if bool_decide (take 3 args = ["sudo"; "singularity"; "build"])
         && path_isdir d cwd sandbox then
        match write_disk d cwd image (Text "SIF") with
        | Ok d' => (true, d')
        | Raise _ => (false, d)
        end
      else (false, d)
  | [_; _; _; target] =>
      if bool_decide (take 3 args = ["sudo"; "rm"; "-rf"]) then
        (true, rm_rf d cwd target)
      else (false, d)
  | [_; _; image] =>
      (bool_decide (take 2 args = ["singularity"; "run"]) && is_file d cwd image,
       d)
  | _ => (false, d)
  end.

Definition recorder (path command : string) (cwd : apath) (d : disk)
  : bool * disk :=
  match write_disk d cwd path (Text "asciicast") with
  | Ok d' => (true, d')
  | Raise _ => (false, d)
  end.

Definition player (path : string) (cwd : apath) (d : disk) : bool * disk :=
  (is_file d cwd path, d).

Fixpoint tally (n : nat) : string :=
  match n with
  | 0 => ""
  | S n' => "i" +:+ tally n'
  end.

Definition platform : Platform := {|
  user_data_dir := "/home/user/.local/share/neurobuilder";
  uuid4 := λ n, "c0ffee" +:+ tally n;
  check_call := tool;
  record_asciicast := recorder;
  play := player;
|}.


Definition world (d : disk) : World :=
  {| w_disk := d; w_cwd := []; w_drawn := 0; w_now := "20240101_0000" |}.

(** An environment root [/E] that exists and has no registry file yet. *)
Definition bare_root : disk := {[ ["E"] := Dir ]}.

(** [/E] with a registry that knows no container. *)
Definition empty_registry : disk :=
  <[ ["E"; "registry.json"] :=
       File (Json {| reg_version := 1; containers := [] |}) ]> bare_root.

(** [/E] after a build of [alpha] that stopped before the image was made:
    the version directory holds the recording only. *)
Definition partial_build : disk :=
  <[ ["E"; "registry.json"] :=
       File (Json {| reg_version := 1; containers := [("alpha", "/E/a1")] |}) ]>
  (<[ ["E"; "a1"; "v1"; "recording.cast"] := File (Text "asciicast") ]>
  (<[ ["E"; "a1"; "v1"] := Dir ]>
  (<[ ["E"; "a1"] := Dir ]> bare_root))).

Definition args (name version : string) : Namespace :=
  {| arg_env := "/E"; arg_name := name; arg_base := "ubuntu:22.04";
     arg_version := version; arg_pkg := "" |}.

End Sample.

(** ** Further sample states *)
Module Cases.

(** [/E] whose registry names the directory [/E/a1] of [alpha], which is
    not there. *)
Definition lost_directory : disk :=
  <[ ["E"; "registry.json"] :=
       File (Json {| reg_version := 1; containers := [("alpha", "/E/a1")] |}) ]>
  Sample.bare_root.

(** [/E] whose registry file does not hold JSON. *)
Definition garbled_registry : disk :=
  <[ ["E"; "registry.json"] := File (Text "{") ]> Sample.bare_root.


(** A platform whose tools are not installed: every run fails and leaves the
    disk alone. *)
Definition offline : Platform := {|
  user_data_dir := "/home/user/.local/share/neurobuilder";
  uuid4 := λ n, "c0ffee" +:+ Sample.tally n;
  check_call := λ _ _ d, (false, d);
  record_asciicast := λ _ _ _ d, (false, d);
  play := λ _ _ d, (false, d);
|}.

End Cases.

(** * Proofs *)

(** ** Reasoning about the disk *)

Lemma grows_refl d : grows d d.
Proof. intros a. by left. Qed.

Lemma grows_trans d1 d2 d3 : grows d1 d2 → grows d2 d3 → grows d1 d3.
Proof.
  intros H12 H23 a.
  destruct (H12 a) as [E12|[N1 S2]], (H23 a) as [E23|[N2 S3]].
  - left. congruence.
  - rewrite E12 in N2. by right.
  - right. split; [done|]. by rewrite E23.
  - by right.
Qed.

Lemma adds_dirs_refl d : adds_dirs d d.
Proof. intros a. by left. Qed.

Lemma adds_dirs_trans d1 d2 d3 :
  adds_dirs d1 d2 → adds_dirs d2 d3 → adds_dirs d1 d3.
Proof.
  intros H12 H23 a.
  destruct (H12 a) as [E12|[N1 S2]], (H23 a) as [E23|[N2 S3]].
  - left. congruence.
  - right. by rewrite <- E12.
  - right. split; [done|]. by rewrite E23.
  - congruence.
Qed.

Lemma adds_dirs_grows d d' : adds_dirs d d' → grows d d'.
Proof.
  intros H a. destruct (H a) as [E|[N S]]; [by left|right].
  rewrite N, S. split; [done|by eexists].
Qed.

Lemma adds_dirs_insert d a : d !! a = None → adds_dirs d (<[a := Dir]> d).
Proof.
  intros Hn k. destruct (decide (a = k)) as [->|Hne].
  - right. by rewrite lookup_insert_eq.
  - left. by rewrite lookup_insert_ne.
Qed.

Lemma grows_is_dir d d' a :
  grows d d' → is_dir_abs d a = true → is_dir_abs d' a = true.
Proof.
  intros H. unfold is_dir_abs. destruct a as [|c a]; [done|].
  destruct (H (c :: a)) as [->|[N _]]; [done|].
  destruct (d !! (c :: a)) as [[]|]; done.
Qed.

Lemma grows_exists d d' a :
  grows d d' → exists_abs d a = true → exists_abs d' a = true.
Proof.
  intros H. unfold exists_abs. destruct a as [|c a]; [done|].
  rewrite !bool_decide_eq_true.
  destruct (H (c :: a)) as [->|[_ S]]; done.
Qed.

Lemma grows_walk d d' cs : ∀ cur a,
  grows d d' → walk d cur cs = Some a → walk d' cur cs = Some a.
Proof.
  induction cs as [|c cs IH]; intros cur a H; simpl; [done|].
  destruct (is_dir_abs d cur) eqn:E; [|done].
  rewrite (grows_is_dir _ _ _ H E). by apply IH.
Qed.

Lemma grows_resolve d d' cwd s a :
  grows d d' → resolve d cwd s = Some a → resolve d' cwd s = Some a.
Proof.
  intros H. unfold resolve. destruct s; [done|]. by apply grows_walk.
Qed.

Lemma grows_path_exists d d' cwd s :
  grows d d' → path_exists d cwd s = true → path_exists d' cwd s = true.
Proof.
  intros H. unfold path_exists.
  destruct (resolve d cwd s) as [a|] eqn:E; [|done].
  rewrite (grows_resolve _ _ _ _ _ H E). by apply grows_exists.
Qed.

Lemma grows_path_isdir d d' cwd s :
  grows d d' → path_isdir d cwd s = true → path_isdir d' cwd s = true.
Proof.
  intros H. unfold path_isdir.
  destruct (resolve d cwd s) as [a|] eqn:E; [|done].
  rewrite (grows_resolve _ _ _ _ _ H E). by apply grows_is_dir.
Qed.

Lemma is_dir_exists d a : is_dir_abs d a = true → exists_abs d a = true.
Proof.
  unfold is_dir_abs, exists_abs. destruct a; [done|].
  destruct (d !! _) as [[]|] eqn:E; [|done..].
  intros _. apply bool_decide_eq_true. by eexists.
Qed.

Lemma path_isdir_exists d cwd s :
  path_isdir d cwd s = true → path_exists d cwd s = true.
Proof.
  unfold path_isdir, path_exists. destruct (resolve d cwd s); [|done].
  apply is_dir_exists.
Qed.

(** *** Creating directories *)

Lemma mk_walk_adds all cs : ∀ d cur made d' r,
  mk_walk all d cur cs made = (d', r) → adds_dirs d d'.
Proof.
  induction cs as [|c cs IH]; intros d cur made d' r; simpl.
  { intros [= <- _]. apply adds_dirs_refl. }
  destruct (is_dir_abs d cur); [|intros [= <- _]; apply adds_dirs_refl].
  destruct (special c); [by apply IH|].
  case_bool_decide; [by apply IH|].
  destruct (d !! (cur ++ [c])) eqn:El; [by apply IH|].
  destruct (all || _); [|intros [= <- _]; apply adds_dirs_refl].
  intros Hw. eapply adds_dirs_trans; [|by eapply IH].
  by apply adds_dirs_insert.
Qed.

Lemma is_dir_insert d a : is_dir_abs (<[a := Dir]> d) a = true.
Proof. unfold is_dir_abs. destruct a; [done|]. by rewrite lookup_insert_eq. Qed.

(** A successful walk ends where resolution ends on the new disk, and a
    directory it reports as made is one. *)
Lemma mk_walk_ok all cs : ∀ d cur made d' fin made',
  mk_walk all d cur cs made = (d', Ok (fin, made')) →
  walk d' cur cs = Some fin ∧
  ((made = true → is_dir_abs d cur = true) →
   made' = true → is_dir_abs d' fin = true).
Proof.
  induction cs as [|c cs IH]; intros d cur made d' fin made'; simpl.
  { intros [= <- <- <-]. split; [done|]. auto. }
  destruct (is_dir_abs d cur) eqn:Ed; [|done].
  unfold step. destruct (special c) eqn:Es.
  { intros Hw. pose proof (mk_walk_adds _ _ _ _ _ _ _ Hw) as Ha.
    rewrite (grows_is_dir _ _ _ (adds_dirs_grows _ _ Ha) Ed).
    destruct (IH _ _ _ _ _ _ Hw) as [Hq Hm]. split; [done|].
    intros _. apply Hm. done. }
  case_bool_decide as Edd.
  { intros Hw. pose proof (mk_walk_adds _ _ _ _ _ _ _ Hw) as Ha.
    rewrite (grows_is_dir _ _ _ (adds_dirs_grows _ _ Ha) Ed).
    destruct (IH _ _ _ _ _ _ Hw) as [Hq Hm]. split; [done|].
    intros _. apply Hm. done. }
  destruct (d !! (cur ++ [c])) eqn:El.
  { intros Hw. pose proof (mk_walk_adds _ _ _ _ _ _ _ Hw) as Ha.
    rewrite (grows_is_dir _ _ _ (adds_dirs_grows _ _ Ha) Ed).
    destruct (IH _ _ _ _ _ _ Hw) as [Hq Hm]. split; [done|].
    intros _. apply Hm. done. }
  destruct (all || _); [|done].
  intros Hw. pose proof (mk_walk_adds _ _ _ _ _ _ _ Hw) as Ha.
  assert (grows d d') as Hg.
  { eapply grows_trans; [|by apply adds_dirs_grows].
    apply adds_dirs_grows. by apply adds_dirs_insert. }
  rewrite (grows_is_dir _ _ _ Hg Ed).
  destruct (IH _ _ _ _ _ _ Hw) as [Hq Hm]. split; [done|].
  intros _. apply Hm. intros _. apply is_dir_insert.
Qed.

Lemma mk_disk_adds all exist_ok d cwd s d' r :
  mk_disk all exist_ok d cwd s = (d', r) → adds_dirs d d'.
Proof.
  unfold mk_disk. destruct s as [|c s]; [intros [= <- _]; apply adds_dirs_refl|].
  destruct (mk_walk _ _ _ _ _) as [d1 [[fin made]|e]] eqn:Hw.
  - pose proof (mk_walk_adds _ _ _ _ _ _ _ Hw).
    destruct (made || _); by intros [= <- _].
  - pose proof (mk_walk_adds _ _ _ _ _ _ _ Hw). by intros [= <- _].
Qed.

(** After a successful [os.makedirs] or [os.mkdir] the path is a directory. *)
Lemma mk_disk_ok_isdir all exist_ok d cwd s d' u :
  mk_disk all exist_ok d cwd s = (d', Ok u) → path_isdir d' cwd s = true.
Proof.
  unfold mk_disk, path_isdir, resolve. destruct s as [|c s]; [done|].
  destruct (mk_walk _ _ _ _ _) as [d1 [[fin made]|e]] eqn:Hw; [|done].
  destruct (mk_walk_ok _ _ _ _ _ _ _ _ Hw) as [Hq Hm].
  destruct made; cbn [orb].
  - intros [= <- _]. rewrite Hq. apply Hm; done.
  - destruct (exist_ok && is_dir_abs d1 fin) eqn:E; [|done].
    intros [= <- _]. rewrite Hq. by apply andb_true_iff in E as [_ ?].
Qed.

(** *** Paths as strings *)

Lemma append_cons c (s t : string) : String c s +:+ t = String c (s +:+ t).
Proof. reflexivity. Qed.

Lemma append_nil_l (t : string) : "" +:+ t = t.
Proof. reflexivity. Qed.

Lemma append_nil_r (s : string) : s +:+ "" = s.
Proof.
  induction s as [|c s IH]; [done|]. by rewrite append_cons, IH.
Qed.

Lemma append_assoc (a b c : string) : (a +:+ b) +:+ c = a +:+ (b +:+ c).
Proof.
  induction a as [|x a IH]; [done|]. by rewrite !append_cons, IH.
Qed.

Lemma has_sep_app (a b : string) : has_sep (a +:+ b) = has_sep a || has_sep b.
Proof.
  induction a as [|c a IH]; [done|]. rewrite append_cons. simpl.
  by rewrite IH, orb_assoc.
Qed.

Lemma components_nonempty s : components s ≠ [].
Proof.
  destruct s as [|c s]; simpl; [done|].
  case_bool_decide; [done|]. by destruct (components s).
Qed.

Lemma components_app_sep (a b : string) :
  components (a +:+ "/" +:+ b) = components a ++ components b.
Proof.
  induction a as [|c a IH]; [done|].
  rewrite append_cons. simpl.
  case_bool_decide; [by rewrite IH|].
  rewrite IH. pose proof (components_nonempty a).
  by destruct (components a).
Qed.

Lemma components_plain n : has_sep n = false → components n = [n].
Proof.
  induction n as [|c n IH]; simpl; [done|].
  intros [Hc Hn]%orb_false_iff. rewrite Hc, (IH Hn). done.
Qed.

Lemma endswith_sep_split t :
  endswith_sep t = true → ∃ t', t = t' +:+ "/".
Proof.
  induction t as [|c t IH]; [done|]. simpl.
  destruct t as [|c' t].
  - rewrite bool_decide_eq_true. intros ->. by exists "".
  - intros H. destruct (IH H) as [t' ->]. by exists (String c t').
Qed.

Lemma walk_app d xs ys : ∀ cur,
  walk d cur (xs ++ ys) = walk d cur xs ≫= λ b, walk d b ys.
Proof.
  induction xs as [|x xs IH]; intros cur; simpl; [done|].
  destruct (is_dir_abs d cur); [apply IH|done].
Qed.

Lemma plain_not_special n : plain_name n → special n = false.
Proof.
  intros (H1 & _ & H2 & _). unfold special.
  by rewrite !bool_decide_eq_false_2.
Qed.

Lemma step_plain cur n : plain_name n → step cur n = cur ++ [n].
Proof.
  intros Hn. unfold step. rewrite (plain_not_special _ Hn).
  destruct Hn as (_ & _ & _ & H). by rewrite bool_decide_eq_false_2.
Qed.

Lemma plain_startswith n : plain_name n → startswith_sep n = false.
Proof.
  intros (_ & H & _). destruct n as [|c n]; [done|]. simpl in *.
  by apply orb_false_iff in H as [? _].
Qed.

(** Walking one plain name from a directory. *)
Lemma walk_plain d b n :
  plain_name n →
  walk d b (components n) = if is_dir_abs d b then Some (b ++ [n]) else None.
Proof.
  intros Hn. rewrite (components_plain n) by apply Hn. simpl.
  by rewrite (step_plain _ _ Hn).
Qed.

(** Appending a component to a non-empty path keeps the starting point and
    extends what is walked. *)
Lemma anchor_app_sep cwd s n :
  s ≠ "" →
  anchor cwd (s +:+ "/" +:+ n) =
  ((anchor cwd s).1, (anchor cwd s).2 ++ components n).
Proof.
  destruct s as [|c s]; [done|]. intros _.
  rewrite append_cons. simpl.
  case_bool_decide; simpl.
  - by rewrite components_app_sep.
  - pose proof (components_app_sep (String c s) n) as H'.
    rewrite append_cons in H'. simpl in H'.
    rewrite bool_decide_eq_false_2 in H' by done. by rewrite H'.
Qed.

Lemma resolve_app_sep d cwd s n :
  s ≠ "" →
  resolve d cwd (s +:+ "/" +:+ n) =
  walk d (anchor cwd s).1 (anchor cwd s).2 ≫= λ b, walk d b (components n).
Proof.
  intros Hs. unfold resolve.
  rewrite anchor_app_sep by done. simpl fst. simpl snd. rewrite <- walk_app.
  destruct s as [|c s]; [done|]. by rewrite append_cons.
Qed.

Lemma resolve_nonempty d cwd s :
  s ≠ "" → resolve d cwd s = walk d (anchor cwd s).1 (anchor cwd s).2.
Proof. by destruct s. Qed.

(** The join of a path with a plain name is the name alone, or ends with a
    separator and the name. *)
Lemma join_plain_shape t n :
  plain_name n →
  (t = "" ∧ os_path_join t n = n) ∨
  (∃ x, os_path_join t n = x +:+ "/" +:+ n ∧
        (t = x ∧ x ≠ "" ∨ t = x +:+ "/")).
Proof.
  intros Hn. unfold os_path_join. rewrite (plain_startswith _ Hn).
  case_bool_decide as Ht; simpl.
  { left. by subst. }
  destruct (endswith_sep t) eqn:Ee.
  - destruct (endswith_sep_split _ Ee) as [x ->]. right. exists x.
    split; [by rewrite append_assoc|by right].
  - right. exists t. auto.
Qed.

(** The join of a directory with a plain name is walked by first walking to
    the directory and then taking the name. *)
Lemma anchor_join_plain d cwd t n :
  plain_name n → path_isdir d cwd t = true →
  ∃ a xs, resolve d cwd t = Some a ∧ is_dir_abs d a = true ∧
          os_path_join t n ≠ "" ∧
          (anchor cwd (os_path_join t n)).2 = xs ++ [n] ∧
          walk d (anchor cwd (os_path_join t n)).1 xs = Some a.
Proof.
  intros Hn Hd. unfold path_isdir in Hd.
  destruct (resolve d cwd t) as [a|] eqn:Er; [|done].
  exists a.
  destruct (join_plain_shape t n Hn) as [[-> _]|(x & -> & [[-> Hx]| ->])];
    [done| |].
  - (* t does not end with a separator *)
    exists (anchor cwd x).2. rewrite anchor_app_sep by done.
    rewrite (components_plain n) by apply Hn.
    rewrite resolve_nonempty in Er by done.
    repeat split; try done. destruct x; [done|]. by rewrite append_cons.
  - (* t ends with a separator *)
    destruct (decide (x = "")) as [->|Hx].
    + exists []. rewrite append_nil_l in *. unfold resolve in Er. simpl in Er.
      injection Er as <-. change ("/" +:+ n) with (String sep n). simpl.
      rewrite (components_plain n) by apply Hn. done.
    + exists (anchor cwd x).2. rewrite anchor_app_sep by done.
      rewrite (components_plain n) by apply Hn.
      replace (x +:+ "/") with (x +:+ "/" +:+ "") in Er by done.
      rewrite resolve_app_sep in Er by done.
      destruct (walk d _ (anchor cwd x).2) as [b|]; [|done].
      simpl in Er. destruct (is_dir_abs d b) eqn:Eb; [|done].
      unfold step in Er. simpl in Er. injection Er as <-.
      repeat split; try done. destruct x; [done|]. by rewrite append_cons.
Qed.

(** Resolving the join of a directory with a plain name: the directory's
    place followed by the name. *)
Lemma resolve_join_plain d cwd t n :
  plain_name n → path_isdir d cwd t = true →
  ∃ a, resolve d cwd t = Some a ∧ is_dir_abs d a = true ∧
       resolve d cwd (os_path_join t n) = Some (a ++ [n]).
Proof.
  intros Hn Hd.
  destruct (anchor_join_plain d cwd t n Hn Hd)
    as (a & xs & Hr & Ha & Hne & Hcs & Hw).
  exists a. split; [done|]. split; [done|].
  rewrite resolve_nonempty by done. rewrite Hcs, walk_app, Hw. simpl.
  by rewrite Ha, (step_plain _ _ Hn).
Qed.

(** Whatever a path joined with a plain name resolves to ends with that
    name. *)
Lemma resolve_join_last d cwd t n a :
  plain_name n → resolve d cwd (os_path_join t n) = Some a →
  ∃ b, a = b ++ [n].
Proof.
  intros Hn. destruct (join_plain_shape t n Hn) as [[-> ->]|(x & -> & _)].
  - rewrite resolve_nonempty by apply Hn.
    destruct n as [|c n]; [by destruct Hn|].
    pose proof (plain_startswith _ Hn) as Hs. simpl in Hs.
    unfold anchor. rewrite Hs. simpl fst. simpl snd.
    rewrite (walk_plain _ _ _ Hn).
    destruct (is_dir_abs d cwd); [|done]. intros [= <-]. by eexists.
  - destruct (decide (x = "")) as [->|Hx].
    + rewrite append_nil_l. unfold resolve. simpl.
      rewrite (walk_plain _ _ _ Hn). simpl. intros [= <-]. by exists [].
    + rewrite resolve_app_sep by done.
      destruct (walk d _ _) as [b|]; [|done]. simpl.
      rewrite (walk_plain _ _ _ Hn).
      destruct (is_dir_abs d b); [|done]. intros [= <-]. by eexists.
Qed.

(** *** Reading and writing files *)

Lemma write_disk_ok d cwd s c d' :
  write_disk d cwd s c = Ok d' →
  ∃ a, resolve d cwd s = Some a ∧ is_dir_abs d a = false ∧
       d' = <[a := File c]> d.
Proof.
  unfold write_disk. destruct (resolve d cwd s) as [a|]; [|done].
  destruct (is_dir_abs d a) eqn:E; [done|].
  destruct (is_dir_abs d (removelast a)); [|done].
  intros [= <-]. by exists a.
Qed.

Lemma grows_insert_file d a c :
  is_dir_abs d a = false → grows d (<[a := File c]> d).
Proof.
  intros Hn k. destruct (decide (a = k)) as [<-|Hne].
  - right. rewrite lookup_insert_eq. split; [|by eexists].
    intros Hd. unfold is_dir_abs in Hn. destruct a; [done|]. by rewrite Hd in Hn.
  - left. by rewrite lookup_insert_ne.
Qed.

Lemma write_disk_grows d cwd s c d' :
  write_disk d cwd s c = Ok d' → grows d d'.
Proof.
  intros (a & _ & Hn & ->)%write_disk_ok. by apply grows_insert_file.
Qed.

Lemma read_disk_ok d cwd s c :
  read_disk d cwd s = Ok c ↔
  ∃ a, resolve d cwd s = Some a ∧ a ≠ [] ∧ d !! a = Some (File c).
Proof.
  unfold read_disk. split.
  - destruct (resolve d cwd s) as [a|]; [|done].
    destruct (is_dir_abs d a) eqn:Ed; [done|].
    destruct (d !! a) as [[|c']|] eqn:E; [done| |done].
    intros [= <-]. exists a. split; [done|]. split; [|done].
    by intros ->.
  - intros (a & -> & Hne & Ha).
    assert (is_dir_abs d a = false) as ->.
    { unfold is_dir_abs. destruct a; [done|]. by rewrite Ha. }
    by rewrite Ha.
Qed.

Lemma read_disk_exists d cwd s c :
  read_disk d cwd s = Ok c → path_exists d cwd s = true.
Proof.
  intros (a & Hr & Hne & Ha)%read_disk_ok. unfold path_exists. rewrite Hr.
  unfold exists_abs. destruct a; [done|]. apply bool_decide_eq_true.
  by eexists.
Qed.

(** New directories do not change what a readable file holds. *)
Lemma adds_dirs_read d d' cwd s c :
  adds_dirs d d' → read_disk d cwd s = Ok c → read_disk d' cwd s = Ok c.
Proof.
  intros Ha (a & Hr & Hne & Hl)%read_disk_ok. apply read_disk_ok.
  exists a. split; [|split; [done|]].
  - eapply grows_resolve; [by apply adds_dirs_grows|done].
  - destruct (Ha a) as [->|[? _]]; congruence.
Qed.

(** A file that was written reads back as written. *)
Lemma read_write_same d cwd s c d' :
  write_disk d cwd s c = Ok d' → read_disk d' cwd s = Ok c.
Proof.
  intros Hw. pose proof (write_disk_grows _ _ _ _ _ Hw) as Hg.
  destruct (write_disk_ok _ _ _ _ _ Hw) as (a & Hr & Hn & ->).
  apply read_disk_ok. exists a. split; [by eapply grows_resolve|].
  split; [by intros ->|]. by rewrite lookup_insert_eq.
Qed.

(** Writing one file leaves a file stored elsewhere as it was. *)
Lemma read_write_other d cwd s c d' s2 c2 :
  write_disk d cwd s c = Ok d' → read_disk d cwd s2 = Ok c2 →
  resolve d cwd s ≠ resolve d cwd s2 → read_disk d' cwd s2 = Ok c2.
Proof.
  intros Hw (a2 & Hr2 & Hne & Hl)%read_disk_ok Hdiff.
  pose proof (write_disk_grows _ _ _ _ _ Hw) as Hg.
  destruct (write_disk_ok _ _ _ _ _ Hw) as (a & Hr & Hn & ->).
  apply read_disk_ok. exists a2. split; [by eapply grows_resolve|].
  split; [done|]. rewrite lookup_insert_ne; [done|]. congruence.
Qed.

(** *** Directory listings *)




(** ** Reasoning about commands *)

Lemma with_disk_same w : with_disk (w_disk w) w = w.
Proof. by destruct w. Qed.

Lemma world_grows_refl w : world_grows w w.
Proof. split; [apply grows_refl|done]. Qed.

Lemma world_grows_trans w1 w2 w3 :
  world_grows w1 w2 → world_grows w2 w3 → world_grows w1 w3.
Proof.
  intros (G1 & C1 & N1) (G2 & C2 & N2).
  split; [by eapply grows_trans|]. split; congruence.
Qed.

Lemma bind_run {A B} (m : M A) (f : A → M B) (w : World) :
  (m ≫= f) w =
  match m w with
  | (Ok a, w', ev) =>
      match f a w' with
      | (r, w'', ev') => (r, w'', ev ++ ev')
      end
  | (Raise e, w', ev) => (Raise e, w', ev)
  end.
Proof. reflexivity. Qed.

Lemma ret_run {A} (a : A) (w : World) : (mret a : M A) w = (Ok a, w, []).
Proof. reflexivity. Qed.

(** A step that returns without touching the world or emitting anything can
    be dropped. *)
Lemma bind_pure {A B} (m : M A) (f : A → M B) (w : World) (a : A) :
  m w = (Ok a, w, []) → (m ≫= f) w = f a w.
Proof. intros H. rewrite bind_run, H. by destruct (f a w) as [[r w'] ev]. Qed.

Lemma bind_raise {A B} (m : M A) (f : A → M B) (w w' : World) e ev :
  m w = (Raise e, w', ev) → (m ≫= f) w = (Raise e, w', ev).
Proof. intros H. by rewrite bind_run, H. Qed.

Section Commands.

Variable P : Platform.

Lemma resolve_env_run env w :
  resolve_env P env w =
  (Ok (if bool_decide (env = "") then user_data_dir P else env), w, []).
Proof. unfold resolve_env. by case_bool_decide. Qed.

(** [os.makedirs] and [os.mkdir]: what a call can do. *)
Lemma os_mk_run all exist_ok s w r w' ev :
  os_mk all exist_ok s w = (r, w', ev) →
  adds_dirs (w_disk w) (w_disk w') ∧ w_cwd w' = w_cwd w ∧
  w_now w' = w_now w ∧ w_drawn w' = w_drawn w ∧
  match r with
  | Ok _ => ev = [EvMkdir s] ∧ isdir_in w' s = true
  | Raise _ => ev = []
  end.
Proof.
  unfold os_mk.
  destruct (mk_disk _ _ _ _ _) as [d' [u|e]] eqn:Hm; intros [= <- <- <-];
    pose proof (mk_disk_adds _ _ _ _ _ _ _ Hm); simpl; repeat split; try done.
  unfold isdir_in. simpl. by eapply mk_disk_ok_isdir.
Qed.

Lemma stored_registry_exists w env r :
  stored_registry w env = Some r →
  exists_in w (os_path_join env "registry.json") = true.
Proof.
  unfold stored_registry, exists_in.
  destruct (read_disk _ _ _) as [c|] eqn:E; [|done].
  intros _. by eapply read_disk_exists.
Qed.

Lemma stored_registry_read w env r :
  stored_registry w env = Some r ↔
  read_disk (w_disk w) (w_cwd w) (os_path_join env "registry.json")
  = Ok (Json r).
Proof.
  unfold stored_registry. destruct (read_disk _ _ _) as [[r'|t]|e]; split;
    intros; simplify_eq; done.
Qed.

(** With a stored record, [load_registry] returns it and does nothing else. *)
Lemma load_registry_stored env w r :
  stored_registry w env = Some r → load_registry env w = (Ok r, w, []).
Proof.
  intros Hs. unfold load_registry. rewrite bind_run. unfold os_path_exists.
  fold (exists_in w (os_path_join env "registry.json")).
  rewrite (stored_registry_exists _ _ _ Hs). simpl.
  unfold read_json. rewrite bind_run. unfold read_content.
  apply stored_registry_read in Hs. by rewrite Hs.
Qed.

(** A registered name resolves to its stored directory; nothing is made,
    written or drawn. *)
Lemma get_container_path_registered env name p w :
  registered w env name p →
  get_container_path P env name w = (Ok p, w, []).
Proof.
  intros (r & Hs & Hg). unfold get_container_path.
  rewrite bind_run, (load_registry_stored _ _ _ Hs). by rewrite Hg.
Qed.

Lemma get_container_version_path_found p v mk w :
  exists_in w (os_path_join p v) = true →
  get_container_version_path p v mk w = (Ok (os_path_join p v, true), w, []).
Proof.
  intros He. unfold get_container_version_path. rewrite bind_run.
  unfold os_path_exists. fold (exists_in w (os_path_join p v)).
  by rewrite He.
Qed.

Lemma get_container_version_path_absent p v w :
  exists_in w (os_path_join p v) = false →
  get_container_version_path p v false w
  = (Ok (os_path_join p v, false), w, []).
Proof.
  intros He. unfold get_container_version_path. rewrite bind_run.
  unfold os_path_exists. fold (exists_in w (os_path_join p v)).
  by rewrite He.
Qed.

(** [mk_walk] follows a walk that stays on existing directories without
    making anything. *)
Lemma walk_from_dir d xs : ∀ c a,
  walk d c xs = Some a → is_dir_abs d a = true → is_dir_abs d c = true.
Proof.
  destruct xs as [|x xs]; intros c a; simpl; [by intros [= ->]|].
  by destruct (is_dir_abs d c).
Qed.

Lemma mk_walk_follow all d ys xs : ∀ start a,
  walk d start xs = Some a → is_dir_abs d a = true →
  mk_walk all d start (xs ++ ys) false = mk_walk all d a ys false.
Proof.
  induction xs as [|x xs IH]; intros start a; simpl.
  { by intros [= ->] _. }
  destruct (is_dir_abs d start) eqn:Es; [|done]. unfold step.
  destruct (special x); [by apply IH|].
  case_bool_decide; [by apply IH|].
  intros Hw Ha. pose proof (walk_from_dir _ _ _ _ Hw Ha) as Hd.
  unfold is_dir_abs in Hd. destruct (start ++ [x]) as [|y l] eqn:E.
  { by destruct start. }
  destruct (d !! (y :: l)) as [n|]; [|done]. by apply IH.
Qed.

Lemma get_container_version_path_mkdir p v w :
  exists_in w (os_path_join p v) = false →
  get_container_version_path p v true w =
  match os_mkdir (os_path_join p v) w with
  | (Ok _, w', ev) => (Ok (os_path_join p v, false), w', ev)
  | (Raise e, w', ev) => (Raise e, w', ev)
  end.
Proof.
  intros He. unfold get_container_version_path.
  rewrite (bind_pure _ _ w false) by (unfold os_path_exists; by rewrite <- He).
  change (negb false) with true. cbv iota. rewrite bind_run.
  destruct (os_mkdir _ w) as [[[u|e] w'] ev]; [|done].
  rewrite ret_run. by rewrite app_nil_r.
Qed.

(** [os.mkdir] of a plain name inside a directory succeeds when the name is
    free, and makes exactly that directory. *)
Lemma mk_disk_plain d cwd p v :
  plain_name v → path_isdir d cwd p = true →
  path_exists d cwd (os_path_join p v) = false →
  ∃ a, resolve d cwd p = Some a ∧ d !! (a ++ [v]) = None ∧
       mk_disk false false d cwd (os_path_join p v)
       = (<[a ++ [v] := Dir]> d, Ok tt).
Proof.
  intros Hv Hd He.
  destruct (anchor_join_plain d cwd p v Hv Hd)
    as (a & xs & Hr & Ha & Hne & Hcs & Hw).
  destruct (resolve_join_plain d cwd p v Hv Hd) as (a' & Hr' & _ & Hj).
  assert (a' = a) as -> by congruence.
  exists a. split; [done|].
  unfold path_exists in He. rewrite Hj in He.
  assert (d !! (a ++ [v]) = None) as Hn.
  { unfold exists_abs in He. destruct (a ++ [v]) eqn:E.
    - by destruct a.
    - apply bool_decide_eq_false in He. by apply eq_None_not_Some. }
  split; [done|].
  unfold mk_disk. destruct (os_path_join p v) as [|c s] eqn:Ej; [done|].
  rewrite Hcs.
  rewrite (mk_walk_follow false d [v] xs _ a Hw Ha).
  simpl. rewrite Ha, (plain_not_special _ Hv).
  destruct Hv as (_ & _ & _ & Hdd). rewrite bool_decide_eq_false_2 by done.
  by rewrite Hn.
Qed.

(** [cmd_create] up to the allocation of the version. *)
Lemma cmd_create_prefix args w :
  cmd_create P args w =
  match package_manager_of args with
  | None => (Raise UnknownPackageManager, w, [])
  | Some package_manager =>
      (container_path ← get_container_path P (the_env P args) (arg_name args);
       '(version_path, found) ←
         get_container_version_path container_path (the_version args w) true;
       if found : bool
       then raise (DuplicateVersion (arg_name args) (the_version args w))
       else
         '(temp_dir, sandbox) ←
           build_container_sandbox P (the_env P args) package_manager
             (arg_base args);
         _ ← asciinema_record_asciicast P
               (get_container_recording_path version_path)
               (get_container_run_command sandbox);
         _ ← convert_container_to_sif P version_path sandbox;
         cleanup_temporary_path P temp_dir) w
  end.
Proof.
  unfold cmd_create, package_manager_of.
  rewrite (bind_pure _ _ _ _ (resolve_env_run _ _)). fold (the_env P args).
  rewrite (bind_pure _ _ w (the_version args w)).
  2: { unfold the_version. by case_bool_decide. }
  case_bool_decide as Ep; [case_bool_decide as Eu|].
  - by apply bind_raise.
  - by rewrite (bind_pure _ _ _ _ (ret_run _ _)).
  - by rewrite (bind_pure _ _ _ _ (ret_run _ _)).
Qed.

(** A [create] of a version whose directory is there fails at once. *)
Lemma cmd_create_duplicate args w p pm :
  package_manager_of args = Some pm →
  registered w (the_env P args) (arg_name args) p →
  exists_in w (os_path_join p (the_version args w)) = true →
  cmd_create P args w
  = (Raise (DuplicateVersion (arg_name args) (the_version args w)), w, []).
Proof.
  intros Hpm Hreg Hex. rewrite cmd_create_prefix, Hpm.
  rewrite (bind_pure _ _ _ _ (get_container_path_registered _ _ _ _ Hreg)).
  by rewrite (bind_pure _ _ _ _ (get_container_version_path_found _ _ _ _ Hex)).
Qed.

(** [cmd_run] and [cmd_replay] for a registered name. *)
Lemma cmd_run_found args w p :
  registered w (the_env P args) (arg_name args) p →
  exists_in w (os_path_join p (arg_version args)) = true →
  cmd_run P args w
  = run_command P
      ["singularity"; "run";
       os_path_join (os_path_join p (arg_version args)) "container.sif"] w.
Proof.
  intros Hreg Hex. unfold cmd_run.
  rewrite (bind_pure _ _ _ _ (resolve_env_run _ _)). fold (the_env P args).
  rewrite (bind_pure _ _ _ _ (get_container_path_registered _ _ _ _ Hreg)).
  by rewrite (bind_pure _ _ _ _ (get_container_version_path_found _ _ _ _ Hex)).
Qed.

Lemma cmd_run_missing args w p :
  registered w (the_env P args) (arg_name args) p →
  isdir_in w p = true → plain_name (arg_version args) →
  exists_in w (os_path_join p (arg_version args)) = false →
  ∃ a, resolve (w_disk w) (w_cwd w) p = Some a ∧
       w_disk w !! (a ++ [arg_version args]) = None ∧
       cmd_run P args w
       = (Raise VersionNotFound,
          with_disk (<[a ++ [arg_version args] := Dir]> (w_disk w)) w,
          [EvMkdir (os_path_join p (arg_version args))]).
Proof.
  intros Hreg Hd Hv Hex.
  destruct (mk_disk_plain _ _ _ _ Hv Hd Hex) as (a & Hr & Hn & Hm).
  exists a. split; [done|]. split; [done|]. unfold cmd_run.
  rewrite (bind_pure _ _ _ _ (resolve_env_run _ _)). fold (the_env P args).
  rewrite (bind_pure _ _ _ _ (get_container_path_registered _ _ _ _ Hreg)).
  rewrite bind_run, (get_container_version_path_mkdir _ _ _ Hex).
  unfold os_mkdir, os_mk. rewrite Hm. done.
Qed.

Lemma cmd_replay_missing args w p :
  registered w (the_env P args) (arg_name args) p →
  exists_in w (os_path_join p (arg_version args)) = false →
  cmd_replay P args w = (Raise VersionNotFound, w, []).
Proof.
  intros Hreg Hex. unfold cmd_replay.
  rewrite (bind_pure _ _ _ _ (resolve_env_run _ _)). fold (the_env P args).
  rewrite (bind_pure _ _ _ _ (get_container_path_registered _ _ _ _ Hreg)).
  by rewrite (bind_pure _ _ _ _ (get_container_version_path_absent _ _ _ Hex)).
Qed.

End Commands.

(** ** Replay, run and the version directory *)

(** C1 (the code departs from it).  [replay] is meant to create nothing, and
    passes [mkdir=False] for the version directory, but it resolves the
    container through [get_container_path], which registers an unknown name:
    on an environment root whose registry does not know [alpha], replaying
    [alpha v1] raises the version-not-found error after having made the
    container directory [/E/c0ffee] and rewritten the registry. *)
Theorem replay_unknown_name_registers_container :
  let w := Sample.world Sample.empty_registry in
  let out := cmd_replay Sample.platform (Sample.args "alpha" "v1") w in
  out.1.1 = Raise VersionNotFound ∧
  out.2 = [EvMkdir "/E/c0ffee"; EvWrite "/E/registry.json"] ∧
  isdir_in w "/E/c0ffee" = false ∧
  isdir_in out.1.2 "/E/c0ffee" = true ∧
  stored_registry w "/E"
  = Some {| reg_version := 1; containers := [] |} ∧
  stored_registry out.1.2 "/E"
  = Some {| reg_version := 1; containers := [("alpha", "/E/c0ffee")] |}.
Proof. vm_compute. repeat split. Qed.

(** For a name the registry knows, [replay] of a version that is not there
    does fail without touching anything. *)
Lemma replay_registered_leaves_world (P : Platform) args w p :
  registered w (the_env P args) (arg_name args) p →
  exists_in w (os_path_join p (arg_version args)) = false →
  cmd_replay P args w = (Raise VersionNotFound, w, []).
Proof. apply cmd_replay_missing. Qed.

(** C2, as the code has it.  [run] looks at the version directory, not at
    the image: when the directory is missing (under an existing container
    directory, for a plain version name) it makes it and raises the
    version-not-found error; when the version path exists the command is the
    call of [singularity run] on [container.sif], whether that file is there
    or not. *)
Theorem run_checks_the_version_directory (P : Platform) args w p :
  registered w (the_env P args) (arg_name args) p →
  (exists_in w (os_path_join p (arg_version args)) = true →
   cmd_run P args w
   = run_command P
       ["singularity"; "run";
        os_path_join (os_path_join p (arg_version args)) "container.sif"] w) ∧
  (exists_in w (os_path_join p (arg_version args)) = false →
   isdir_in w p = true → plain_name (arg_version args) →
   ∃ w', cmd_run P args w
         = (Raise VersionNotFound, w',
            [EvMkdir (os_path_join p (arg_version args))])).
Proof.
  intros Hreg. split.
  - by apply cmd_run_found.
  - intros Hex Hd Hv.
    destruct (cmd_run_missing P args w p Hreg Hd Hv Hex) as (a & _ & _ & ->).
    by eexists.
Qed.

Lemma sample_partial_build_registered :
  registered (Sample.world Sample.partial_build) "/E" "alpha" "/E/a1".
Proof. eexists. split; [vm_compute; reflexivity|reflexivity]. Defined.

Lemma run_checks_the_version_directory_witness :
  registered (Sample.world Sample.partial_build) "/E" "alpha" "/E/a1" ∧
  exists_in (Sample.world Sample.partial_build) "/E/a1/v1" = true ∧
  cmd_run Sample.platform (Sample.args "alpha" "v1")
    (Sample.world Sample.partial_build)
  = run_command Sample.platform
      ["singularity"; "run"; "/E/a1/v1/container.sif"]
      (Sample.world Sample.partial_build).
Proof.
  split; [exact sample_partial_build_registered|].
  split; [vm_compute; reflexivity|].
  apply (run_checks_the_version_directory Sample.platform
           (Sample.args "alpha" "v1") (Sample.world Sample.partial_build)
           "/E/a1" sample_partial_build_registered).
  vm_compute; reflexivity.
Defined.

(** C2, as stated, fails: the version directory of a build that stopped
    before the image was made holds no [container.sif], and [run] still
    starts the external tool instead of raising the version-not-found
    error. *)
Lemma run_without_image_starts_the_tool :
  let w := Sample.world Sample.partial_build in
  let out := cmd_run Sample.platform (Sample.args "alpha" "v1") w in
  registered w "/E" "alpha" "/E/a1" ∧
  exists_in w "/E/a1/v1/container.sif" = false ∧
  out.1.1 ≠ Raise VersionNotFound ∧
  out.2 = [EvExec ["singularity"; "run"; "/E/a1/v1/container.sif"] false].
Proof.
  split; [exact sample_partial_build_registered|].
  vm_compute. repeat split. discriminate.
Qed.

(** C3 (the code departs from it).  On an environment root that exists and
    has no registry file yet, [load_registry] calls [os.makedirs] on the root
    without [exist_ok] and raises [FileExistsError] instead of returning the
    fresh record; [save_registry] on the same root passes [exist_ok=True] and
    succeeds. *)
Theorem load_registry_on_existing_root_raises :
  let w := Sample.world Sample.bare_root in
  isdir_in w "/E" = true ∧
  exists_in w "/E/registry.json" = false ∧
  load_registry "/E" w = (Raise FileExistsError, w, []) ∧
  (save_registry "/E" {| reg_version := 1; containers := [] |} w).1.1 = Ok tt.
Proof. vm_compute. repeat split. Qed.


Lemma registered_adds_dirs w d' env name p :
  adds_dirs (w_disk w) d' →
  registered w env name p → registered (with_disk d' w) env name p.
Proof.
  intros Ha (r & Hs & Hg). exists r. split; [|done].
  apply stored_registry_read. apply stored_registry_read in Hs.
  by eapply adds_dirs_read.
Qed.





(** ** Package manager detection *)

Lemma prefix_spec n h :
  String.prefix n h = true ↔ ∃ post, h = n +:+ post.
Proof.
  revert h. induction n as [|c n IH]; intros h.
  { split; [|intros _; by destruct h]. intros _. exists h. reflexivity. }
  destruct h as [|c' h].
  { split; [done|]. intros [post Hp]. by rewrite append_cons in Hp. }
  change (String.prefix (String c n) (String c' h))
    with (if Ascii.ascii_dec c c' then String.prefix n h else false).
  destruct (Ascii.ascii_dec c c') as [->|Hne].
  - rewrite IH. split; intros [post Hp]; exists post.
    + by rewrite append_cons, Hp.
    + rewrite append_cons in Hp. by injection Hp.
  - split; [done|]. intros [post Hp]. rewrite append_cons in Hp.
    injection Hp as Hc _. congruence.
Qed.

(** Python's [in] on strings is the occurrence of a substring. *)
Lemma str_in_spec n h : str_in n h = true ↔ contains n h.
Proof.
  induction h as [|c h IH].
  - change (str_in n "") with (String.prefix n "" || false).
    rewrite orb_false_r, prefix_spec. split.
    + intros [post Hp]. exists "", post. by rewrite append_nil_l.
    + intros (pre & post & Hp). destruct pre as [|c pre]; [by exists post|].
      by rewrite append_cons in Hp.
  - change (str_in n (String c h))
      with (String.prefix n (String c h) || str_in n h).
    rewrite orb_true_iff, prefix_spec, IH. split.
    + intros [[post Hp]|(pre & post & Hp)].
      * exists "", post. by rewrite append_nil_l.
      * exists (String c pre), post. by rewrite append_cons, Hp.
    + intros (pre & post & Hp). destruct pre as [|c' pre].
      * left. by exists post.
      * right. rewrite append_cons in Hp. injection Hp as _ Hp.
        by exists pre, post.
Qed.

Lemma str_in_false n h : str_in n h = false ↔ ¬ contains n h.
Proof. rewrite <- str_in_spec. by destruct (str_in n h). Qed.

(** C9, as the code has it.  Detection is a string match that takes the
    first hit in the order ubuntu, debian, centos, fedora: a name containing
    "ubuntu" or "debian" gives apt; a name containing "centos" or "fedora"
    and neither of the first two gives yum; any other name gives no package
    manager, and a [create] without an explicit one raises
    [UnknownPackageManager] before touching anything. *)
Theorem package_manager_first_match (base : string) :
  (contains "ubuntu" base ∨ contains "debian" base →
   get_package_manager base = "apt") ∧
  (¬ contains "ubuntu" base → ¬ contains "debian" base →
   contains "centos" base ∨ contains "fedora" base →
   get_package_manager base = "yum") ∧
  (¬ contains "ubuntu" base → ¬ contains "debian" base →
   ¬ contains "centos" base → ¬ contains "fedora" base →
   get_package_manager base = "unknown" ∧
   ∀ (P : Platform) args w,
     arg_base args = base → arg_pkg args = "" →
     cmd_create P args w = (Raise UnknownPackageManager, w, [])).
Proof.
  unfold get_package_manager. split; [|split].
  - intros [H|H]; apply str_in_spec in H; rewrite H; [done|].
    by destruct (str_in "ubuntu" base).
  - intros Hu%str_in_false Hd%str_in_false [H|H]; apply str_in_spec in H;
      rewrite Hu, Hd, H; [done|]. by destruct (str_in "centos" base).
  - intros Hu%str_in_false Hd%str_in_false Hc%str_in_false Hf%str_in_false.
    split; [by rewrite Hu, Hd, Hc, Hf|].
    intros P args w Hb Hp. rewrite cmd_create_prefix.
    unfold package_manager_of, get_package_manager.
    rewrite Hp, Hb, Hu, Hd, Hc, Hf. done.
Qed.

Lemma package_manager_first_match_witness :
  get_package_manager "centos:7" = "yum".
Proof.
  apply (package_manager_first_match "centos:7").
  - apply str_in_false. reflexivity.
  - apply str_in_false. reflexivity.
  - left. apply str_in_spec. reflexivity.
Defined.

(** C9, as stated, fails: a base name containing "centos" maps to apt when
    it also contains "ubuntu". *)
Lemma centos_on_ubuntu_is_apt :
  contains "centos" "ubuntu-centos" ∧
  get_package_manager "ubuntu-centos" = "apt" ∧
  get_package_manager "ubuntu-centos" ≠ "yum".
Proof.
  split; [by exists "ubuntu-", ""|]. split; [reflexivity|discriminate].
Qed.

(** ** The build sequence and its tools *)

Lemma tool_events_app ev1 ev2 :
  tool_events (ev1 ++ ev2) = tool_events ev1 ++ tool_events ev2.
Proof. apply List.filter_app. Qed.


Lemma quiet_ret {A} (a : A) : quiet (mret a : M A).
Proof. by intros w. Qed.

Lemma quiet_raise {A} e : quiet (raise e : M A).
Proof. by intros w. Qed.

Lemma quiet_bind {A B} (m : M A) (f : A → M B) :
  quiet m → (∀ a, quiet (f a)) → quiet (m ≫= f).
Proof.
  intros Hm Hf w. rewrite bind_run. specialize (Hm w).
  destruct (m w) as [[[a|e] w1] ev1]; simpl in *; [|done].
  specialize (Hf a w1). destruct (f a w1) as [[r w2] ev2]. simpl in *.
  by rewrite tool_events_app, Hm, Hf.
Qed.

Lemma quiet_os_path_exists s : quiet (os_path_exists s).
Proof. by intros w. Qed.

Lemma quiet_os_mk all exist_ok s : quiet (os_mk all exist_ok s).
Proof.
  intros w. unfold os_mk. by destruct (mk_disk _ _ _ _ _) as [d' [u|e]].
Qed.

Lemma quiet_write_content s c : quiet (write_content s c).
Proof. intros w. unfold write_content. by destruct (write_disk _ _ _ _). Qed.

Lemma quiet_read_content s : quiet (read_content s).
Proof. intros w. unfold read_content. by destruct (read_disk _ _ _). Qed.

Lemma quiet_load_registry env : quiet (load_registry env).
Proof.
  unfold load_registry. apply quiet_bind; [apply quiet_os_path_exists|].
  intros [|]; simpl.
  - unfold read_json. apply quiet_bind; [apply quiet_read_content|].
    intros [r|t]; [apply quiet_ret|apply quiet_raise].
  - apply quiet_bind; [apply quiet_os_mk|]. intros _. apply quiet_ret.
Qed.

Lemma quiet_save_registry env r : quiet (save_registry env r).
Proof.
  unfold save_registry. apply quiet_bind; [apply quiet_os_path_exists|].
  intros found. apply quiet_bind.
  - destruct found; simpl; [apply quiet_ret|apply quiet_os_mk].
  - intros _. apply quiet_write_content.
Qed.

Lemma quiet_get_container_path P env name :
  quiet (get_container_path P env name).
Proof.
  unfold get_container_path. apply quiet_bind; [apply quiet_load_registry|].
  intros r. destruct (dict_get _ _); [apply quiet_ret|].
  apply quiet_bind; [by intros w|]. intros id.
  apply quiet_bind; [apply quiet_os_mk|]. intros _.
  apply quiet_bind; [apply quiet_save_registry|]. intros _. apply quiet_ret.
Qed.

Lemma quiet_get_container_version_path p v mk :
  quiet (get_container_version_path p v mk).
Proof.
  unfold get_container_version_path.
  apply quiet_bind; [apply quiet_os_path_exists|].
  intros [|]; simpl; [apply quiet_ret|].
  apply quiet_bind; [|intros _; apply quiet_ret].
  destruct mk; [apply quiet_os_mk|apply quiet_ret].
Qed.

(** What the run of a sequence tells about the runs of its parts. *)
Lemma bind_inv {A B} (m : M A) (f : A → M B) w r w' ev :
  (m ≫= f) w = (r, w', ev) →
  (∃ e, r = Raise e ∧ m w = (Raise e, w', ev)) ∨
  (∃ a w1 ev1 ev2,
     m w = (Ok a, w1, ev1) ∧ f a w1 = (r, w', ev2) ∧ ev = ev1 ++ ev2).
Proof.
  rewrite bind_run. destruct (m w) as [[[a|e] w1] ev1].
  - destruct (f a w1) as [[r2 w2] ev2] eqn:Ef. intros [= <- <- <-].
    right. by exists a, w1, ev1, ev2.
  - intros [= <- <- <-]. left. by exists e.
Qed.

Lemma run_command_inv P args w r w' ev :
  run_command P args w = (r, w', ev) →
  (r = Ok tt ∧ ev = [EvExec args true]) ∨
  (r = Raise (CalledProcessError args) ∧ ev = [EvExec args false]).
Proof.
  unfold run_command. destruct (check_call P args _ _) as [[|] d'];
    intros [= <- <- <-]; auto.
Qed.

Lemma record_inv P path command w r w' ev :
  asciinema_record_asciicast P path command w = (r, w', ev) →
  (r = Ok tt ∧ ev = [EvRecord path command true]) ∨
  (r = Raise RecorderError ∧ ev = [EvRecord path command false]).
Proof.
  unfold asciinema_record_asciicast.
  destruct (record_asciicast P _ _ _ _) as [[|] d'];
    intros [= <- <- <-]; auto.
Qed.

Lemma quiet_inv {A} (m : M A) w r w' ev :
  quiet m → m w = (r, w', ev) → tool_events ev = [].
Proof. intros Hq Hm. specialize (Hq w). by rewrite Hm in Hq. Qed.




(** ** The registry *)

Lemma count_writes_app path ev1 ev2 :
  count_writes path (ev1 ++ ev2) = count_writes path ev1 + count_writes path ev2.
Proof. unfold count_writes. by rewrite List.filter_app, length_app. Qed.

Lemma dict_get_set_eq d k v : dict_get (dict_set d k v) k = Some v.
Proof.
  induction d as [|[k' v'] d IH]; simpl.
  - by rewrite bool_decide_eq_true_2.
  - case_bool_decide as E; simpl.
    + by rewrite bool_decide_eq_true_2.
    + by rewrite bool_decide_eq_false_2.
Qed.


Lemma world_grows_adds w d' :
  adds_dirs (w_disk w) d' → world_grows w (with_disk d' w).
Proof. intros H. split; [by apply adds_dirs_grows|done]. Qed.

Lemma os_mk_grows all exist_ok s w r w' ev :
  os_mk all exist_ok s w = (r, w', ev) → world_grows w w'.
Proof.
  intros (Ha & Hc & Hn & _)%os_mk_run. split; [by apply adds_dirs_grows|done].
Qed.

Lemma os_mk_with_disk all exist_ok s w r w' ev :
  os_mk all exist_ok s w = (r, w', ev) →
  w' = with_disk (w_disk w') w ∧ adds_dirs (w_disk w) (w_disk w').
Proof.
  unfold os_mk. destruct (mk_disk _ _ _ _ _) as [d' [u|e]] eqn:Hm;
    intros [= <- <- <-]; (split; [done|by eapply mk_disk_adds]).
Qed.

Lemma os_mk_count path all exist_ok s w r w' ev :
  os_mk all exist_ok s w = (r, w', ev) → count_writes path ev = 0.
Proof.
  unfold os_mk. destruct (mk_disk _ _ _ _ _) as [d' [u|e]];
    by intros [= <- <- <-].
Qed.

(** [load_registry] either returns the stored record and does nothing, or
    finds no readable record; then it only makes directories, and what it
    returns, if anything, is the fresh record. *)
Lemma load_registry_inv env w r w' ev :
  load_registry env w = (r, w', ev) →
  (∃ reg, stored_registry w env = Some reg ∧ r = Ok reg ∧ w' = w ∧ ev = []) ∨
  (stored_registry w env = None ∧
   w' = with_disk (w_disk w') w ∧ adds_dirs (w_disk w) (w_disk w') ∧
   count_writes (os_path_join env "registry.json") ev = 0 ∧
   ∀ reg, r = Ok reg → reg = fresh_registry).
Proof.
  unfold load_registry.
  intros H. apply bind_inv in H as [(e & _ & H)|(b & w1 & ev1 & ev2 & H1 & H & ->)];
    [done|].
  injection H1 as <- <- <-. rewrite app_nil_l.
  fold (exists_in w (os_path_join env "registry.json")) in H.
  destruct (exists_in w _) eqn:Hex; simpl in H.
  - unfold read_json in H.
    apply bind_inv in H as [(e & -> & H)|(c & w2 & ev2' & ev3 & H2 & H & ->)].
    + right. unfold read_content in H.
      unfold stored_registry.
      destruct (read_disk _ _ _) as [c|e']; [done|]. injection H as <- <- <-.
      split; [done|]. split; [by destruct w|].
      split; [apply adds_dirs_refl|]. done.
    + unfold read_content in H2. unfold stored_registry.
      destruct (read_disk _ _ _) as [c'|e']; [|done].
      injection H2 as <- <- <-. destruct c' as [reg|t].
      * injection H as <- <- <-. left. by exists reg.
      * injection H as <- <- <-. right. split; [done|].
        split; [by destruct w|]. split; [apply adds_dirs_refl|]. done.
  - right. split.
    { unfold stored_registry.
      destruct (read_disk _ _ _) as [c|e] eqn:Er; [|done].
      apply read_disk_exists in Er. unfold exists_in in Hex. congruence. }
    apply bind_inv in H as [(e & -> & H)|(u & w2 & ev2' & ev3 & H2 & H & ->)].
    + destruct (os_mk_with_disk _ _ _ _ _ _ _ H) as [? ?].
      repeat split; try done. by eapply os_mk_count.
    + injection H as <- <- <-.
      destruct (os_mk_with_disk _ _ _ _ _ _ _ H2) as [? ?].
      repeat split; try done.
      * rewrite app_nil_r. by eapply os_mk_count.
      * by intros reg [= <-].
Qed.

Lemma write_content_inv s c w r w' ev :
  write_content s c w = (r, w', ev) →
  (∃ d', write_disk (w_disk w) (w_cwd w) s c = Ok d' ∧ r = Ok tt ∧
         w' = with_disk d' w ∧ ev = [EvWrite s]) ∨
  (∃ e, r = Raise e ∧ w' = w ∧ ev = []).
Proof.
  unfold write_content. destruct (write_disk _ _ _ _) as [d'|e];
    intros [= <- <- <-]; [left|right]; by eexists.
Qed.

(** [save_registry] makes directories at most, and then writes the record
    to the place the registry path resolves to. *)
Lemma save_registry_inv env reg w r w' ev :
  save_registry env reg w = (r, w', ev) →
  ∃ d1, adds_dirs (w_disk w) d1 ∧
    match r with
    | Ok _ =>
        ∃ k, resolve d1 (w_cwd w) (os_path_join env "registry.json") = Some k ∧
             is_dir_abs d1 k = false ∧
             w' = with_disk (<[k := File (Json reg)]> d1) w ∧
             ∃ ev1, ev = ev1 ++ [EvWrite (os_path_join env "registry.json")] ∧
                    count_writes (os_path_join env "registry.json") ev1 = 0
    | Raise _ =>
        w' = with_disk d1 w ∧
        count_writes (os_path_join env "registry.json") ev = 0
    end.
Proof.
  unfold save_registry. intros H.
  apply bind_inv in H as [(e & _ & H)|(b & w1 & ev1 & ev2 & H1 & H & ->)];
    [done|].
  injection H1 as <- <- <-. rewrite app_nil_l.
  apply bind_inv in H as [(e & -> & H)|(u & w2 & ev2' & ev3 & H2 & H & ->)].
  { destruct (negb _); [|done].
    destruct (os_mk_with_disk _ _ _ _ _ _ _ H) as [Hw Ha].
    exists (w_disk w'). split; [done|]. split; [done|].
    by eapply os_mk_count. }
  assert (w2 = with_disk (w_disk w2) w ∧ adds_dirs (w_disk w) (w_disk w2) ∧
          count_writes (os_path_join env "registry.json") ev2' = 0)
    as (Hw2 & Ha2 & Hc2).
  { destruct (negb _).
    - destruct (os_mk_with_disk _ _ _ _ _ _ _ H2) as [? ?].
      repeat split; try done. by eapply os_mk_count.
    - injection H2 as <- <- <-. split; [by destruct w|].
      split; [apply adds_dirs_refl|done]. }
  exists (w_disk w2). split; [done|]. unfold write_json in H.
  apply write_content_inv in H
    as [(d' & Hwd & -> & -> & ->)|(e & -> & -> & ->)].
  - rewrite Hw2 in Hwd. simpl in Hwd.
    destruct (write_disk_ok _ _ _ _ _ Hwd) as (k & Hr & Hn & ->).
    exists k. rewrite Hw2. simpl. repeat split; try done. by exists ev2'.
  - split; [done|]. by rewrite app_nil_r.
Qed.

(** [get_container_path], case by case: a registered name is looked up; a new
    one gets a directory, made first, and then the record with the new entry
    is written. *)
Lemma get_container_path_inv P env name w r w' ev :
  get_container_path P env name w = (r, w', ev) →
  (∃ p, registered w env name p ∧ r = Ok p ∧ w' = w ∧ ev = []) ∨
  (is_registered w env name = false ∧
   w_cwd w' = w_cwd w ∧ w_now w' = w_now w ∧
   match r with
   | Ok p =>
       p = os_path_join env (uuid4 P (w_drawn w)) ∧
       ∃ d2 k ev1 ev2,
         adds_dirs (w_disk w) d2 ∧
         path_isdir d2 (w_cwd w) p = true ∧
         resolve d2 (w_cwd w) (os_path_join env "registry.json") = Some k ∧
         is_dir_abs d2 k = false ∧
         w_disk w'
         = <[k := File (Json (with_container (base_registry w env) name p))]>
             d2 ∧
         ev = ev1 ++ EvMkdir p :: ev2
              ++ [EvWrite (os_path_join env "registry.json")] ∧
         count_writes (os_path_join env "registry.json") ev1 = 0 ∧
         count_writes (os_path_join env "registry.json") ev2 = 0
   | Raise _ =>
       adds_dirs (w_disk w) (w_disk w') ∧
       count_writes (os_path_join env "registry.json") ev = 0
   end).
Proof.
  unfold get_container_path. intros H.
  apply bind_inv in H as [(e & -> & H)|(reg & w1 & ev1 & ev1' & H1 & H & ->)].
  { apply load_registry_inv in H
      as [(reg & _ & ? & _)|(Hs & Hw & Ha & Hc & _)]; [done|].
    right. unfold is_registered. rewrite Hs. rewrite Hw. done. }
  assert (base_registry w env = reg ∧
          w1 = with_disk (w_disk w1) w ∧ adds_dirs (w_disk w) (w_disk w1) ∧
          count_writes (os_path_join env "registry.json") ev1 = 0 ∧
          (is_registered w env name
           = bool_decide (is_Some (dict_get (containers reg) name))))
    as (Hbase & Hw1 & Ha1 & Hc1 & Hisr).
  { unfold base_registry, is_registered.
    apply load_registry_inv in H1
      as [(reg' & Hs & [= <-] & -> & ->)|(Hs & Hw & Ha & Hc & Hfresh)].
    - rewrite Hs. repeat split; try done; [by destruct w|apply adds_dirs_refl].
    - rewrite Hs, (Hfresh reg eq_refl). repeat split; try done. }
  destruct (dict_get (containers reg) name) as [p|] eqn:Hg.
  { injection H as <- <- <-.
    apply load_registry_inv in H1
      as [(reg' & Hs & [= <-] & -> & ->)|(Hs & Hw & Ha & Hc & Hfresh)].
    - left. exists p. split; [by exists reg|done].
    - by rewrite (Hfresh reg eq_refl) in Hg. }
  right. split.
  { rewrite Hisr. apply bool_decide_eq_false. by intros [? ?]. }
  apply bind_inv in H as [(e & _ & H)|(id & w2 & ev2 & ev2' & H2 & H & ->)];
    [done|].
  injection H2 as <- <- <-. rewrite app_nil_l.
  set (p := os_path_join env (uuid4 P (w_drawn w1))) in *.
  assert (w_drawn w1 = w_drawn w) as Hdr by (by rewrite Hw1).
  apply bind_inv in H as [(e & -> & H)|(u & w3 & ev3 & ev3' & H3 & H & ->)].
  { apply os_mk_run in H as (Ha & Hc & Hn & _ & ->). simpl in *.
    rewrite Hw1 in Hc, Hn. simpl in *. repeat split; try done.
    - by eapply adds_dirs_trans.
    - by rewrite app_nil_r. }
  apply os_mk_run in H3 as (Ha3 & Hcw3 & Hn3 & Hd3 & -> & Hisd). simpl in *.
  apply bind_inv in H as [(e & -> & H)|(u4 & w4 & ev4 & ev4' & H4 & H & ->)].
  - apply save_registry_inv in H as (d1 & Had & -> & Hcnt).
    rewrite Hw1 in Hcw3, Hn3. simpl in *. repeat split; try done.
    + eapply adds_dirs_trans; [done|]. by eapply adds_dirs_trans.
    + rewrite count_writes_app, Hc1. simpl. exact Hcnt.
  - injection H as <- <- <-.
    apply save_registry_inv in H4
      as (d1 & Had & k & Hk & Hnd & -> & ev5 & -> & Hc5).
    rewrite Hw1 in Hcw3, Hn3. simpl in *. rewrite Hcw3 in *.
    subst p. rewrite Hdr in *. rewrite Hbase.
    split; [done|]. split; [done|]. split; [done|].
    exists d1, k, ev1, ev5. repeat split; try done.
    + eapply adds_dirs_trans; [done|]. by eapply adds_dirs_trans.
    + eapply grows_path_isdir; [by apply adds_dirs_grows|].
      unfold isdir_in in Hisd. by rewrite Hcw3 in Hisd.
    + by rewrite app_nil_r.
Qed.

Lemma registered_is_registered w env name p :
  registered w env name p → is_registered w env name = true.
Proof.
  intros (r & Hs & Hg). unfold is_registered. rewrite Hs, Hg.
  apply bool_decide_eq_true. by eexists.
Qed.

(** After a successful resolution the name is registered with the path that
    was returned. *)
Lemma get_container_path_registers P env name w p w' ev :
  get_container_path P env name w = (Ok p, w', ev) → registered w' env name p.
Proof.
  intros [(p' & Hreg & [= <-] & -> & _)|(_ & Hcwd & _ & _ & H)]
    %get_container_path_inv; [done|].
  destruct H as (d2 & k & ev1 & ev2 & Ha & Hd & Hk & Hnd & Hw' & _).
  exists (with_container (base_registry w env) name p). split.
  - apply stored_registry_read, read_disk_ok. exists k. rewrite Hw', Hcwd.
    split; [|split].
    + eapply grows_resolve; [|done]. by apply grows_insert_file.
    + by intros ->.
    + by rewrite lookup_insert_eq.
  - apply dict_get_set_eq.
Qed.

(** What a successful resolution wrote, and that the returned path is a
    directory unless it was merely looked up. *)
Lemma container_path_resolution_twice_aux P env name w p w' ev :
  get_container_path P env name w = (Ok p, w', ev) →
  count_writes (os_path_join env "registry.json") ev
  = (if is_registered w env name then 0 else 1) ∧
  (is_registered w env name = false → isdir_in w' p = true).
Proof.
  intros H. apply get_container_path_inv in H
    as [(p' & Hreg & _ & _ & ->)|(Hnot & Hcw & _ & _ & H)].
  - by rewrite (registered_is_registered _ _ _ _ Hreg).
  - rewrite Hnot.
    destruct H as (d2 & k & ev2 & ev3 & _ & Hisd & _ & Hnd & Hd' & -> & Hc2 & Hc3).
    split.
    + rewrite count_writes_app, Hc2. simpl.
      change (count_writes ?p (EvMkdir ?q :: ?l)) with (count_writes p l).
      rewrite count_writes_app, Hc3. unfold count_writes. simpl.
      by rewrite bool_decide_eq_true_2.
    + intros _. unfold isdir_in. rewrite Hd', Hcw.
      eapply grows_path_isdir; [by apply grows_insert_file|done].
Qed.

(** C6, as the code has it.  When a resolution succeeds, resolving the same
    name again returns the same path and changes nothing: no directory, no
    save, no event.  Over the two calls the registry file is written once if
    the name was not registered before the first call, and not at all if it
    was. *)
Theorem container_path_resolution_twice (P : Platform) env name w0 p w1 ev1 :
  get_container_path P env name w0 = (Ok p, w1, ev1) →
  get_container_path P env name w1 = (Ok p, w1, []) ∧
  count_writes (os_path_join env "registry.json") ev1
  = (if is_registered w0 env name then 0 else 1).
Proof.
  intros H. split.
  - apply get_container_path_registered.
    by eapply get_container_path_registers.
  - by apply container_path_resolution_twice_aux in H as [? _].
Qed.

Lemma container_path_resolution_twice_witness :
  get_container_path Sample.platform "/E" "beta"
    (get_container_path Sample.platform "/E" "beta"
       (Sample.world Sample.empty_registry)).1.2
  = (Ok "/E/c0ffee",
     (get_container_path Sample.platform "/E" "beta"
        (Sample.world Sample.empty_registry)).1.2, []) ∧
  count_writes "/E/registry.json"
    [EvMkdir "/E/c0ffee"; EvWrite "/E/registry.json"] = 1.
Proof.
  apply (container_path_resolution_twice Sample.platform "/E" "beta"
           (Sample.world Sample.empty_registry) "/E/c0ffee").
  vm_compute. reflexivity.
Defined.

(** C6, as stated, fails: for a name that is already registered both
    resolutions return the stored path and the registry is never written,
    not once. *)
Lemma resolving_registered_name_never_saves :
  let w := Sample.world Sample.partial_build in
  let first := get_container_path Sample.platform "/E" "alpha" w in
  let second := get_container_path Sample.platform "/E" "alpha" first.1.2 in
  first.1.1 = Ok "/E/a1" ∧ second.1.1 = Ok "/E/a1" ∧
  count_writes "/E/registry.json" (first.2 ++ second.2) = 0 ∧
  count_writes "/E/registry.json" (first.2 ++ second.2) ≠ 1.
Proof. vm_compute. repeat split. discriminate. Qed.

(** ** Invariants of the commands *)

Lemma preserves_ret {A} I (a : A) : preserves I (mret a : M A).
Proof. by intros w. Qed.


Lemma preserves_bind {A B} I (m : M A) (f : A → M B) :
  preserves I m → (∀ a, preserves I (f a)) → preserves I (m ≫= f).
Proof.
  intros Hm Hf w Hw. rewrite bind_run. specialize (Hm w Hw).
  destruct (m w) as [[[a|e] w1] ev1]; simpl in *; [|done].
  specialize (Hf a w1 Hm). by destruct (f a w1) as [[r w2] ev2].
Qed.


Lemma preserves_os_mk I all exist_ok s :
  stable I → preserves I (os_mk all exist_ok s).
Proof.
  intros HI w Hw.
  destruct (os_mk all exist_ok s w) as [[r w'] ev] eqn:E.
  destruct (os_mk_with_disk _ _ _ _ _ _ _ E) as [-> Ha].
  by apply (stable_dirs I HI).
Qed.

Lemma preserves_uuid I P : stable I → preserves I (uuid_uuid4 P).
Proof. intros HI w Hw. by apply (stable_frame I HI w). Qed.

Lemma preserves_run_command I P env args :
  issued P env (CallExec args) → tools_preserve P env I →
  preserves I (run_command P args).
Proof.
  intros Hi Ht w Hw. unfold run_command. specialize (Ht _ Hi w Hw).
  unfold after_call in Ht. by destruct (check_call P args _ _) as [[|] d'].
Qed.

Lemma preserves_record I P env path command :
  issued P env (CallRecord path command) → tools_preserve P env I →
  preserves I (asciinema_record_asciicast P path command).
Proof.
  intros Hi Ht w Hw. unfold asciinema_record_asciicast.
  specialize (Ht _ Hi w Hw). unfold after_call in Ht.
  by destruct (record_asciicast P _ _ _ _) as [[|] d'].
Qed.


(** A sequence keeps [I] when its second part does so for the values the
    first part can return. *)
Lemma preserves_bind_post {A B} I (Q : A → Prop) (m : M A) (f : A → M B) :
  (∀ w a w' ev, m w = (Ok a, w', ev) → Q a) →
  preserves I m → (∀ a, Q a → preserves I (f a)) → preserves I (m ≫= f).
Proof.
  intros HQ Hm Hf w Hw. rewrite bind_run. specialize (Hm w Hw).
  destruct (m w) as [[[a|e] w1] ev1] eqn:E; simpl in *; [|done].
  specialize (Hf a (HQ _ _ _ _ E) w1 Hm).
  by destruct (f a w1) as [[r w2] ev2].
Qed.

(** The temporary workspace is [<env>/temp/<uuid>]. *)
Lemma build_container_sandbox_result P env pm base w t sb w' ev :
  build_container_sandbox P env pm base w = (Ok (t, sb), w', ev) →
  ∃ n, t = os_path_join3 env "temp" (uuid4 P n).
Proof.
  unfold build_container_sandbox. intros H.
  apply bind_inv in H as [(e & ? & _)|(id & w1 & ev1 & ev1' & H1 & H & ->)];
    [done|].
  injection H1 as <- <- <-.
  apply bind_inv in H as [(e & ? & _)|(u & w2 & ev2 & ev2' & H2 & H & ->)];
    [done|].
  apply bind_inv in H as [(e & ? & _)|(u3 & w3 & ev3 & ev3' & H3 & H & ->)];
    [done|].
  apply bind_inv in H as [(e & ? & _)|(u4 & w4 & ev4 & ev4' & H4 & H & ->)];
    [done|].
  injection H as <- _ _ _. by eexists.
Qed.



Lemma preserves_build_container_sandbox I P env pm base :
  stable I → tools_preserve P env I →
  preserves I (build_container_sandbox P env pm base).
Proof.
  intros HI Ht. unfold build_container_sandbox.
  apply preserves_bind; [by apply preserves_uuid|]. intros id.
  apply preserves_bind; [by apply preserves_os_mk|]. intros _.
  apply preserves_bind.
  { intros w Hw. unfold write_file, write_content.
    destruct (write_disk _ _ _ _) as [d'|e] eqn:E; [|done].
    by apply (stable_template I HI w _ _ _ E). }
  intros _. apply preserves_bind; [|intros _; apply preserves_ret].
  apply (preserves_run_command I P env); [apply issued_sandbox|done].
Qed.

Lemma preserves_build_steps I P env pm base vp :
  stable I → tools_preserve P env I →
  preserves I (build_steps P env pm base vp).
Proof.
  intros HI Ht. unfold build_steps.
  apply (preserves_bind_post I
           (λ ts, ∃ n, ts.1 = os_path_join3 env "temp" (uuid4 P n))).
  { intros w [t sb] w' ev H. by eapply build_container_sandbox_result. }
  { by apply preserves_build_container_sandbox. }
  intros [t sb] [n Hn]. simpl in Hn. subst t.
  apply preserves_bind.
  { apply (preserves_record I P env); [apply issued_record|done]. }
  intros _. apply preserves_bind.
  { apply (preserves_run_command I P env); [apply issued_convert|done]. }
  intros _. apply (preserves_run_command I P env); [apply issued_cleanup|done].
Qed.











(** Resolving a container only grows the disk. *)
Lemma get_container_path_grows P env name w r w' ev :
  get_container_path P env name w = (r, w', ev) → world_grows w w'.
Proof.
  intros [(p & _ & _ & -> & _)|(_ & Hc & Hn & H)]%get_container_path_inv;
    [apply world_grows_refl|].
  split; [|done]. destruct r as [p|e].
  - destruct H as (_ & d2 & k & ev1 & ev2 & Ha & _ & _ & Hnd & -> & _).
    eapply grows_trans; [by apply adds_dirs_grows|].
    by apply grows_insert_file.
  - destruct H as [Ha _]. by apply adds_dirs_grows.
Qed.



(** The invariant at every place gives the invariant of every environment
    root. *)
Lemma registry_ok_at_all w env :
  (∀ a, registry_ok_at a w) → registry_ok env w.
Proof.
  intros Hall r Hs name p Hg.
  apply stored_registry_read, read_disk_ok in Hs as (k & _ & _ & Hl).
  by eapply Hall.
Qed.





(** ** Version uniqueness *)

Lemma plain_template : plain_name "template".
Proof. repeat split; discriminate. Qed.

Lemma plain_registry_json : plain_name "registry.json".
Proof. repeat split; discriminate. Qed.

(** Writing the build template never lands on a registry file. *)
Lemma registered_write_template w t c d' env name p :
  write_disk (w_disk w) (w_cwd w) (os_path_join t "template") (Text c) = Ok d' →
  registered w env name p → registered (with_disk d' w) env name p.
Proof.
  intros Hwd (r & Hs & Hg). exists r. split; [|done].
  apply stored_registry_read. apply stored_registry_read in Hs. simpl.
  eapply read_write_other; [done..|].
  destruct (write_disk_ok _ _ _ _ _ Hwd) as (k & Hk & _).
  apply read_disk_ok in Hs as (k' & Hk' & _). rewrite Hk, Hk'.
  apply resolve_join_last in Hk as [b ->]; [|apply plain_template].
  apply resolve_join_last in Hk' as [b' ->]; [|apply plain_registry_json].
  intros [= E]. by apply app_inj_tail in E as [_ ?].
Qed.

Lemma stable_allocated env name version p now :
  stable (λ w, allocated env name version p w ∧ w_now w = now).
Proof.
  split.
  - intros w d' Ha [[Hr He] Hn]. repeat split; [|by eapply grows_path_exists;
      [apply adds_dirs_grows|]|done]. by apply registered_adds_dirs.
  - intros w t c d' Hwd [[Hr He] Hn]. repeat split; [| |done].
    + by eapply registered_write_template.
    + eapply grows_path_exists; [by eapply write_disk_grows|done].
  - intros w w' Hd Hc Hn' [[(r & Hs & Hg) He] Hn]. repeat split.
    + exists r. split; [|done]. unfold stored_registry in *.
      by rewrite Hd, Hc.
    + unfold exists_in in *. by rewrite Hd, Hc.
    + congruence.
Qed.

Lemma tools_preserve_now P env I now :
  tools_preserve P env I → tools_preserve P env (λ w, I w ∧ w_now w = now).
Proof. intros H c Hc w [Hw Hn]. split; [by apply H|done]. Qed.

(** The path a resolution returns: the stored one, or the root joined with
    the next identifier. *)
Lemma get_container_path_result P env name w p w' ev :
  get_container_path P env name w = (Ok p, w', ev) →
  p = container_path_of P w env name.
Proof.
  unfold container_path_of.
  intros [(p' & (r & Hs & Hg) & [= <-] & _)|(Hnot & _ & _ & -> & _)]
    %get_container_path_inv.
  - by rewrite Hs, Hg.
  - unfold is_registered in Hnot. destruct (stored_registry w env); [|done].
    apply bool_decide_eq_false in Hnot.
    destruct (dict_get _ _); [|done]. exfalso. apply Hnot. by eexists.
Qed.

(** C5.  A second [create] of the same container and version, run in the
    world the first successful [create] left, raises [DuplicateVersion]
    before anything is made, written or started, so the world, and with it
    the recording and the image of the first build, stays as it was.  The
    tool runs that [create] issues are taken to leave the registration and
    the version directory in place. *)
Theorem second_create_raises_duplicate (P : Platform) args w0 w1 ev :
  tools_preserve P (the_env P args)
    (allocated (the_env P args) (arg_name args) (the_version args w0)
       (container_path_of P w0 (the_env P args) (arg_name args))) →
  cmd_create P args w0 = (Ok tt, w1, ev) →
  cmd_create P args w1
  = (Raise (DuplicateVersion (arg_name args) (the_version args w0)), w1, []).
Proof.
  intros Ht H. rewrite cmd_create_prefix in H.
  destruct (package_manager_of args) as [pm|] eqn:Hpm; [|done].
  apply bind_inv in H as [(e & ? & _)|(cp & wa & eva & eva' & Ha & H & ->)];
    [done|].
  pose proof (get_container_path_registers _ _ _ _ _ _ _ Ha) as Hreg.
  rewrite <- (get_container_path_result _ _ _ _ _ _ _ Ha) in Ht.
  apply get_container_path_grows in Ha as (_ & _ & Hna).
  apply bind_inv in H
    as [(e & ? & _)|([vp found] & wb & evb & evb' & Hb & H & ->)]; [done|].
  destruct found; [done|].
  set (version := the_version args w0) in *.
  assert (allocated (the_env P args) (arg_name args) version cp wb ∧
          w_now wb = w_now w0) as HK.
  { unfold get_container_version_path in Hb.
    apply bind_inv in Hb as [(e & ? & _)|(b & w2 & ev2 & ev2' & H2 & Hb & ->)];
      [done|].
    injection H2 as <- <- <-. destruct (path_exists _ _ _); [done|].
    simpl in Hb.
    apply bind_inv in Hb as [(e & ? & _)|(u & w3 & ev3 & ev3' & H3 & Hb & ->)];
      [done|].
    injection Hb as <- <- <-.
    destruct (os_mk_with_disk _ _ _ _ _ _ _ H3) as [Hw3 Had].
    apply os_mk_run in H3 as (_ & _ & Hn3 & _ & _ & Hisd).
    repeat split; [|by apply path_isdir_exists|congruence].
    rewrite Hw3. by apply registered_adds_dirs. }
  assert (allocated (the_env P args) (arg_name args) version cp w1 ∧
          w_now w1 = w_now w0) as [[Hreg1 Hex1] Hn1].
  { pose proof (preserves_build_steps _ P (the_env P args) pm (arg_base args)
                  vp (stable_allocated _ _ _ _ _)
                  (tools_preserve_now _ _ _ _ Ht) wb HK) as Hp.
    unfold build_steps in Hp. by rewrite H in Hp. }
  assert (the_version args w1 = version) as Hv.
  { unfold version, the_version. by rewrite Hn1. }
  rewrite <- Hv at 1.
  apply (cmd_create_duplicate P args w1 cp pm Hpm Hreg1). by rewrite Hv.
Qed.

(** *** The sample tools leave an allocated version alone *)

Lemma allocated_adds_dirs env name version p w d' :
  adds_dirs (w_disk w) d' →
  allocated env name version p w → allocated env name version p (with_disk d' w).
Proof.
  intros Ha Hw.
  by apply (stable_dirs _ (stable_allocated env name version p (w_now w)) w d' Ha).
Qed.

(** Writing a file with a plain name other than that of the registry file
    keeps a registration. *)
Lemma registered_write_plain w t n c d' env name p :
  plain_name n → n ≠ "registry.json" →
  write_disk (w_disk w) (w_cwd w) (os_path_join t n) c = Ok d' →
  registered w env name p → registered (with_disk d' w) env name p.
Proof.
  intros Hn Hne Hwd (r & Hs & Hg). exists r. split; [|done].
  apply stored_registry_read. apply stored_registry_read in Hs. simpl.
  eapply read_write_other; [done..|].
  destruct (write_disk_ok _ _ _ _ _ Hwd) as (k & Hk & _).
  apply read_disk_ok in Hs as (k' & Hk' & _). rewrite Hk, Hk'.
  apply resolve_join_last in Hk as [b ->]; [|done].
  apply resolve_join_last in Hk' as [b' ->]; [|apply plain_registry_json].
  intros [= E]. by apply app_inj_tail in E as [_ ?].
Qed.

Lemma allocated_write_plain env name version p w t n c d' :
  plain_name n → n ≠ "registry.json" →
  write_disk (w_disk w) (w_cwd w) (os_path_join t n) c = Ok d' →
  allocated env name version p w → allocated env name version p (with_disk d' w).
Proof.
  intros Hn Hne Hwd [Hr He]. split.
  - by eapply registered_write_plain.
  - eapply grows_path_exists; [by eapply write_disk_grows|done].
Qed.

Lemma has_sep_tally n : has_sep (Sample.tally n) = false.
Proof. induction n as [|n IH]; [done|]. simpl. by rewrite append_nil_l. Qed.

Lemma sample_uuid_plain n : plain_name (uuid4 Sample.platform n).
Proof.
  simpl. repeat split; try by rewrite append_cons.
  by rewrite has_sep_app, has_sep_tally.
Qed.

(** What [rm -rf] of a resolved place leaves of the entries outside it. *)
Lemma lookup_rm_rf (d : disk) (a k : apath) :
  ¬ a `prefix_of` k →
  (filter (λ kn : apath * node, ¬ a `prefix_of` kn.1) d) !! k = d !! k.
Proof.
  intros Hk. destruct (d !! k) as [n|] eqn:E.
  - by apply map_lookup_filter_Some.
  - apply map_lookup_filter_None. by left.
Qed.

Lemma resolve_sample_registry d cwd :
  resolve d cwd "/E/registry.json"
  = if is_dir_abs d ["E"] then Some ["E"; "registry.json"] else None.
Proof. reflexivity. Qed.

Lemma resolve_sample_version d cwd :
  resolve d cwd "/E/c0ffee/20240101_0000"
  = if is_dir_abs d ["E"] then
      if is_dir_abs d ["E"; "c0ffee"] then
        Some ["E"; "c0ffee"; "20240101_0000"]
      else None
    else None.
Proof. reflexivity. Qed.

Lemma resolve_sample_temp d cwd n :
  resolve d cwd (os_path_join3 "/E" "temp" (uuid4 Sample.platform n))
  = if is_dir_abs d ["E"] then
      if is_dir_abs d ["E"; "temp"] then
        Some ["E"; "temp"; uuid4 Sample.platform n]
      else None
    else None.
Proof.
  pose proof (sample_uuid_plain n) as Hu.
  unfold os_path_join3. change (os_path_join "/E" "temp") with "/E/temp".
  unfold os_path_join. rewrite (plain_startswith _ Hu).
  change (bool_decide ("/E/temp" = "") || endswith_sep "/E/temp") with false.
  cbv iota. rewrite resolve_app_sep by done.
  change (walk d (anchor cwd "/E/temp").1 (anchor cwd "/E/temp").2)
    with (if is_dir_abs d ["E"] then Some ["E"; "temp"] else None).
  destruct (is_dir_abs d ["E"]); [|done]. simpl.
  by rewrite (walk_plain _ _ _ Hu).
Qed.

Lemma sample_cleanup_keeps_allocated n w :
  allocated "/E" "alpha" "20240101_0000" "/E/c0ffee" w →
  allocated "/E" "alpha" "20240101_0000" "/E/c0ffee"
    (with_disk
       (Sample.rm_rf (w_disk w) (w_cwd w)
          (os_path_join3 "/E" "temp" (uuid4 Sample.platform n))) w).
Proof.
  intros [(r & Hs & Hg) He]. unfold Sample.rm_rf.
  rewrite resolve_sample_temp.
  destruct (is_dir_abs (w_disk w) ["E"]) eqn:HE;
    [|rewrite with_disk_same; split; [by exists r|done]].
  destruct (is_dir_abs (w_disk w) ["E"; "temp"]) eqn:HT;
    [|rewrite with_disk_same; split; [by exists r|done]].
  set (a := ["E"; "temp"; uuid4 Sample.platform n]).
  set (d' := filter _ (w_disk w)).
  assert (∀ k, ¬ a `prefix_of` k → d' !! k = w_disk w !! k) as Hl.
  { intros k Hk. by apply lookup_rm_rf. }
  assert (∀ k, ¬ a `prefix_of` k → is_dir_abs d' k = is_dir_abs (w_disk w) k)
    as Hdir.
  { intros k Hk. unfold is_dir_abs. destruct k; [done|]. by rewrite Hl. }
  assert (∀ k, ¬ a `prefix_of` k → exists_abs d' k = exists_abs (w_disk w) k)
    as Hexi.
  { intros k Hk. unfold exists_abs. destruct k; [done|]. by rewrite Hl. }
  assert (¬ a `prefix_of` ["E"]) as H1.
  { intros [l Hl']. discriminate. }
  assert (¬ a `prefix_of` ["E"; "registry.json"]) as H2.
  { intros [l Hl']. discriminate. }
  assert (¬ a `prefix_of` ["E"; "c0ffee"]) as H3.
  { intros [l Hl']. discriminate. }
  assert (¬ a `prefix_of` ["E"; "c0ffee"; "20240101_0000"]) as H4.
  { intros [l Hl']. discriminate. }
  split.
  - exists r. split; [|done]. apply stored_registry_read.
    apply stored_registry_read in Hs. cbn [w_disk w_cwd with_disk].
    change (os_path_join "/E" "registry.json") with "/E/registry.json" in *.
    unfold read_disk in *. rewrite resolve_sample_registry in *.
    rewrite (Hdir _ H1). destruct (is_dir_abs (w_disk w) ["E"]); [|done].
    by rewrite (Hdir _ H2), (Hl _ H2).
  - unfold exists_in, path_exists in *. cbn [w_disk w_cwd with_disk].
    change (os_path_join "/E/c0ffee" "20240101_0000")
      with "/E/c0ffee/20240101_0000" in *.
    rewrite resolve_sample_version in *.
    rewrite (Hdir _ H1), (Hdir _ H3).
    destruct (is_dir_abs (w_disk w) ["E"]); [|done].
    destruct (is_dir_abs (w_disk w) ["E"; "c0ffee"]); [|done].
    by rewrite (Hexi _ H4).
Qed.

Lemma sample_tools_keep_allocated :
  tools_preserve Sample.platform "/E"
    (allocated "/E" "alpha" "20240101_0000" "/E/c0ffee").
Proof.
  intros c Hc w Hw. destruct Hc as [sb tf|vp command|vp sb|n|vp|vp];
    unfold after_call; simpl.
  - destruct (Sample.is_file _ _ _); [|simpl; by rewrite with_disk_same].
    destruct (mk_disk _ _ _ _ _) as [d' [u|e]] eqn:Hm;
      [|simpl; by rewrite with_disk_same].
    simpl. apply allocated_adds_dirs; [|done]. by eapply mk_disk_adds.
  - unfold Sample.recorder.
    destruct (write_disk _ _ _ _) as [d'|e] eqn:Hwd;
      [|simpl; by rewrite with_disk_same].
    simpl. eapply allocated_write_plain; [| |done..]; [|done].
    repeat split; discriminate.
  - destruct (path_isdir _ _ _); [|simpl; by rewrite with_disk_same].
    destruct (write_disk _ _ _ _) as [d'|e] eqn:Hwd;
      [|simpl; by rewrite with_disk_same].
    simpl. eapply allocated_write_plain; [| |done..]; [|done].
    repeat split; discriminate.
  - by apply sample_cleanup_keeps_allocated.
  - by rewrite with_disk_same.
  - by rewrite with_disk_same.
Qed.

Lemma second_create_raises_duplicate_witness :
  cmd_create Sample.platform (Sample.args "alpha" "20240101_0000")
    (cmd_create Sample.platform (Sample.args "alpha" "20240101_0000")
       (Sample.world ∅)).1.2
  = (Raise (DuplicateVersion "alpha" "20240101_0000"),
     (cmd_create Sample.platform (Sample.args "alpha" "20240101_0000")
        (Sample.world ∅)).1.2, []).
Proof.
  apply (second_create_raises_duplicate Sample.platform
           (Sample.args "alpha" "20240101_0000") (Sample.world ∅) _
           (cmd_create Sample.platform (Sample.args "alpha" "20240101_0000")
              (Sample.world ∅)).2).
  - exact sample_tools_keep_allocated.
  - vm_compute. reflexivity.
Defined.

(** ** Listing *)

Lemma list_children_run container container_path entries w :
  list_children container container_path entries w
  = (Ok tt, w,
     render <$> ((λ child, (container, child)) <$>
                 List.filter (has_image w container_path) entries)).
Proof.
  induction entries as [|child rest IH]; simpl; [done|].
  rewrite (bind_pure _ _ w (has_image w container_path child)) by done.
  rewrite bind_run. destruct (has_image w container_path child); simpl.
  - by rewrite IH.
  - by rewrite IH.
Qed.

(** [list_containers] prints the listing of the containers it gets through:
    all of them when every container path can be listed, and those before
    the first one that cannot otherwise. *)
Lemma list_containers_run items w :
  ∃ done_items rest r,
    items = done_items ++ rest ∧
    list_containers items w = (r, w, render <$> listing w done_items) ∧
    (r = Ok tt → rest = []) ∧
    ((∀ c p, (c, p) ∈ items → isdir_in w p = true) → r = Ok tt).
Proof.
  induction items as [|[c p] items IH]; simpl.
  { exists [], [], (Ok tt). repeat split; done. }
  rewrite bind_run. unfold os_listdir.
  destruct (listdir_disk (w_disk w) (w_cwd w) p) as [entries|e] eqn:El.
  - rewrite bind_run, list_children_run.
    destruct IH as (di & rest & r & -> & -> & Hok & Hall).
    exists ((c, p) :: di), rest, r. repeat split; try done.
    + simpl. unfold listing. simpl. rewrite fmap_app. f_equal.
      unfold listing_of, entries_of. simpl. by rewrite El.
    + intros Hd. apply Hall. intros c' p' Hin. apply (Hd c' p').
      by apply elem_of_cons; right.
  - exists [], ((c, p) :: items), (Raise e). repeat split; try done.
    intros Hd. specialize (Hd c p (list_elem_of_here _ _)).
    unfold isdir_in, path_isdir in Hd. unfold listdir_disk in El.
    destruct (resolve _ _ p) as [a|]; [|done]. by rewrite Hd in El.
Qed.









(** The scenario of the design: on an empty disk, [create] of [alpha] builds
    the version with its recording and image and registers the container; a
    second [create] raises [DuplicateVersion]; [list] prints the one
    version. *)
Example scenario_create_create_list :
  let a := Sample.args "alpha" "20240101_0000" in
  let first := cmd_create Sample.platform a (Sample.world ∅) in
  let second := cmd_create Sample.platform a first.1.2 in
  let third := cmd_list Sample.platform a second.1.2 in
  first.1.1 = Ok tt ∧
  Sample.is_file (w_disk first.1.2) []
    "/E/c0ffee/20240101_0000/container.sif" = true ∧
  Sample.is_file (w_disk first.1.2) []
    "/E/c0ffee/20240101_0000/recording.cast" = true ∧
  stored_registry first.1.2 "/E"
  = Some {| reg_version := 1; containers := [("alpha", "/E/c0ffee")] |} ∧
  second = (Raise (DuplicateVersion "alpha" "20240101_0000"), first.1.2, []) ∧
  third = (Ok tt, first.1.2, [EvPrint "alpha 20240101_0000"]).
Proof. cbv zeta. split_and!; vm_compute; reflexivity. Qed.

(** ** The two departures, in general *)

Lemma dir_head_no_sep n : has_sep n = false → dir_head n = "".
Proof. destruct n as [|c n]; [done|]. simpl. by intros ->. Qed.

Lemma dir_head_app_sep (a n : string) :
  has_sep n = false → dir_head (a +:+ "/" +:+ n) = a +:+ "/".
Proof.
  intros Hn. induction a as [|c a IH].
  - change ("" +:+ "/" +:+ n) with (String sep n). simpl.
    by rewrite (dir_head_no_sep _ Hn).
  - rewrite !(append_cons c a). simpl. rewrite IH, has_sep_app.
    change (has_sep ("/" +:+ n)) with true. by rewrite !orb_true_r.
Qed.

Lemma rstrip_sep_app_sep (a : string) : rstrip_sep (a +:+ "/") = rstrip_sep a.
Proof.
  induction a as [|c a IH]; [done|]. rewrite append_cons. simpl. by rewrite IH.
Qed.

Lemma rstrip_sep_id (a : string) : endswith_sep a = false → rstrip_sep a = a.
Proof.
  induction a as [|c a IH]; [done|]. simpl. destruct a as [|c' a].
  - simpl. by intros ->.
  - intros H. by rewrite (IH H).
Qed.

(** The directory of the registry file of a root written without a trailing
    separator is the root. *)
Lemma dirname_registry_path env :
  env ≠ "" → endswith_sep env = false →
  os_path_dirname (os_path_join env "registry.json") = env.
Proof.
  intros Hne He. unfold os_path_join. simpl startswith_sep. cbv iota.
  rewrite bool_decide_eq_false_2, He by done. simpl orb. cbv iota.
  unfold os_path_dirname. rewrite dir_head_app_sep by done.
  rewrite rstrip_sep_app_sep, rstrip_sep_id by done.
  by destruct env.
Qed.

(** [os.makedirs] without [exist_ok] on a directory raises and makes
    nothing. *)
Lemma mk_disk_existing d cwd s :
  path_isdir d cwd s = true →
  mk_disk true false d cwd s = (d, Raise FileExistsError).
Proof.
  unfold path_isdir, mk_disk, resolve. destruct s as [|c s]; [done|].
  destruct (walk d _ _) as [a|] eqn:Hw; [|done]. intros Ha.
  rewrite <- (app_nil_r (anchor cwd (String c s)).2).
  rewrite (mk_walk_follow true d [] _ _ a Hw Ha). done.
Qed.

(** The first departure: whenever the environment root is an existing
    directory without a registry file, [load_registry] raises [FileExistsError]. *)
Lemma load_registry_existing_root env w :
  env ≠ "" → endswith_sep env = false →
  isdir_in w env = true →
  exists_in w (os_path_join env "registry.json") = false →
  load_registry env w = (Raise FileExistsError, w, []).
Proof.
  intros Hne He Hd Hex. unfold load_registry.
  rewrite (bind_pure _ _ w false)
    by (unfold os_path_exists; unfold exists_in in Hex; by rewrite Hex).
  change (negb false) with true. cbv iota.
  rewrite dirname_registry_path by done.
  apply bind_raise. unfold os_makedirs, os_mk.
  rewrite (mk_disk_existing _ _ _ Hd). by rewrite with_disk_same.
Qed.

(** On a root that does not exist yet it makes the root and returns the
    fresh record. *)
Example load_registry_new_root :
  load_registry "/E" (Sample.world ∅)
  = (Ok fresh_registry, Sample.world Sample.bare_root, [EvMkdir "/E"]).
Proof. vm_compute. reflexivity. Qed.

(** The second departure: when [replay] of a name the registry does not
    know ends with the version-not-found error, the name has been
    registered, its directory made and the registry file written once. *)
Lemma replay_unknown_name_in_general (P : Platform) args w p w1 ev1 :
  is_registered w (the_env P args) (arg_name args) = false →
  get_container_path P (the_env P args) (arg_name args) w = (Ok p, w1, ev1) →
  exists_in w1 (os_path_join p (arg_version args)) = false →
  cmd_replay P args w = (Raise VersionNotFound, w1, ev1) ∧
  registered w1 (the_env P args) (arg_name args) p ∧
  isdir_in w1 p = true ∧
  count_writes (os_path_join (the_env P args) "registry.json") ev1 = 1.
Proof.
  intros Hnot Hg Hex.
  pose proof (get_container_path_registers _ _ _ _ _ _ _ Hg) as Hreg.
  destruct (container_path_resolution_twice_aux P _ _ _ _ _ _ Hg) as [Hc Hd].
  rewrite Hnot in Hc. split; [|by auto].
  unfold cmd_replay.
  rewrite (bind_pure _ _ _ _ (resolve_env_run _ _ _)). fold (the_env P args).
  rewrite bind_run, Hg.
  rewrite (bind_pure _ _ _ _ (get_container_version_path_absent _ _ _ Hex)).
  simpl. by rewrite app_nil_r.
Qed.

(** ** Directories that a call makes *)

Lemma disk_wf_insert_dir d cur c :
  disk_wf d → is_dir_abs d cur = true → d !! (cur ++ [c]) = None →
  disk_wf (<[cur ++ [c] := Dir]> d).
Proof.
  intros Hwf Hd Hn a [n Ha].
  pose proof (adds_dirs_grows _ _ (adds_dirs_insert d _ Hn)) as Hg.
  destruct (decide (a = cur ++ [c])) as [->|Hne].
  - rewrite removelast_last. by eapply grows_is_dir.
  - rewrite lookup_insert_ne in Ha by done.
    eapply grows_is_dir; [done|]. apply Hwf. by exists n.
Qed.

Lemma disk_wf_no_child d k c :
  disk_wf d → d !! k = None → k ≠ [] → d !! (k ++ [c]) = None.
Proof.
  intros Hwf Hn Hk. apply eq_None_not_Some. intros Hs. apply Hwf in Hs.
  rewrite removelast_last in Hs. unfold is_dir_abs in Hs.
  destruct k; [done|]. by rewrite Hn in Hs.
Qed.

Lemma disk_wf_empty : disk_wf ∅.
Proof. intros a [n Hn]. by rewrite lookup_empty in Hn. Qed.

(** The directory a walk reports as made has no entries. *)
Lemma mk_walk_fresh all cs : ∀ d cur m d' fin,
  disk_wf d → (m = true → ∀ c, d !! (cur ++ [c]) = None) →
  mk_walk all d cur cs m = (d', Ok (fin, true)) →
  ∀ c, d' !! (fin ++ [c]) = None.
Proof.
  induction cs as [|c0 cs IH]; intros d cur m d' fin Hwf Hm; simpl.
  { intros [= <- <- ->]. by apply Hm. }
  destruct (is_dir_abs d cur) eqn:Ed; [|done].
  destruct (special c0); [by apply IH|].
  case_bool_decide; [by apply IH|].
  destruct (d !! (cur ++ [c0])) eqn:El; [by apply IH|].
  destruct (all || _); [|done].
  apply IH; [by apply disk_wf_insert_dir|].
  intros _ c. rewrite lookup_insert_ne.
  2: { intros E. apply (f_equal length) in E. rewrite !length_app in E.
       simpl in E. lia. }
  apply disk_wf_no_child; [done..|]. by destruct cur.
Qed.

(** What a walk reports as made was not there before. *)
Lemma mk_walk_absent all cs d0 : ∀ d cur m d' fin,
  adds_dirs d0 d → (m = true → d0 !! cur = None ∧ cur ≠ []) →
  mk_walk all d cur cs m = (d', Ok (fin, true)) →
  match walk d0 cur cs with Some a => exists_abs d0 a | None => false end
  = false.
Proof.
  induction cs as [|c0 cs IH]; intros d cur m d' fin Ha Hm; simpl.
  { intros [= <- <- ->]. destruct (Hm eq_refl) as [Hn Hc].
    unfold exists_abs. destruct cur; [done|]. rewrite Hn.
    apply bool_decide_eq_false. by intros [? ?]. }
  destruct (is_dir_abs d0 cur) eqn:Ed0.
  2: { by intros _. }
  rewrite (grows_is_dir _ _ _ (adds_dirs_grows _ _ Ha) Ed0).
  unfold step.
  destruct (special c0); [by apply IH|].
  case_bool_decide; [by apply IH|].
  destruct (d !! (cur ++ [c0])) eqn:El; [by apply IH|].
  destruct (all || _); [|done].
  apply IH.
  - eapply adds_dirs_trans; [done|]. by apply adds_dirs_insert.
  - intros _. split; [|by destruct cur].
    destruct (Ha (cur ++ [c0])) as [E|[E _]]; congruence.
Qed.

(** [os.makedirs] and [os.mkdir] without [exist_ok] succeed only on a path
    that did not exist. *)
Lemma mk_disk_ok_absent all d cwd s d' u :
  mk_disk all false d cwd s = (d', Ok u) → path_exists d cwd s = false.
Proof.
  unfold mk_disk, path_exists, resolve. destruct s as [|c s]; [done|].
  destruct (mk_walk _ _ _ _ _) as [d1 [[fin made]|e]] eqn:Hw; [|done].
  destruct made; [|done]. intros _.
  eapply (mk_walk_absent _ _ d); [apply adds_dirs_refl| |done]. done.
Qed.

(** On a well-formed disk, the directory made by a successful [os.makedirs]
    or [os.mkdir] without [exist_ok] is empty. *)
Lemma mk_disk_ok_empty all d cwd s d' u :
  disk_wf d → mk_disk all false d cwd s = (d', Ok u) →
  ∃ fin, resolve d' cwd s = Some fin ∧ ∀ c, d' !! (fin ++ [c]) = None.
Proof.
  intros Hwf. unfold mk_disk, resolve. destruct s as [|c s]; [done|].
  destruct (mk_walk _ _ _ _ _) as [d1 [[fin made]|e]] eqn:Hw; [|done].
  destruct made; [|done]. intros [= <- _].
  exists fin. split; [by apply mk_walk_ok in Hw as [? _]|].
  eapply (mk_walk_fresh _ _ d); [done| |done]. done.
Qed.

(** ** Saving and loading *)

Lemma registry_file_written d1 env reg k w :
  resolve d1 (w_cwd w) (os_path_join env "registry.json") = Some k →
  is_dir_abs d1 k = false →
  stored_registry (with_disk (<[k := File (Json reg)]> d1) w) env = Some reg.
Proof.
  intros Hk Hnd. apply stored_registry_read, read_disk_ok. exists k.
  simpl. split; [|split].
  - eapply grows_resolve; [|done]. by apply grows_insert_file.
  - by intros ->.
  - by rewrite lookup_insert_eq.
Qed.

(** X1.  Saving and loading agree: once [save_registry] has returned, the
    registry file of the root holds the record that was saved, whatever it
    held before, and [load_registry] gives that record back without touching
    the world or emitting anything.  The save wrote the file once. *)
Theorem save_then_load_registry env reg w w' ev :
  save_registry env reg w = (Ok tt, w', ev) →
  stored_registry w' env = Some reg ∧
  load_registry env w' = (Ok reg, w', []) ∧
  count_writes (os_path_join env "registry.json") ev = 1.
Proof.
  intros (d1 & Ha & k & Hk & Hnd & -> & ev1 & -> & Hc)%save_registry_inv.
  assert (stored_registry (with_disk (<[k := File (Json reg)]> d1) w) env
          = Some reg) as Hs by by apply registry_file_written.
  split; [done|]. split; [by apply load_registry_stored|].
  rewrite count_writes_app, Hc. unfold count_writes. simpl.
  by rewrite bool_decide_eq_true_2.
Qed.

Lemma save_then_load_registry_witness :
  stored_registry
    (save_registry "/E" {| reg_version := 1; containers := [("alpha", "/E/a1")] |}
       (Sample.world Sample.bare_root)).1.2 "/E"
  = Some {| reg_version := 1; containers := [("alpha", "/E/a1")] |} ∧
  load_registry "/E"
    (save_registry "/E" {| reg_version := 1; containers := [("alpha", "/E/a1")] |}
       (Sample.world Sample.bare_root)).1.2
  = (Ok {| reg_version := 1; containers := [("alpha", "/E/a1")] |},
     (save_registry "/E" {| reg_version := 1; containers := [("alpha", "/E/a1")] |}
       (Sample.world Sample.bare_root)).1.2, []) ∧
  count_writes (os_path_join "/E" "registry.json")
    [EvMkdir "/E"; EvWrite "/E/registry.json"] = 1.
Proof.
  apply (save_then_load_registry "/E" _ (Sample.world Sample.bare_root)).
  vm_compute. reflexivity.
Defined.

(** ** The version directory *)

(** X2.  The version path is checked and then made.  With [mkdir=False],
    [get_container_version_path] never raises and changes nothing: it
    returns the joined path and whether it exists.  With [mkdir=True], the
    flag it returns tells whether the path existed before the call; if not,
    the call has made the directory; either way any later call reports the
    version as existing and does nothing.  When the call raises, the path
    did not exist and nothing was emitted. *)
Theorem version_path_check_then_make p v w :
  get_container_version_path p v false w
  = (Ok (os_path_join p v, exists_in w (os_path_join p v)), w, []) ∧
  ∀ r w' ev,
    get_container_version_path p v true w = (r, w', ev) →
    match r with
    | Ok (version_path, found) =>
        version_path = os_path_join p v ∧
        found = exists_in w version_path ∧
        (if found then w' = w ∧ ev = []
         else isdir_in w' version_path = true ∧ ev = [EvMkdir version_path]) ∧
        ∀ mkdir, get_container_version_path p v mkdir w'
                 = (Ok (version_path, true), w', [])
    | Raise _ => exists_in w (os_path_join p v) = false ∧ ev = []
    end.
Proof.
  split.
  { destruct (exists_in w (os_path_join p v)) eqn:He.
    - by apply get_container_version_path_found.
    - by apply get_container_version_path_absent. }
  intros r w' ev. destruct (exists_in w (os_path_join p v)) eqn:He.
  - rewrite (get_container_version_path_found _ _ _ _ He).
    intros [= <- <- <-]. rewrite He. repeat split; try done.
    intros mk. by apply get_container_version_path_found.
  - rewrite (get_container_version_path_mkdir _ _ _ He).
    destruct (os_mkdir _ w) as [[[u|e] w1] ev1] eqn:Hm; intros [= <- <- <-].
    + apply os_mk_run in Hm as (_ & _ & _ & _ & -> & Hd).
      rewrite He. repeat split; try done.
      intros mk. apply get_container_version_path_found.
      by apply path_isdir_exists.
    + apply os_mk_run in Hm as (_ & _ & _ & _ & ->). done.
Qed.

Lemma version_path_check_then_make_witness :
  "/E/a1/v2" = "/E/a1/v2" ∧
  false = exists_in (Sample.world Sample.partial_build) "/E/a1/v2" ∧
  (isdir_in
     (get_container_version_path "/E/a1" "v2" true
        (Sample.world Sample.partial_build)).1.2 "/E/a1/v2" = true ∧
   [EvMkdir "/E/a1/v2"] = [EvMkdir "/E/a1/v2"]) ∧
  ∀ mkdir,
    get_container_version_path "/E/a1" "v2" mkdir
      (get_container_version_path "/E/a1" "v2" true
         (Sample.world Sample.partial_build)).1.2
    = (Ok ("/E/a1/v2", true),
       (get_container_version_path "/E/a1" "v2" true
          (Sample.world Sample.partial_build)).1.2, []).
Proof.
  assert (get_container_version_path "/E/a1" "v2" true
            (Sample.world Sample.partial_build)
          = (Ok ("/E/a1/v2", false),
             (get_container_version_path "/E/a1" "v2" true
                (Sample.world Sample.partial_build)).1.2,
             [EvMkdir "/E/a1/v2"])) as H
    by (vm_compute; reflexivity).
  exact (proj2 (version_path_check_then_make "/E/a1" "v2"
                  (Sample.world Sample.partial_build)) _ _ _ H).
Defined.

(** ** A registry file that cannot be read *)

Lemma load_registry_unreadable env w t :
  read_disk (w_disk w) (w_cwd w) (os_path_join env "registry.json")
  = Ok (Text t) →
  load_registry env w = (Raise JSONDecodeError, w, []).
Proof.
  intros Hr. unfold load_registry.
  rewrite (bind_pure _ _ w true).
  2: { unfold os_path_exists. by rewrite (read_disk_exists _ _ _ _ Hr). }
  simpl. unfold read_json. rewrite bind_run. unfold read_content.
  by rewrite Hr.
Qed.

(** Every command begins by loading the registry of its root, and ends with
    the error of the load when that fails. *)
Lemma commands_load_first P args w e w' ev :
  load_registry (the_env P args) w = (Raise e, w', ev) →
  cmd_run P args w = (Raise e, w', ev) ∧
  cmd_replay P args w = (Raise e, w', ev) ∧
  cmd_list P args w = (Raise e, w', ev) ∧
  cmd_create P args w
  = match package_manager_of args with
    | Some _ => (Raise e, w', ev)
    | None => (Raise UnknownPackageManager, w, [])
    end.
Proof.
  intros Hl.
  assert (get_container_path P (the_env P args) (arg_name args) w
          = (Raise e, w', ev)) as Hg.
  { unfold get_container_path. by apply bind_raise. }
  split; [|split; [|split]].
  - unfold cmd_run.
    rewrite (bind_pure _ _ _ _ (resolve_env_run _ _ _)). fold (the_env P args).
    by apply bind_raise.
  - unfold cmd_replay.
    rewrite (bind_pure _ _ _ _ (resolve_env_run _ _ _)). fold (the_env P args).
    by apply bind_raise.
  - unfold cmd_list.
    rewrite (bind_pure _ _ _ _ (resolve_env_run _ _ _)). fold (the_env P args).
    by apply bind_raise.
  - rewrite cmd_create_prefix. destruct (package_manager_of args); [|done].
    by apply bind_raise.
Qed.

(** X3.  A registry file that does not hold JSON stops every command: [run],
    [replay] and [list] end with [JSONDecodeError] before anything is made,
    written, started or printed, and so does [create] unless it has already
    failed to settle on a package manager. *)
Theorem unreadable_registry_stops_every_command (P : Platform) args w t :
  read_disk (w_disk w) (w_cwd w)
    (os_path_join (the_env P args) "registry.json") = Ok (Text t) →
  cmd_run P args w = (Raise JSONDecodeError, w, []) ∧
  cmd_replay P args w = (Raise JSONDecodeError, w, []) ∧
  cmd_list P args w = (Raise JSONDecodeError, w, []) ∧
  cmd_create P args w
  = match package_manager_of args with
    | Some _ => (Raise JSONDecodeError, w, [])
    | None => (Raise UnknownPackageManager, w, [])
    end.
Proof.
  intros Hr. apply commands_load_first. by eapply load_registry_unreadable.
Qed.

(** ** Listing a root for the first time *)

(** When [load_registry] finds no registry file and returns, it has made the
    root, and only the root: the registry file is still missing. *)
Lemma load_registry_makes_root env w r w1 ev :
  env ≠ "" → endswith_sep env = false → disk_wf (w_disk w) →
  exists_in w (os_path_join env "registry.json") = false →
  load_registry env w = (Ok r, w1, ev) →
  r = fresh_registry ∧ ev = [EvMkdir env] ∧
  exists_in w env = false ∧ isdir_in w1 env = true ∧
  exists_in w1 (os_path_join env "registry.json") = false.
Proof.
  intros Hne He Hwf Hex. unfold load_registry.
  rewrite (bind_pure _ _ w false)
    by (unfold os_path_exists; unfold exists_in in Hex; by rewrite Hex).
  change (negb false) with true. cbv iota.
  rewrite dirname_registry_path by done.
  intros [(e & ? & _)|(u & w2 & ev2 & ev3 & H2 & H & ->)]%bind_inv; [done|].
  injection H as <- <- <-. unfold os_makedirs, os_mk in H2.
  destruct (mk_disk true false _ _ env) as [d' [u'|e]] eqn:Hm; [|done].
  injection H2 as <- <-. rewrite app_nil_r.
  pose proof (mk_disk_ok_absent _ _ _ _ _ _ Hm) as Habs.
  pose proof (mk_disk_ok_isdir _ _ _ _ _ _ _ Hm) as Hd.
  destruct (mk_disk_ok_empty _ _ _ _ _ _ Hwf Hm) as (fin & Hfin & Hempty).
  repeat split; try done.
  unfold exists_in, path_exists. simpl.
  destruct (resolve_join_plain d' (w_cwd w) env "registry.json"
              plain_registry_json Hd) as (a & Ha & _ & ->).
  assert (a = fin) as -> by congruence.
  unfold exists_abs. destruct (fin ++ ["registry.json"]) eqn:E;
    [by destruct fin|].
  rewrite <- E, Hempty. apply bool_decide_eq_false. by intros [? ?].
Qed.

(** X4.  [list] on a root without a registry file: when it returns, it has
    made the root directory, printed nothing and written no registry file.
    From then on every command on this root raises [FileExistsError] and
    changes nothing, because [load_registry] calls [os.makedirs] on the
    directory that now exists ([create] still fails first when it cannot
    settle on a package manager). *)
Theorem list_on_new_root_blocks_the_root (P : Platform) args w w1 ev :
  the_env P args ≠ "" → endswith_sep (the_env P args) = false →
  disk_wf (w_disk w) →
  exists_in w (os_path_join (the_env P args) "registry.json") = false →
  cmd_list P args w = (Ok tt, w1, ev) →
  ev = [EvMkdir (the_env P args)] ∧
  exists_in w (the_env P args) = false ∧
  isdir_in w1 (the_env P args) = true ∧
  exists_in w1 (os_path_join (the_env P args) "registry.json") = false ∧
  ∀ args', the_env P args' = the_env P args →
    cmd_list P args' w1 = (Raise FileExistsError, w1, []) ∧
    cmd_run P args' w1 = (Raise FileExistsError, w1, []) ∧
    cmd_replay P args' w1 = (Raise FileExistsError, w1, []) ∧
    cmd_create P args' w1
    = match package_manager_of args' with
      | Some _ => (Raise FileExistsError, w1, [])
      | None => (Raise UnknownPackageManager, w1, [])
      end.
Proof.
  intros Hne He Hwf Hex Hl. unfold cmd_list in Hl.
  rewrite (bind_pure _ _ _ _ (resolve_env_run _ _ _)) in Hl.
  fold (the_env P args) in Hl.
  apply bind_inv in Hl as [(e & ? & _)|(r & w2 & ev2 & ev3 & H2 & H & ->)];
    [done|].
  destruct (load_registry_makes_root _ _ _ _ _ Hne He Hwf Hex H2)
    as (-> & -> & Habs & Hd & Hex1).
  simpl in H. injection H as <- <-.
  split; [done|]. split; [done|]. split; [done|]. split; [done|].
  intros args' Henv.
  destruct (commands_load_first P args' w2 FileExistsError w2 [])
    as (Hrun & Hreplay & Hlist & Hcreate); [|done].
  rewrite Henv. by apply load_registry_existing_root.
Qed.

Lemma list_on_new_root_blocks_the_root_witness :
  [EvMkdir "/E"] = [EvMkdir "/E"] ∧
  exists_in (Sample.world ∅) "/E" = false ∧
  isdir_in (Sample.world Sample.bare_root) "/E" = true ∧
  exists_in (Sample.world Sample.bare_root) "/E/registry.json" = false ∧
  ∀ args', the_env Sample.platform args' = "/E" →
    cmd_list Sample.platform args' (Sample.world Sample.bare_root)
    = (Raise FileExistsError, Sample.world Sample.bare_root, []) ∧
    cmd_run Sample.platform args' (Sample.world Sample.bare_root)
    = (Raise FileExistsError, Sample.world Sample.bare_root, []) ∧
    cmd_replay Sample.platform args' (Sample.world Sample.bare_root)
    = (Raise FileExistsError, Sample.world Sample.bare_root, []) ∧
    cmd_create Sample.platform args' (Sample.world Sample.bare_root)
    = match package_manager_of args' with
      | Some _ =>
          (Raise FileExistsError, Sample.world Sample.bare_root, [])
      | None =>
          (Raise UnknownPackageManager, Sample.world Sample.bare_root, [])
      end.
Proof.
  apply (list_on_new_root_blocks_the_root Sample.platform
           (Sample.args "" "") (Sample.world ∅)).
  - discriminate.
  - reflexivity.
  - exact disk_wf_empty.
  - reflexivity.
  - vm_compute. reflexivity.
Defined.

(** ** What listing, running and replaying do *)

Lemma tool_events_render l : tool_events (render <$> l) = [].
Proof. induction l as [|x l IH]; [done|]. simpl. exact IH. Qed.

Lemma count_writes_render path l : count_writes path (render <$> l) = 0.
Proof. induction l as [|x l IH]; [done|]. simpl. exact IH. Qed.

(** [load_registry] emits at most the creation of the root. *)
Lemma load_registry_events env w r w' ev :
  load_registry env w = (r, w', ev) →
  ev = [] ∨
  (ev = [EvMkdir (os_path_dirname (os_path_join env "registry.json"))] ∧
   r = Ok fresh_registry).
Proof.
  unfold load_registry.
  intros [(e & _ & H)|(b & w1 & ev1 & ev2 & H1 & H & ->)]%bind_inv; [done|].
  injection H1 as <- <- <-. rewrite app_nil_l. destruct (negb _).
  - apply bind_inv in H as [(e & _ & H)|(u & w2 & ev2' & ev3 & H2 & H & ->)].
    + apply os_mk_run in H as (_ & _ & _ & _ & ->). by left.
    + injection H as <- <- <-.
      apply os_mk_run in H2 as (_ & _ & _ & _ & -> & _). by right.
  - left. unfold read_json in H.
    apply bind_inv in H as [(e & _ & H)|(c & w2 & ev2' & ev3 & H2 & H & ->)].
    + unfold read_content in H. destruct (read_disk _ _ _); [done|].
      by injection H as _ _ <-.
    + unfold read_content in H2. destruct (read_disk _ _ _) as [c'|e'];
        [|done].
      injection H2 as <- <- <-. by destruct c'; injection H as _ _ <-.
Qed.

(** X5.  [list] only reads: it starts no tool and writes no file; what it
    can change is the disk, by making directories while loading the
    registry; with a readable registry it leaves the world as it was,
    whatever its outcome. *)
Theorem list_only_reads (P : Platform) args w :
  let out := cmd_list P args w in
  tool_events out.2 = [] ∧
  (∀ path, count_writes path out.2 = 0) ∧
  out.1.2 = with_disk (w_disk out.1.2) w ∧
  adds_dirs (w_disk w) (w_disk out.1.2) ∧
  (is_Some (stored_registry w (the_env P args)) → out.1.2 = w).
Proof.
  intros out. subst out. unfold cmd_list.
  rewrite (bind_pure _ _ _ _ (resolve_env_run _ _ _)). fold (the_env P args).
  rewrite bind_run.
  destruct (load_registry (the_env P args) w) as [[r w1] ev1] eqn:Hl.
  pose proof (load_registry_events _ _ _ _ _ Hl) as Hev.
  apply load_registry_inv in Hl
    as [(reg & Hs & -> & -> & ->)|(Hs & Hw1 & Ha & _ & Hf)].
  - destruct (list_containers_run (containers reg) w)
      as (di & rest & res & _ & -> & _). simpl.
    rewrite tool_events_render. split; [done|].
    split; [intros path; apply count_writes_render|].
    split; [by destruct w|]. split; [apply adds_dirs_refl|done].
  - assert (tool_events ev1 = [] ∧ ∀ path, count_writes path ev1 = 0)
      as [Ht Hc] by (by destruct Hev as [->|[-> _]]).
    rewrite Hs. destruct r as [reg|e]; simpl.
    + rewrite (Hf reg eq_refl). simpl. rewrite app_nil_r.
      repeat split; done.
    + repeat split; done.
Qed.

Lemma list_only_reads_witness :
  (cmd_list Sample.platform (Sample.args "" "")
     (Sample.world Sample.partial_build)).1.2
  = Sample.world Sample.partial_build.
Proof.
  apply (list_only_reads Sample.platform (Sample.args "" "")
           (Sample.world Sample.partial_build)).
  eexists. vm_compute. reflexivity.
Defined.

Lemma get_container_version_path_result p v mk w vp found w' ev :
  get_container_version_path p v mk w = (Ok (vp, found), w', ev) →
  vp = os_path_join p v.
Proof.
  unfold get_container_version_path.
  intros [(e & ? & _)|(b & w1 & ev1 & ev2 & H1 & H & ->)]%bind_inv; [done|].
  destruct (negb b); [|by injection H as <-].
  apply bind_inv in H as [(e & ? & _)|(u & w2 & ev2' & ev3 & H2 & H & ->)];
    [done|].
  by injection H as <-.
Qed.

Lemma play_inv P path w r w' ev :
  asciinema_play P path w = (r, w', ev) →
  (r = Ok tt ∧ ev = [EvPlay path true]) ∨
  (r = Raise PlayerError ∧ ev = [EvPlay path false]).
Proof.
  unfold asciinema_play. destruct (play P _ _ _) as [[|] d'];
    intros [= <- <- <-]; auto.
Qed.

(** X6.  [run] and [replay] start at most one tool: [singularity run] on
    [container.sif] in the version path, and the player on [recording.cast]
    in the version path.  Each command returns normally exactly when its tool
    was started and succeeded; when no tool was started the command
    raised. *)
Theorem run_and_replay_start_one_tool (P : Platform) args w :
  let version_path :=
    os_path_join
      (container_path_of P w (the_env P args) (arg_name args))
      (arg_version args) in
  let ran := cmd_run P args w in
  let replayed := cmd_replay P args w in
  ((tool_events ran.2 = [] ∧ ran.1.1 ≠ Ok tt) ∨
   ∃ ok,
     tool_events ran.2
     = [EvExec ["singularity"; "run";
                os_path_join version_path "container.sif"] ok] ∧
     (ran.1.1 = Ok tt ↔ ok = true)) ∧
  ((tool_events replayed.2 = [] ∧ replayed.1.1 ≠ Ok tt) ∨
   ∃ ok,
     tool_events replayed.2
     = [EvPlay (os_path_join version_path "recording.cast") ok] ∧
     (replayed.1.1 = Ok tt ↔ ok = true)).
Proof.
  intros vp ran replayed. subst vp ran replayed. split.
  - destruct (cmd_run P args w) as [[r w'] ev] eqn:H. simpl.
    unfold cmd_run in H.
    rewrite (bind_pure _ _ _ _ (resolve_env_run _ _ _)) in H.
    fold (the_env P args) in H.
    apply bind_inv in H as [(e & -> & H)|(cp & w1 & ev1 & ev1' & H1 & H & ->)].
    { left. split; [|done].
      eapply quiet_inv; [apply quiet_get_container_path|done]. }
    rewrite <- (get_container_path_result _ _ _ _ _ _ _ H1).
    apply (quiet_inv _ _ _ _ _ (quiet_get_container_path _ _ _)) in H1.
    rewrite tool_events_app, H1, app_nil_l.
    apply bind_inv in H
      as [(e & -> & H)|([vp found] & w2 & ev2 & ev2' & H2 & H & ->)].
    { left. split; [|done].
      eapply quiet_inv; [apply quiet_get_container_version_path|done]. }
    rewrite (get_container_version_path_result _ _ _ _ _ _ _ _ H2) in H.
    apply (quiet_inv _ _ _ _ _ (quiet_get_container_version_path _ _ _)) in H2.
    rewrite tool_events_app, H2, app_nil_l.
    destruct found; simpl in H.
    + right. apply run_command_inv in H as [[-> ->]|[-> ->]].
      * by exists true.
      * exists false. split; [done|]. split; discriminate.
    + left. by injection H as <- <- <-.
  - destruct (cmd_replay P args w) as [[r w'] ev] eqn:H. simpl.
    unfold cmd_replay in H.
    rewrite (bind_pure _ _ _ _ (resolve_env_run _ _ _)) in H.
    fold (the_env P args) in H.
    apply bind_inv in H as [(e & -> & H)|(cp & w1 & ev1 & ev1' & H1 & H & ->)].
    { left. split; [|done].
      eapply quiet_inv; [apply quiet_get_container_path|done]. }
    rewrite <- (get_container_path_result _ _ _ _ _ _ _ H1).
    apply (quiet_inv _ _ _ _ _ (quiet_get_container_path _ _ _)) in H1.
    rewrite tool_events_app, H1, app_nil_l.
    apply bind_inv in H
      as [(e & -> & H)|([vp found] & w2 & ev2 & ev2' & H2 & H & ->)].
    { left. split; [|done].
      eapply quiet_inv; [apply quiet_get_container_version_path|done]. }
    rewrite (get_container_version_path_result _ _ _ _ _ _ _ _ H2) in H.
    apply (quiet_inv _ _ _ _ _ (quiet_get_container_version_path _ _ _)) in H2.
    rewrite tool_events_app, H2, app_nil_l.
    destruct found; simpl in H.
    + right. unfold get_container_recording_path in H.
      apply play_inv in H as [[-> ->]|[-> ->]].
      * by exists true.
      * exists false. split; [done|]. split; discriminate.
    + left. by injection H as <- <- <-.
Qed.

(** ** Registering a container *)

(** What a walk reports as made is a place that held nothing before. *)
Lemma mk_walk_made all cs d0 : ∀ d cur m d' fin,
  adds_dirs d0 d → (m = true → d0 !! cur = None ∧ cur ≠ []) →
  mk_walk all d cur cs m = (d', Ok (fin, true)) →
  d0 !! fin = None ∧ fin ≠ [].
Proof.
  induction cs as [|c0 cs IH]; intros d cur m d' fin Ha Hm; simpl.
  { intros [= <- <- ->]. by apply Hm. }
  destruct (is_dir_abs d cur) eqn:Ed; [|done].
  destruct (special c0); [by apply IH|].
  case_bool_decide; [by apply IH|].
  destruct (d !! (cur ++ [c0])) eqn:El; [by apply IH|].
  destruct (all || _); [|done].
  apply IH.
  - eapply adds_dirs_trans; [done|]. by apply adds_dirs_insert.
  - intros _. split; [|by destruct cur].
    destruct (Ha (cur ++ [c0])) as [E|[E _]]; congruence.
Qed.

Lemma mk_disk_ok_made all d cwd s d' u :
  mk_disk all false d cwd s = (d', Ok u) →
  ∃ fin, resolve d' cwd s = Some fin ∧ d !! fin = None ∧ fin ≠ [].
Proof.
  unfold mk_disk, resolve. destruct s as [|c s]; [done|].
  destruct (mk_walk _ _ _ _ _) as [d1 [[fin made]|e]] eqn:Hw; [|done].
  destruct made; [|done]. intros [= <- _].
  exists fin. split; [by apply mk_walk_ok in Hw as [? _]|].
  eapply (mk_walk_made _ _ d); [apply adds_dirs_refl| |done]. done.
Qed.

Lemma dict_get_set_ne d k v k2 :
  k2 ≠ k → dict_get (dict_set d k v) k2 = dict_get d k2.
Proof.
  intros Hne. induction d as [|[k' v'] d IH]; simpl.
  - by rewrite bool_decide_eq_false_2.
  - case_bool_decide as E; simpl.
    + subst k'. by rewrite !bool_decide_eq_false_2.
    + case_bool_decide; [done|]. apply IH.
Qed.

Lemma dict_set_new d k v :
  dict_get d k = None → dict_set d k v = d ++ [(k, v)].
Proof.
  induction d as [|[k' v'] d IH]; simpl; [done|].
  case_bool_decide; [done|]. intros Hd. by rewrite IH.
Qed.

Lemma is_registered_false w env name :
  is_registered w env name = false →
  dict_get (containers (base_registry w env)) name = None.
Proof.
  unfold is_registered, base_registry.
  destruct (stored_registry w env) as [r|]; [|done].
  intros Hn%bool_decide_eq_false. destruct (dict_get _ _); [|done].
  exfalso. apply Hn. by eexists.
Qed.

(** Resolving a name that is not registered, step by step. *)
Lemma get_container_path_new P env name w p w' ev :
  get_container_path P env name w = (Ok p, w', ev) →
  is_registered w env name = false →
  p = os_path_join env (uuid4 P (w_drawn w)) ∧
  w_drawn w' = S (w_drawn w) ∧ w_cwd w' = w_cwd w ∧
  grows (w_disk w) (w_disk w') ∧
  exists_in w p = false ∧
  (∃ fin, resolve (w_disk w') (w_cwd w) p = Some fin ∧
          w_disk w !! fin = None ∧ fin ≠ [] ∧
          is_dir_abs (w_disk w') fin = true) ∧
  stored_registry w' env
  = Some (with_container (base_registry w env) name p).
Proof.
  intros H Hnot.
  pose proof (get_container_path_grows _ _ _ _ _ _ _ H) as (Hgr & Hcw & _).
  pose proof (container_path_resolution_twice_aux _ _ _ _ _ _ _ H)
    as [_ Hisd]. specialize (Hisd Hnot).
  assert (stored_registry w' env
          = Some (with_container (base_registry w env) name p)) as Hst.
  { pose proof (get_container_path_inv _ _ _ _ _ _ _ H)
      as [(p' & Hreg & _)|(_ & _ & _ & _ & H')].
    { apply registered_is_registered in Hreg. congruence. }
    destruct H' as (d2 & k & ev1 & ev2 & Ha & Hd & Hk & Hnd & Hw' & _).
    apply stored_registry_read, read_disk_ok. exists k. rewrite Hw', Hcw.
    split; [|split].
    - eapply grows_resolve; [|done]. by apply grows_insert_file.
    - by intros ->.
    - by rewrite lookup_insert_eq. }
  unfold get_container_path in H.
  apply bind_inv in H as [(e & ? & _)|(reg & w1 & ev1 & ev1' & H1 & H & ->)];
    [done|].
  assert (w1 = with_disk (w_disk w1) w ∧ adds_dirs (w_disk w) (w_disk w1) ∧
          dict_get (containers reg) name = None) as (Hw1 & Ha1 & Hg).
  { pose proof (is_registered_false _ _ _ Hnot) as Hb.
    unfold base_registry in Hb.
    apply load_registry_inv in H1
      as [(reg' & Hs & [= <-] & -> & ->)|(Hs & Hw & Ha & Hc & Hfresh)].
    - rewrite Hs in Hb. split; [by destruct w|].
      split; [apply adds_dirs_refl|done].
    - by rewrite (Hfresh reg eq_refl). }
  rewrite Hg in H.
  apply bind_inv in H as [(e & ? & _)|(id & w2 & ev2 & ev2' & H2 & H & ->)];
    [done|].
  injection H2 as <- <- <-.
  assert (w_drawn w1 = w_drawn w ∧ w_cwd w1 = w_cwd w) as [Hdr Hc1]
    by (by rewrite Hw1).
  rewrite Hdr in H.
  apply bind_inv in H as [(e & ? & _)|(u & w3 & ev3 & ev3' & H3 & H & ->)];
    [done|].
  apply bind_inv in H as [(e & ? & _)|(u4 & w4 & ev4 & ev4' & H4 & H & ->)];
    [done|].
  injection H as <- <- <-.
  set (p := os_path_join env (uuid4 P (w_drawn w))) in *.
  pose proof (os_mk_run _ _ _ _ _ _ _ H3) as (Ha3 & Hcw3 & _ & Hd3 & _).
  simpl in Ha3, Hcw3, Hd3.
  apply save_registry_inv in H4 as (d1 & Had & k & _ & Hnd & Hw4 & _).
  unfold os_makedirs, os_mk in H3. simpl in H3.
  destruct (mk_disk true false (w_disk w1) (w_cwd w1) p) as [d3 [u'|e]] eqn:Hm;
    [|done].
  injection H3 as _ Hw3 _.
  pose proof (mk_disk_ok_absent _ _ _ _ _ _ Hm) as Habs.
  destruct (mk_disk_ok_made _ _ _ _ _ _ Hm) as (fin & Hfin & Hnone & Hne).
  rewrite Hc1 in Hfin, Habs.
  assert (w_disk w3 = d3) as Hd3' by by rewrite <- Hw3.
  split; [done|]. split; [by rewrite Hw4|].
  split; [done|]. split; [done|]. split; [|split; [|done]].
  - destruct (exists_in w p) eqn:E; [|done].
    unfold exists_in in E.
    apply (grows_path_exists _ _ _ _ (adds_dirs_grows _ _ Ha1)) in E.
    congruence.
  - exists fin.
    assert (resolve (w_disk w4) (w_cwd w) p = Some fin) as Hr'.
    { rewrite Hw4. simpl. eapply grows_resolve; [|done]. rewrite <- Hd3'.
      eapply grows_trans; [by apply adds_dirs_grows|].
      by apply grows_insert_file. }
    split; [done|]. split.
    { destruct (Ha1 fin) as [E|[E _]]; congruence. }
    split; [done|].
    unfold isdir_in, path_isdir in Hisd. rewrite Hcw, Hr' in Hisd. done.
Qed.

Lemma registered_base w env n q :
  registered w env n q ↔ dict_get (containers (base_registry w env)) n = Some q.
Proof.
  unfold registered, base_registry. split.
  - intros (r & -> & Hg). done.
  - destruct (stored_registry w env) as [r|]; [|done]. intros Hg. by exists r.
Qed.

(** X7.  Registering a new name keeps the others: the record written has
    the version tag of the record that was loaded and its entries in their
    order, followed by the new one, and every other name is registered after
    the call with the path it had before, and with no other. *)
Theorem registering_keeps_other_containers (P : Platform) env name w p w' ev :
  get_container_path P env name w = (Ok p, w', ev) →
  is_registered w env name = false →
  ∃ r',
    stored_registry w' env = Some r' ∧
    reg_version r' = reg_version (base_registry w env) ∧
    containers r' = containers (base_registry w env) ++ [(name, p)] ∧
    ∀ n q, n ≠ name → registered w' env n q ↔ registered w env n q.
Proof.
  intros H Hnot.
  destruct (get_container_path_new _ _ _ _ _ _ _ H Hnot)
    as (_ & _ & _ & _ & _ & _ & Hst).
  exists (with_container (base_registry w env) name p).
  split; [done|]. split; [done|]. split.
  - simpl. apply dict_set_new. by apply is_registered_false.
  - intros n q Hn. rewrite (registered_base w). split.
    + intros (r & Hr & Hg). rewrite Hst in Hr. injection Hr as <-.
      simpl in Hg. by rewrite dict_get_set_ne in Hg.
    + intros Hg. eexists. split; [done|]. simpl.
      by rewrite dict_get_set_ne.
Qed.

Lemma registering_keeps_other_containers_witness :
  ∃ r',
    stored_registry
      (get_container_path Sample.platform "/E" "beta"
         (Sample.world Sample.partial_build)).1.2 "/E" = Some r' ∧
    reg_version r'
    = reg_version (base_registry (Sample.world Sample.partial_build) "/E") ∧
    containers r'
    = containers (base_registry (Sample.world Sample.partial_build) "/E")
      ++ [("beta", "/E/c0ffee")] ∧
    ∀ n q, n ≠ "beta" →
      registered
        (get_container_path Sample.platform "/E" "beta"
           (Sample.world Sample.partial_build)).1.2 "/E" n q
      ↔ registered (Sample.world Sample.partial_build) "/E" n q.
Proof.
  apply (registering_keeps_other_containers Sample.platform "/E" "beta"
           (Sample.world Sample.partial_build) "/E/c0ffee" _
           [EvMkdir "/E/c0ffee"; EvWrite "/E/registry.json"]).
  - vm_compute. reflexivity.
  - vm_compute. reflexivity.
Defined.

(** A registered directory that exists resolves to the same place after the
    disk has grown. *)
Lemma registered_place w w' q :
  grows (w_disk w) (w_disk w') → w_cwd w' = w_cwd w →
  isdir_in w q = true →
  ∃ a, resolve (w_disk w) (w_cwd w) q = Some a ∧
       is_dir_abs (w_disk w) a = true ∧
       resolve (w_disk w') (w_cwd w') q = Some a.
Proof.
  intros Hg Hc. unfold isdir_in, path_isdir.
  destruct (resolve (w_disk w) (w_cwd w) q) as [a|] eqn:Hr; [|done].
  intros Hd. exists a. split; [done|]. split; [done|].
  rewrite Hc. by eapply grows_resolve.
Qed.

(** X8.  Containers never share a directory.  A resolution that returns
    keeps the two facts together: every registered directory exists, and no
    two names of the registry stand for the same place on the disk.  The
    directory of a name that was not registered did not exist before the
    call and is a directory after it. *)
Theorem containers_never_share_a_directory (P : Platform) env name w p w' ev :
  get_container_path P env name w = (Ok p, w', ev) →
  registry_ok env w → directories_distinct env w →
  registry_ok env w' ∧ directories_distinct env w' ∧
  (is_registered w env name = false →
   exists_in w p = false ∧ isdir_in w' p = true).
Proof.
  intros H Hok Hdist.
  destruct (is_registered w env name) eqn:Hnot.
  { apply get_container_path_inv in H
      as [(p' & _ & _ & -> & _)|(Hn & _)]; [done|congruence]. }
  destruct (get_container_path_new _ _ _ _ _ _ _ H Hnot)
    as (_ & _ & Hcw & Hgr & Habs & (fin & Hfin & Hnone & Hne & Hdir) & Hst).
  assert (isdir_in w' p = true) as Hp.
  { unfold isdir_in, path_isdir. by rewrite Hcw, Hfin. }
  assert (∀ n q, registered w' env n q →
            (n = name ∧ q = p) ∨ (n ≠ name ∧ registered w env n q)) as Hcases.
  { intros n q (r & Hr & Hg). rewrite Hst in Hr. injection Hr as <-.
    simpl in Hg. destruct (decide (n = name)) as [->|Hn].
    - left. rewrite dict_get_set_eq in Hg. by injection Hg as <-.
    - right. split; [done|]. apply registered_base.
      by rewrite dict_get_set_ne in Hg. }
  assert (∀ n q a, n ≠ name → registered w env n q →
            resolve (w_disk w') (w_cwd w') q = Some a →
            resolve (w_disk w) (w_cwd w) q = Some a ∧
            is_dir_abs (w_disk w) a = true) as Hold.
  { intros n q a Hn (r & Hr & Hg) Ha.
    destruct (registered_place w w' q Hgr Hcw (Hok r Hr n q Hg))
      as (a' & Hr1 & Hd1 & Hr2).
    assert (a' = a) as -> by congruence. done. }
  assert (∀ a, resolve (w_disk w') (w_cwd w') p = Some a →
            is_dir_abs (w_disk w) a = false) as Hnew.
  { intros a Ha. rewrite Hcw, Hfin in Ha. injection Ha as <-.
    unfold is_dir_abs. destruct fin; [done|]. by rewrite Hnone. }
  split; [|split; [|done]].
  - intros r Hr n q Hg.
    destruct (Hcases n q) as [[-> ->]|[Hn (r0 & Hr0 & Hg0)]];
      [by exists r|done|].
    unfold isdir_in. rewrite Hcw. eapply grows_path_isdir; [done|].
    by apply (Hok r0 Hr0 n q).
  - intros n1 n2 q1 q2 a Hr1 Hr2 Ha1 Ha2.
    destruct (Hcases _ _ Hr1) as [[-> ->]|[Hn1 Ho1]],
             (Hcases _ _ Hr2) as [[-> ->]|[Hn2 Ho2]]; [done| | |].
    + destruct (Hold _ _ _ Hn2 Ho2 Ha2) as [_ Hd].
      by rewrite (Hnew _ Ha1) in Hd.
    + destruct (Hold _ _ _ Hn1 Ho1 Ha1) as [_ Hd].
      by rewrite (Hnew _ Ha2) in Hd.
    + destruct (Hold _ _ _ Hn1 Ho1 Ha1) as [Hw1 _].
      destruct (Hold _ _ _ Hn2 Ho2 Ha2) as [Hw2 _].
      by apply (Hdist n1 n2 q1 q2 a).
Qed.

Lemma sample_partial_build_stored r :
  stored_registry (Sample.world Sample.partial_build) "/E" = Some r →
  r = {| reg_version := 1; containers := [("alpha", "/E/a1")] |}.
Proof. intros Hr. vm_compute in Hr. by injection Hr as <-. Qed.

Lemma sample_partial_build_ok :
  registry_ok "/E" (Sample.world Sample.partial_build).
Proof.
  intros r ->%sample_partial_build_stored n q Hg. simpl in Hg.
  case_bool_decide; [|done]. injection Hg as <-. vm_compute. reflexivity.
Qed.

Lemma sample_partial_build_distinct :
  directories_distinct "/E" (Sample.world Sample.partial_build).
Proof.
  intros n1 n2 q1 q2 a (r1 & ->%sample_partial_build_stored & Hg1)
    (r2 & ->%sample_partial_build_stored & Hg2) _ _.
  simpl in Hg1, Hg2. repeat case_bool_decide; try done. congruence.
Qed.

Lemma containers_never_share_a_directory_witness :
  registry_ok "/E"
    (get_container_path Sample.platform "/E" "beta"
       (Sample.world Sample.partial_build)).1.2 ∧
  directories_distinct "/E"
    (get_container_path Sample.platform "/E" "beta"
       (Sample.world Sample.partial_build)).1.2 ∧
  (is_registered (Sample.world Sample.partial_build) "/E" "beta" = false →
   exists_in (Sample.world Sample.partial_build) "/E/c0ffee" = false ∧
   isdir_in
     (get_container_path Sample.platform "/E" "beta"
        (Sample.world Sample.partial_build)).1.2 "/E/c0ffee" = true).
Proof.
  apply (containers_never_share_a_directory Sample.platform "/E" "beta"
           (Sample.world Sample.partial_build) "/E/c0ffee" _
           [EvMkdir "/E/c0ffee"; EvWrite "/E/registry.json"]).
  - vm_compute. reflexivity.
  - exact sample_partial_build_ok.
  - exact sample_partial_build_distinct.
Defined.

(** ** A container directory that is gone *)

(** [os.mkdir] of a name under a path that does not lead to a directory
    raises and makes nothing. *)
Lemma mk_walk_missing d n xs : ∀ cur m,
  n ≠ "" →
  walk d cur xs = None ∨
  (∃ b, walk d cur xs = Some b ∧ is_dir_abs d b = false) →
  ∃ e, (e = FileNotFoundError ∨ e = NotADirectoryError) ∧
       mk_walk false d cur (xs ++ [n]) m = (d, Raise e).
Proof.
  intros cur m Hn. revert cur m.
  induction xs as [|x xs IH]; intros cur m; simpl.
  { intros [?|(b & [= <-] & Hb)]; [done|]. rewrite Hb.
    destruct (exists_abs d cur); eauto. }
  destruct (is_dir_abs d cur) eqn:Ed.
  2: { intros _. destruct (exists_abs d cur); eauto. }
  unfold step. destruct (special x); [apply IH|].
  case_bool_decide; [apply IH|].
  destruct (d !! (cur ++ [x])) eqn:El; [apply IH|].
  intros _. simpl. rewrite forallb_app. simpl.
  rewrite (bool_decide_eq_false_2 (n = "")) by done.
  rewrite andb_false_r. eauto.
Qed.

Lemma walk_missing d n xs cur :
  walk d cur xs = None ∨
  (∃ b, walk d cur xs = Some b ∧ is_dir_abs d b = false) →
  walk d cur (xs ++ [n]) = None.
Proof.
  rewrite walk_app. intros [->|(b & -> & Hb)]; [done|]. simpl. by rewrite Hb.
Qed.

(** A path that does not exist does not lead to a directory. *)
Lemma missing_path_cases d cwd p n :
  plain_name n → p ≠ "" → path_exists d cwd p = false →
  ∃ xs, os_path_join p n ≠ "" ∧
        anchor cwd (os_path_join p n) = ((anchor cwd p).1, xs ++ [n]) ∧
        (walk d (anchor cwd p).1 xs = None ∨
         ∃ b, walk d (anchor cwd p).1 xs = Some b ∧ is_dir_abs d b = false).
Proof.
  intros Hn Hp Hex.
  destruct (join_plain_shape p n Hn) as [[-> _]|(x & -> & [[-> Hx]| ->])];
    [done| |].
  - exists (anchor cwd x).2. split; [by destruct x|].
    split; [rewrite anchor_app_sep by done;
            by rewrite (components_plain n) by apply Hn|].
    unfold path_exists in Hex. rewrite resolve_nonempty in Hex by done.
    destruct (walk d _ _) as [b|]; [|by left].
    right. exists b. split; [done|].
    destruct (is_dir_abs d b) eqn:E; [|done].
    by rewrite (is_dir_exists _ _ E) in Hex.
  - destruct (decide (x = "")) as [->|Hx].
    { by rewrite append_nil_l in Hex. }
    exists (anchor cwd x).2. split; [by destruct x|].
    assert (anchor cwd (x +:+ "/") = ((anchor cwd x).1, (anchor cwd x).2 ++ [""]))
      as Hanc.
    { replace (x +:+ "/") with (x +:+ "/" +:+ "") by done.
      by rewrite anchor_app_sep. }
    split.
    { rewrite anchor_app_sep by done. rewrite Hanc. simpl.
      by rewrite (components_plain n) by apply Hn. }
    rewrite Hanc. simpl.
    unfold path_exists in Hex.
    rewrite resolve_nonempty in Hex by (by destruct x).
    rewrite Hanc in Hex. simpl in Hex. rewrite walk_app in Hex.
    destruct (walk d _ (anchor cwd x).2) as [b|]; [|by left].
    right. exists b. split; [done|]. simpl in Hex.
    destruct (is_dir_abs d b) eqn:E; [|done].
    unfold step in Hex. simpl in Hex. by rewrite (is_dir_exists _ _ E) in Hex.
Qed.

Lemma os_mkdir_missing p n w :
  plain_name n → p ≠ "" → exists_in w p = false →
  exists_in w (os_path_join p n) = false ∧
  ∃ e, (e = FileNotFoundError ∨ e = NotADirectoryError) ∧
       os_mkdir (os_path_join p n) w = (Raise e, w, []).
Proof.
  intros Hn Hp Hex.
  destruct (missing_path_cases _ _ _ _ Hn Hp Hex) as (xs & Hne & Hanc & Hw).
  split.
  - unfold exists_in, path_exists. rewrite resolve_nonempty by done.
    rewrite Hanc. simpl. by rewrite (walk_missing _ _ _ _ Hw).
  - destruct Hn as (Hn & _).
    destruct (mk_walk_missing _ _ _ _ false Hn Hw) as (e & He & Hm).
    exists e. split; [done|]. unfold os_mkdir, os_mk, mk_disk.
    destruct (os_path_join p n) as [|c s] eqn:Ej; [done|].
    rewrite Hanc. simpl. rewrite Hm. by rewrite with_disk_same.
Qed.

(** X9.  A registered container whose directory is not there: [replay]
    reports the version as not found, whereas [run] and [create] try to make
    the version directory and end with the error of [os.mkdir],
    [FileNotFoundError] or [NotADirectoryError] (for [create], once the
    package manager is settled).  Nothing is changed or emitted. *)
Theorem missing_container_directory (P : Platform) args w p :
  registered w (the_env P args) (arg_name args) p →
  p ≠ "" → exists_in w p = false →
  plain_name (arg_version args) →
  cmd_replay P args w = (Raise VersionNotFound, w, []) ∧
  ∃ e, (e = FileNotFoundError ∨ e = NotADirectoryError) ∧
       cmd_run P args w = (Raise e, w, []) ∧
       cmd_create P args w
       = match package_manager_of args with
         | Some _ => (Raise e, w, [])
         | None => (Raise UnknownPackageManager, w, [])
         end.
Proof.
  intros Hreg Hp Hex Hv.
  destruct (os_mkdir_missing _ _ _ Hv Hp Hex) as (Hexv & e & He & Hm).
  split; [by apply (cmd_replay_missing P args w p)|].
  exists e. split; [done|]. split.
  - unfold cmd_run.
    rewrite (bind_pure _ _ _ _ (resolve_env_run _ _ _)). fold (the_env P args).
    rewrite (bind_pure _ _ _ _ (get_container_path_registered _ _ _ _ _ Hreg)).
    apply bind_raise. by rewrite (get_container_version_path_mkdir _ _ _ Hexv), Hm.
  - rewrite cmd_create_prefix. destruct (package_manager_of args); [|done].
    rewrite (bind_pure _ _ _ _ (get_container_path_registered _ _ _ _ _ Hreg)).
    assert (the_version args w = arg_version args) as ->.
    { unfold the_version. destruct Hv as (Hne & _).
      by rewrite bool_decide_eq_false_2. }
    apply bind_raise. by rewrite (get_container_version_path_mkdir _ _ _ Hexv), Hm.
Qed.

Lemma sample_v1_plain : plain_name "v1".
Proof. repeat split; discriminate. Qed.

Lemma missing_container_directory_witness :
  cmd_replay Sample.platform (Sample.args "alpha" "v1")
    (Sample.world Cases.lost_directory)
  = (Raise VersionNotFound, Sample.world Cases.lost_directory, []) ∧
  ∃ e, (e = FileNotFoundError ∨ e = NotADirectoryError) ∧
       cmd_run Sample.platform (Sample.args "alpha" "v1")
         (Sample.world Cases.lost_directory)
       = (Raise e, Sample.world Cases.lost_directory, []) ∧
       cmd_create Sample.platform (Sample.args "alpha" "v1")
         (Sample.world Cases.lost_directory)
       = match package_manager_of (Sample.args "alpha" "v1") with
         | Some _ => (Raise e, Sample.world Cases.lost_directory, [])
         | None =>
             (Raise UnknownPackageManager,
              Sample.world Cases.lost_directory, [])
         end.
Proof.
  apply (missing_container_directory Sample.platform
           (Sample.args "alpha" "v1") (Sample.world Cases.lost_directory)
           "/E/a1").
  - eexists. split; [vm_compute; reflexivity|reflexivity].
  - discriminate.
  - vm_compute. reflexivity.
  - exact sample_v1_plain.
Defined.

Lemma unreadable_registry_stops_every_command_witness :
  cmd_run Sample.platform (Sample.args "alpha" "v1")
    (Sample.world Cases.garbled_registry)
  = (Raise JSONDecodeError, Sample.world Cases.garbled_registry, []) ∧
  cmd_replay Sample.platform (Sample.args "alpha" "v1")
    (Sample.world Cases.garbled_registry)
  = (Raise JSONDecodeError, Sample.world Cases.garbled_registry, []) ∧
  cmd_list Sample.platform (Sample.args "alpha" "v1")
    (Sample.world Cases.garbled_registry)
  = (Raise JSONDecodeError, Sample.world Cases.garbled_registry, []) ∧
  cmd_create Sample.platform (Sample.args "alpha" "v1")
    (Sample.world Cases.garbled_registry)
  = match package_manager_of (Sample.args "alpha" "v1") with
    | Some _ =>
        (Raise JSONDecodeError, Sample.world Cases.garbled_registry, [])
    | None =>
        (Raise UnknownPackageManager, Sample.world Cases.garbled_registry, [])
    end.
Proof.
  apply (unreadable_registry_stops_every_command Sample.platform
           (Sample.args "alpha" "v1") (Sample.world Cases.garbled_registry)
           "{").
  vm_compute. reflexivity.
Defined.

(** ** The build workspace *)

(** [build_container_sandbox], step by step. *)
Lemma build_container_sandbox_inv P env pm base w r w' ev :
  let t := os_path_join3 env "temp" (uuid4 P (w_drawn w)) in
  let template_file := os_path_join t "template" in
  let sandbox := os_path_join t "sandbox" in
  build_container_sandbox P env pm base w = (r, w', ev) →
  w_drawn w' = S (w_drawn w) ∧
  (((ev = [] ∨ ev = [EvMkdir t]) ∧ ∃ e, r = Raise e) ∨
   ∃ w2 ok,
     exists_in w t = false ∧ isdir_in w2 t = true ∧
     read_disk (w_disk w2) (w_cwd w2) template_file
     = Ok (Text (get_template pm base)) ∧
     ev = [EvMkdir t; EvWrite template_file;
           EvExec (sandbox_command sandbox template_file) ok] ∧
     w' = after_call P (CallExec (sandbox_command sandbox template_file)) w2 ∧
     r = (if ok then Ok (t, sandbox)
          else Raise (CalledProcessError
                        (sandbox_command sandbox template_file)))).
Proof.
  intros t template_file sandbox. unfold build_container_sandbox.
  intros [(e & _ & H)|(id & w1 & ev1 & ev1' & H1 & H & ->)]%bind_inv;
    [discriminate H|].
  injection H1 as <- <- <-. rewrite app_nil_l. fold t in H.
  apply bind_inv in H as [(e & -> & H)|(u & w2 & ev2 & ev2' & H2 & H & ->)].
  { apply os_mk_run in H as (_ & _ & _ & Hd & ->). split; [done|].
    left. split; [by left|by eexists]. }
  pose proof (os_mk_run _ _ _ _ _ _ _ H2) as (_ & Hc2 & _ & Hd2 & -> & Hisd).
  simpl in Hc2, Hd2.
  assert (exists_in w t = false) as Habs.
  { unfold os_makedirs, os_mk in H2. simpl in H2.
    destruct (mk_disk true false (w_disk w) (w_cwd w) t) as [d' [u'|e]] eqn:Hm;
      [|done].
    by apply mk_disk_ok_absent in Hm. }
  fold template_file in H.
  apply bind_inv in H as [(e & -> & H)|(u3 & w3 & ev3 & ev3' & H3 & H & ->)].
  { unfold write_file in H.
    apply write_content_inv in H as [(? & _ & ? & _)|(e' & _ & -> & ->)];
      [done|].
    split; [done|]. left. split; [by right|by eexists]. }
  unfold write_file in H3.
  apply write_content_inv in H3
    as [(d3 & Hwd & _ & -> & ->)|(e' & ? & _)]; [|done].
  fold sandbox in H.
  apply bind_inv in H as [(e & -> & H)|(u4 & w4 & ev4 & ev4' & H4 & H & ->)].
  - unfold run_command in H. simpl in H.
    destruct (check_call P _ _ _) as [[|] d4] eqn:Hc; [done|].
    injection H as <- <- <-. split; [done|].
    right. exists (with_disk d3 w2), false.
    split; [done|]. split.
    { unfold isdir_in. simpl.
      eapply grows_path_isdir; [by eapply write_disk_grows|done]. }
    split; [by eapply read_write_same|]. split; [done|].
    split; [|done]. unfold after_call. simpl.
    unfold sandbox_command. by rewrite Hc.
  - injection H as <- <- <-. unfold run_command in H4. simpl in H4.
    destruct (check_call P _ _ _) as [[|] d4] eqn:Hc; [|done].
    injection H4 as _ <- <-. split; [done|].
    right. exists (with_disk d3 w2), true.
    split; [done|]. split.
    { unfold isdir_in. simpl.
      eapply grows_path_isdir; [by eapply write_disk_grows|done]. }
    split; [by eapply read_write_same|]. split; [done|].
    split; [|done]. unfold after_call. simpl.
    unfold sandbox_command. by rewrite Hc.
Qed.


Lemma get_container_version_path_drawn p v mk w r w' ev :
  get_container_version_path p v mk w = (r, w', ev) → w_drawn w' = w_drawn w.
Proof.
  unfold get_container_version_path.
  intros [(e & _ & H)|(b & w1 & ev1 & ev2 & H1 & H & ->)]%bind_inv;
    [discriminate H|].
  injection H1 as <- <- <-.
  destruct (negb _); [|by injection H as _ <- _].
  apply bind_inv in H as [(e & _ & H)|(u & w2 & ev2' & ev3 & H2 & H & ->)].
  - destruct mk; [|discriminate H].
    by apply os_mk_run in H as (_ & _ & _ & ? & _).
  - injection H as _ <- _. destruct mk; [|by injection H2 as _ <- _].
    by apply os_mk_run in H2 as (_ & _ & _ & ? & _).
Qed.

Lemma get_container_path_drawn P env name w p w' ev :
  get_container_path P env name w = (Ok p, w', ev) →
  w_drawn w'
  = if is_registered w env name then w_drawn w else S (w_drawn w).
Proof.
  intros H. destruct (is_registered w env name) eqn:Hr.
  - apply get_container_path_inv in H
      as [(p' & _ & _ & -> & _)|(Hn & _)]; [done|congruence].
  - by apply get_container_path_new in H as (_ & ? & _).
Qed.

(** X11.  A [create] that returns has run four tools, each with success, in
    this order: the build engine on the sandbox and the template of the
    workspace; the recorder, writing [recording.cast] of the version while it
    runs a writable shell in that sandbox; the build engine again, making
    [container.sif] of the version from that sandbox; and the removal of the
    workspace.  The version path is the container path joined with the
    version, and the workspace is named by the identifier drawn after the one
    a new container used. *)
Theorem successful_create_trace (P : Platform) args w w' ev :
  cmd_create P args w = (Ok tt, w', ev) →
  let env := the_env P args in
  let version_path :=
    os_path_join (container_path_of P w env (arg_name args))
      (the_version args w) in
  let n := if is_registered w env (arg_name args) then w_drawn w
           else S (w_drawn w) in
  let temp_dir := os_path_join3 env "temp" (uuid4 P n) in
  let sandbox := os_path_join temp_dir "sandbox" in
  tool_events ev
  = [EvExec (sandbox_command sandbox (os_path_join temp_dir "template")) true;
     EvRecord (os_path_join version_path "recording.cast")
       ("sudo singularity shell --writable " +:+ sandbox) true;
     EvExec (convert_command (os_path_join version_path "container.sif")
               sandbox) true;
     EvExec (cleanup_command temp_dir) true].
Proof.
  intros H env version_path n temp_dir sandbox.
  rewrite cmd_create_prefix in H.
  destruct (package_manager_of args) as [pm|]; [|done].
  apply bind_inv in H as [(e & ? & _)|(cp & wa & eva & eva' & Ha & H & ->)];
    [done|].
  pose proof (get_container_path_result _ _ _ _ _ _ _ Ha) as Hcp.
  pose proof (get_container_path_drawn _ _ _ _ _ _ _ Ha) as Hda.
  apply (quiet_inv _ _ _ _ _ (quiet_get_container_path _ _ _)) in Ha.
  rewrite tool_events_app, Ha, app_nil_l.
  apply bind_inv in H
    as [(e & ? & _)|([vp found] & wb & evb & evb' & Hb & H & ->)]; [done|].
  pose proof (get_container_version_path_result _ _ _ _ _ _ _ _ Hb) as Hvp.
  pose proof (get_container_version_path_drawn _ _ _ _ _ _ _ Hb) as Hdb.
  apply (quiet_inv _ _ _ _ _ (quiet_get_container_version_path _ _ _)) in Hb.
  rewrite tool_events_app, Hb, app_nil_l.
  destruct found; [done|].
  apply bind_inv in H
    as [(e & ? & _)|([t sb] & w3 & ev3 & ev3' & H3 & H & ->)]; [done|].
  apply build_container_sandbox_inv in H3
    as [_ [[_ [e ?]]|(w2 & ok & _ & _ & _ & -> & _ & Hr)]]; [done|].
  destruct ok; [|done]. injection Hr as -> ->.
  apply bind_inv in H as [(e & ? & _)|(u4 & w4 & ev4 & ev4' & H4 & H & ->)];
    [done|].
  apply record_inv in H4 as [[_ ->]|[? _]]; [|done].
  apply bind_inv in H as [(e & ? & _)|(u5 & w5 & ev5 & ev5' & H5 & H & ->)];
    [done|].
  apply run_command_inv in H5 as [[_ ->]|[? _]]; [|done].
  apply run_command_inv in H as [[_ ->]|[? _]]; [|done].
  subst version_path temp_dir sandbox n env. rewrite Hdb, Hda, Hvp, Hcp.
  reflexivity.
Qed.

Lemma successful_create_trace_witness :
  tool_events
    (cmd_create Sample.platform (Sample.args "alpha" "20240101_0000")
       (Sample.world ∅)).2
  = [EvExec (sandbox_command "/E/temp/c0ffeei/sandbox"
               "/E/temp/c0ffeei/template") true;
     EvRecord "/E/c0ffee/20240101_0000/recording.cast"
       "sudo singularity shell --writable /E/temp/c0ffeei/sandbox" true;
     EvExec (convert_command "/E/c0ffee/20240101_0000/container.sif"
               "/E/temp/c0ffeei/sandbox") true;
     EvExec (cleanup_command "/E/temp/c0ffeei") true].
Proof.
  assert (cmd_create Sample.platform (Sample.args "alpha" "20240101_0000")
            (Sample.world ∅)
          = (Ok tt,
             (cmd_create Sample.platform (Sample.args "alpha" "20240101_0000")
                (Sample.world ∅)).1.2,
             (cmd_create Sample.platform (Sample.args "alpha" "20240101_0000")
                (Sample.world ∅)).2)) as H
    by (vm_compute; reflexivity).
  exact (successful_create_trace Sample.platform
           (Sample.args "alpha" "20240101_0000") (Sample.world ∅) _ _ H).
Defined.

(** ** A build that was started *)

(** X12.  Once a [create] has started a tool, its version is taken: however
    that [create] ended, a further [create] of the same container and
    version raises [DuplicateVersion] at once and changes nothing.  A build
    that failed cannot be repeated under the same version.  The tool runs
    that [create] issues are taken to leave the registration and the version
    directory in place. *)
Theorem started_build_blocks_retry (P : Platform) args w0 r w1 ev :
  tools_preserve P (the_env P args)
    (allocated (the_env P args) (arg_name args) (the_version args w0)
       (container_path_of P w0 (the_env P args) (arg_name args))) →
  cmd_create P args w0 = (r, w1, ev) →
  tool_events ev ≠ [] →
  cmd_create P args w1
  = (Raise (DuplicateVersion (arg_name args) (the_version args w0)), w1, []).
Proof.
  intros Ht H Hev. rewrite cmd_create_prefix in H.
  destruct (package_manager_of args) as [pm|] eqn:Hpm;
    [|by injection H as _ _ <-].
  apply bind_inv in H as [(e & _ & H)|(cp & wa & eva & eva' & Ha & H & ->)].
  { by apply (quiet_inv _ _ _ _ _ (quiet_get_container_path _ _ _)) in H. }
  pose proof (get_container_path_registers _ _ _ _ _ _ _ Ha) as Hreg.
  rewrite <- (get_container_path_result _ _ _ _ _ _ _ Ha) in Ht.
  pose proof (get_container_path_grows _ _ _ _ _ _ _ Ha) as (_ & _ & Hna).
  apply (quiet_inv _ _ _ _ _ (quiet_get_container_path _ _ _)) in Ha.
  rewrite tool_events_app, Ha, app_nil_l in Hev.
  apply bind_inv in H
    as [(e & _ & H)|([vp found] & wb & evb & evb' & Hb & H & ->)].
  { by apply (quiet_inv _ _ _ _ _ (quiet_get_container_version_path _ _ _))
      in H. }
  pose proof (quiet_inv _ _ _ _ _ (quiet_get_container_version_path _ _ _) Hb)
    as Hqb.
  rewrite tool_events_app, Hqb, app_nil_l in Hev.
  destruct found; [by injection H as _ _ <-|].
  set (version := the_version args w0) in *.
  assert (allocated (the_env P args) (arg_name args) version cp wb ∧
          w_now wb = w_now w0) as HK.
  { unfold get_container_version_path in Hb.
    apply bind_inv in Hb as [(e & ? & _)|(b & w2 & ev2 & ev2' & H2 & Hb & ->)];
      [done|].
    injection H2 as <- <- <-. destruct (path_exists _ _ _); [done|].
    simpl in Hb.
    apply bind_inv in Hb as [(e & ? & _)|(u & w3 & ev3 & ev3' & H3 & Hb & ->)];
      [done|].
    injection Hb as <- <- <-.
    destruct (os_mk_with_disk _ _ _ _ _ _ _ H3) as [Hw3 Had].
    apply os_mk_run in H3 as (_ & _ & Hn3 & _ & _ & Hisd).
    repeat split; [|by apply path_isdir_exists|congruence].
    rewrite Hw3. by apply registered_adds_dirs. }
  assert (allocated (the_env P args) (arg_name args) version cp w1 ∧
          w_now w1 = w_now w0) as [[Hreg1 Hex1] Hn1].
  { pose proof (preserves_build_steps _ P (the_env P args) pm (arg_base args)
                  vp (stable_allocated _ _ _ _ _)
                  (tools_preserve_now _ _ _ _ Ht) wb HK) as Hp.
    unfold build_steps in Hp. by rewrite H in Hp. }
  assert (the_version args w1 = version) as Hv.
  { unfold version, the_version. by rewrite Hn1. }
  rewrite <- Hv at 1.
  apply (cmd_create_duplicate P args w1 cp pm Hpm Hreg1). by rewrite Hv.
Qed.

Lemma offline_tools_preserve env (I : World → Prop) :
  tools_preserve Cases.offline env I.
Proof. intros c _ w Hw. destruct c, w; exact Hw. Qed.

Lemma started_build_blocks_retry_witness :
  cmd_create Cases.offline (Sample.args "alpha" "v1")
    (cmd_create Cases.offline (Sample.args "alpha" "v1") (Sample.world ∅)).1.2
  = (Raise (DuplicateVersion "alpha" "v1"),
     (cmd_create Cases.offline (Sample.args "alpha" "v1") (Sample.world ∅)).1.2,
     []).
Proof.
  apply (started_build_blocks_retry Cases.offline (Sample.args "alpha" "v1")
           (Sample.world ∅)
           (Raise (CalledProcessError
                     (sandbox_command "/E/temp/c0ffeei/sandbox"
                        "/E/temp/c0ffeei/template")))
           _
           (cmd_create Cases.offline (Sample.args "alpha" "v1")
              (Sample.world ∅)).2).
  - apply offline_tools_preserve.
  - vm_compute. reflexivity.
  - vm_compute. discriminate.
Defined.

(** ** The program's own errors *)

Lemma no_program_error_ret {A} (a : A) : no_program_error (mret a : M A).
Proof. by intros w msg. Qed.

Lemma no_program_error_bind {A B} (m : M A) (f : A → M B) :
  no_program_error m → (∀ a, no_program_error (f a)) →
  no_program_error (m ≫= f).
Proof.
  intros Hm Hf w msg. rewrite bind_run. specialize (Hm w msg).
  destruct (m w) as [[[a|e] w1] ev1]; simpl in *.
  - specialize (Hf a w1 msg). by destruct (f a w1) as [[r w2] ev2].
  - intros [= ->]. by apply Hm.
Qed.

Lemma mk_walk_os_error all cs : ∀ d cur m d' msg,
  mk_walk all d cur cs m ≠ (d', Raise (Exception msg)).
Proof.
  induction cs as [|c cs IH]; intros d cur m d' msg; simpl; [done|].
  destruct (is_dir_abs d cur).
  2: { by destruct (exists_abs d cur). }
  destruct (special c); [apply IH|].
  case_bool_decide; [apply IH|].
  destruct (d !! (cur ++ [c])); [apply IH|].
  destruct (all || _); [apply IH|done].
Qed.

Lemma no_program_error_os_mk all exist_ok s :
  no_program_error (os_mk all exist_ok s).
Proof.
  intros w msg. unfold os_mk, mk_disk. destruct s as [|c s]; [done|].
  destruct (mk_walk _ _ _ _ _) as [d1 [[fin made]|e]] eqn:Hw.
  - by destruct (made || _).
  - simpl. intros [= ->]. by apply mk_walk_os_error in Hw.
Qed.

Lemma no_program_error_write_content s c : no_program_error (write_content s c).
Proof.
  intros w msg. unfold write_content, write_disk.
  destruct (resolve _ _ _) as [a|]; [|done].
  destruct (is_dir_abs _ a); [done|]. by destruct (is_dir_abs _ _).
Qed.

Lemma no_program_error_read_json s : no_program_error (read_json s).
Proof.
  intros w msg. unfold read_json. rewrite bind_run.
  unfold read_content, read_disk.
  destruct (resolve _ _ _) as [a|]; [|done].
  destruct (is_dir_abs _ a); [done|].
  by destruct (w_disk w !! a) as [[|[r|t]]|].
Qed.

Lemma no_program_error_os_listdir s : no_program_error (os_listdir s).
Proof.
  intros w msg. unfold os_listdir, listdir_disk.
  destruct (resolve _ _ _) as [a|]; [|done].
  destruct (is_dir_abs _ a); [done|]. by destruct (exists_abs _ a).
Qed.

Lemma no_program_error_run_command P args : no_program_error (run_command P args).
Proof.
  intros w msg. unfold run_command. by destruct (check_call P _ _ _) as [[|] d].
Qed.

Lemma no_program_error_record P path command :
  no_program_error (asciinema_record_asciicast P path command).
Proof.
  intros w msg. unfold asciinema_record_asciicast.
  by destruct (record_asciicast P _ _ _ _) as [[|] d].
Qed.

Lemma no_program_error_play P path : no_program_error (asciinema_play P path).
Proof.
  intros w msg. unfold asciinema_play. by destruct (play P _ _ _) as [[|] d].
Qed.

Lemma no_program_error_load_registry env : no_program_error (load_registry env).
Proof.
  unfold load_registry. apply no_program_error_bind; [by intros w msg|].
  intros [|]; simpl; [apply no_program_error_read_json|].
  apply no_program_error_bind; [apply no_program_error_os_mk|].
  intros _. apply no_program_error_ret.
Qed.

Lemma no_program_error_save_registry env r :
  no_program_error (save_registry env r).
Proof.
  unfold save_registry. apply no_program_error_bind; [by intros w msg|].
  intros found. apply no_program_error_bind.
  - destruct found; simpl;
      [apply no_program_error_ret|apply no_program_error_os_mk].
  - intros _. apply no_program_error_write_content.
Qed.

Lemma no_program_error_get_container_path P env name :
  no_program_error (get_container_path P env name).
Proof.
  unfold get_container_path.
  apply no_program_error_bind; [apply no_program_error_load_registry|].
  intros r. destruct (dict_get _ _); [apply no_program_error_ret|].
  apply no_program_error_bind; [by intros w msg|]. intros id.
  apply no_program_error_bind; [apply no_program_error_os_mk|]. intros _.
  apply no_program_error_bind; [apply no_program_error_save_registry|].
  intros _. apply no_program_error_ret.
Qed.

Lemma no_program_error_get_container_version_path p v mk :
  no_program_error (get_container_version_path p v mk).
Proof.
  unfold get_container_version_path.
  apply no_program_error_bind; [by intros w msg|].
  intros [|]; simpl; [apply no_program_error_ret|].
  apply no_program_error_bind; [|intros _; apply no_program_error_ret].
  destruct mk; [apply no_program_error_os_mk|apply no_program_error_ret].
Qed.

Lemma no_program_error_build_steps P env pm base vp :
  no_program_error (build_steps P env pm base vp).
Proof.
  unfold build_steps. apply no_program_error_bind.
  { unfold build_container_sandbox.
    apply no_program_error_bind; [by intros w msg|]. intros id.
    apply no_program_error_bind; [apply no_program_error_os_mk|]. intros _.
    apply no_program_error_bind; [apply no_program_error_write_content|].
    intros _.
    apply no_program_error_bind; [apply no_program_error_run_command|].
    intros _. apply no_program_error_ret. }
  intros [t sb].
  apply no_program_error_bind; [apply no_program_error_record|]. intros _.
  apply no_program_error_bind; [apply no_program_error_run_command|].
  intros _. apply no_program_error_run_command.
Qed.

Lemma no_program_error_list_containers items :
  no_program_error (list_containers items).
Proof.
  induction items as [|[c p] items IH]; simpl; [apply no_program_error_ret|].
  apply no_program_error_bind; [apply no_program_error_os_listdir|].
  intros entries. apply no_program_error_bind; [|by intros _].
  intros w msg. by rewrite list_children_run.
Qed.

(** The part of [run] and of [replay] up to the check of the version. *)
Lemma version_check_errors P args mk (k : string → M unit) w w' ev msg :
  (∀ vp, no_program_error (k vp)) →
  (container_path ← get_container_path P (the_env P args) (arg_name args);
   '(version_path, found) ←
     get_container_version_path container_path (arg_version args) mk;
   if negb found then raise VersionNotFound else k version_path) w
  = (Raise (Exception msg), w', ev) →
  Exception msg = VersionNotFound ∧ tool_events ev = [].
Proof.
  intros Hk H.
  apply bind_inv in H as [(e & [= <-] & H)|(cp & w1 & ev1 & ev1' & H1 & H & ->)].
  { exfalso. eapply (no_program_error_get_container_path P _ _ w msg).
    by rewrite H. }
  apply (quiet_inv _ _ _ _ _ (quiet_get_container_path _ _ _)) in H1.
  rewrite tool_events_app, H1, app_nil_l.
  apply bind_inv in H
    as [(e & [= <-] & H)|([vp found] & w2 & ev2 & ev2' & H2 & H & ->)].
  { exfalso. eapply (no_program_error_get_container_version_path _ _ _ w1 msg).
    by rewrite H. }
  apply (quiet_inv _ _ _ _ _ (quiet_get_container_version_path _ _ _)) in H2.
  rewrite tool_events_app, H2, app_nil_l.
  destruct found; simpl in H.
  - exfalso. apply (Hk vp w2 msg). by rewrite H.
  - by injection H as <- <- <-.
Qed.

(** X13.  The program's own errors.  [list] never ends with an [Exception]
    of the program; [run] and [replay] end with one only as the
    version-not-found error; [create] only as the unknown-package-manager
    error, and then no package manager was given and detection gave
    "unknown", or as the duplicate-version error.  Whenever a command ends
    with one of them it has started no tool. *)
Theorem program_errors_of_commands (P : Platform) args w msg :
  (cmd_list P args w).1.1 ≠ Raise (Exception msg) ∧
  ((cmd_run P args w).1.1 = Raise (Exception msg) →
   Exception msg = VersionNotFound ∧ tool_events (cmd_run P args w).2 = []) ∧
  ((cmd_replay P args w).1.1 = Raise (Exception msg) →
   Exception msg = VersionNotFound ∧
   tool_events (cmd_replay P args w).2 = []) ∧
  ((cmd_create P args w).1.1 = Raise (Exception msg) →
   tool_events (cmd_create P args w).2 = [] ∧
   ((Exception msg = UnknownPackageManager ∧ arg_pkg args = "" ∧
     get_package_manager (arg_base args) = "unknown") ∨
    Exception msg
    = DuplicateVersion (arg_name args) (the_version args w))).
Proof.
  split; [|split; [|split]].
  - unfold cmd_list.
    rewrite (bind_pure _ _ _ _ (resolve_env_run _ _ _)).
    apply no_program_error_bind; [apply no_program_error_load_registry|].
    intros r. apply no_program_error_list_containers.
  - destruct (cmd_run P args w) as [[r w'] ev] eqn:H. simpl. intros ->.
    unfold cmd_run in H.
    rewrite (bind_pure _ _ _ _ (resolve_env_run _ _ _)) in H.
    fold (the_env P args) in H.
    apply (version_check_errors P args true
             (λ vp, run_command P
                      ["singularity"; "run"; os_path_join vp "container.sif"])
             w w'); [|done].
    intros vp. apply no_program_error_run_command.
  - destruct (cmd_replay P args w) as [[r w'] ev] eqn:H. simpl. intros ->.
    unfold cmd_replay in H.
    rewrite (bind_pure _ _ _ _ (resolve_env_run _ _ _)) in H.
    fold (the_env P args) in H.
    apply (version_check_errors P args false
             (λ vp, asciinema_play P (get_container_recording_path vp))
             w w'); [|done].
    intros vp. apply no_program_error_play.
  - destruct (cmd_create P args w) as [[r w'] ev] eqn:H. simpl. intros ->.
    rewrite cmd_create_prefix in H. unfold package_manager_of in H.
    assert (∀ pm,
      (container_path ← get_container_path P (the_env P args) (arg_name args);
       '(version_path, found) ←
         get_container_version_path container_path (the_version args w) true;
       if found : bool
       then raise (DuplicateVersion (arg_name args) (the_version args w))
       else build_steps P (the_env P args) pm (arg_base args) version_path) w
      = (Raise (Exception msg), w', ev) →
      tool_events ev = [] ∧
      Exception msg = DuplicateVersion (arg_name args) (the_version args w))
      as Hmain.
    { clear H. intros pm H.
      apply bind_inv in H
        as [(e & [= <-] & H)|(cp & w1 & ev1 & ev1' & H1 & H & ->)].
      { exfalso. eapply (no_program_error_get_container_path P _ _ w msg).
        by rewrite H. }
      apply (quiet_inv _ _ _ _ _ (quiet_get_container_path _ _ _)) in H1.
      rewrite tool_events_app, H1, app_nil_l.
      apply bind_inv in H
        as [(e & [= <-] & H)|([vp found] & w2 & ev2 & ev2' & H2 & H & ->)].
      { exfalso.
        eapply (no_program_error_get_container_version_path _ _ _ w1 msg).
        by rewrite H. }
      apply (quiet_inv _ _ _ _ _ (quiet_get_container_version_path _ _ _))
        in H2.
      rewrite tool_events_app, H2, app_nil_l.
      destruct found.
      - by injection H as <- <- <-.
      - exfalso.
        apply (no_program_error_build_steps P (the_env P args) pm
                 (arg_base args) vp w2 msg).
        by rewrite H. }
    case_bool_decide as Ep.
    + case_bool_decide as Eu.
      { injection H as <- <- <-. split; [done|]. by left. }
      destruct (Hmain _ H) as [? ?]. split; [done|]. by right.
    + destruct (Hmain _ H) as [? ?]. split; [done|]. by right.
Qed.

Lemma program_errors_of_commands_witness :
  Exception "that version doesn't exist" = VersionNotFound ∧
  tool_events
    (cmd_replay Sample.platform (Sample.args "alpha" "v2")
       (Sample.world Sample.partial_build)).2 = [].
Proof.
  apply (program_errors_of_commands Sample.platform (Sample.args "alpha" "v2")
           (Sample.world Sample.partial_build) "that version doesn't exist").
  vm_compute. reflexivity.
Defined.

(** ** Files the program leaves alone *)







(** ** The build template *)

Lemma lines_nonempty s : lines s ≠ [].
Proof.
  destruct s as [|c s]; simpl; [done|].
  case_bool_decide; [done|]. by destruct (lines s).
Qed.

Lemma lines_app_nl (a b : string) : lines (a +:+ nl +:+ b) = lines a ++ lines b.
Proof.
  induction a as [|c a IH]; [done|].
  rewrite append_cons. simpl.
  case_bool_decide; [by rewrite IH|].
  rewrite IH. pose proof (lines_nonempty a). by destruct (lines a).
Qed.

Lemma lines_one s : has_line_break s = false → lines s = [s].
Proof.
  induction s as [|c s IH]; simpl; [done|].
  intros [Hc Hs]%orb_false_iff. rewrite Hc, (IH Hs). done.
Qed.

Lemma has_line_break_app (a b : string) :
  has_line_break (a +:+ b) = has_line_break a || has_line_break b.
Proof.
  induction a as [|c a IH]; [done|]. rewrite append_cons. simpl.
  by rewrite IH, orb_assoc.
Qed.

(** The template, line by line, for a base name that is one line. *)
Lemma get_template_lines pm base :
  has_line_break base = false →
  lines (get_template pm base)
  = ["BootStrap: docker"; "From: " +:+ base;
     "%post -c /bin/bash"; "  set -ex"; "  touch /etc/localtime";
     "  CUSTOM_ENV=/.singularity.d/env/99-zz_custom_env.sh";
     "  cat >$CUSTOM_ENV <<EOF"; "#!/bin/bash";
     "PS1='\u@neurodesk-builder:\w\$ '"; "EOF"; "  chmod 755 $CUSTOM_ENV"]
    ++ (if str_in "ubuntu" base then
          ["sed -i -e 's/ports.ubuntu.com\/ubuntu-ports/mirror.aarnet.edu.au\/pub\/ubuntu\/ports/g' /etc/apt/sources.list";
           "sed -i -e 's/archive.ubuntu.com\/ubuntu/mirror.aarnet.edu.au\/pub\/ubuntu\/archive/g' /etc/apt/sources.list"]
        else [])
    ++ (if bool_decide (pm = "apt") then ["apt update -y"]
        else if bool_decide (pm = "yum") then ["yum update -y"]
        else [])
    ++ [""].
Proof.
  intros Hb.
  assert (∀ rest,
            lines ("BootStrap: docker" +:+ nl +:+ "From: " +:+ base +:+ nl
                   +:+ rest)
            = ["BootStrap: docker"; "From: " +:+ base] ++ lines rest) as Hhead.
  { intros rest. rewrite lines_app_nl.
    rewrite <- (append_assoc "From: " base), lines_app_nl.
    rewrite (lines_one ("From: " +:+ base)); [done|].
    by rewrite has_line_break_app, Hb. }
  unfold get_template. cbv zeta. rewrite append_nil_l.
  destruct (str_in "ubuntu" base), (bool_decide (pm = "apt")),
    (bool_decide (pm = "yum"));
    rewrite !append_assoc, Hhead; reflexivity.
Qed.

(** X15.  The template for a base name without a line break: its second
    line is [From: <base>]; it has the line [apt update -y] exactly when the
    package manager is "apt" and the line [yum update -y] exactly when it is
    "yum", so that any other package manager gives a template without an
    update step; and it ends with a line break. *)
Theorem template_update_line pm base :
  has_line_break base = false →
  lines (get_template pm base) !! 1 = Some ("From: " +:+ base) ∧
  ("apt update -y" ∈ lines (get_template pm base) ↔ pm = "apt") ∧
  ("yum update -y" ∈ lines (get_template pm base) ↔ pm = "yum") ∧
  last (lines (get_template pm base)) = Some "".
Proof.
  intros Hb. rewrite (get_template_lines pm base Hb).
  split; [done|].
  split; [|split].
  - rewrite !elem_of_app, !elem_of_cons, elem_of_nil. split.
    + intros [H|[H|[H|H]]].
      * decompose [or] H; try discriminate; done.
      * destruct (str_in "ubuntu" base); [|by apply elem_of_nil in H].
        rewrite !elem_of_cons, elem_of_nil in H.
        decompose [or] H; try discriminate; done.
      * case_bool_decide; [done|]. case_bool_decide.
        -- rewrite elem_of_cons, elem_of_nil in H.
           decompose [or] H; try discriminate; done.
        -- by apply elem_of_nil in H.
      * decompose [or] H; try discriminate; done.
    + intros ->. right. right. left. simpl. apply list_elem_of_here.
  - rewrite !elem_of_app, !elem_of_cons, elem_of_nil. split.
    + intros [H|[H|[H|H]]].
      * decompose [or] H; try discriminate; done.
      * destruct (str_in "ubuntu" base); [|by apply elem_of_nil in H].
        rewrite !elem_of_cons, elem_of_nil in H.
        decompose [or] H; try discriminate; done.
      * case_bool_decide as Ea.
        -- rewrite elem_of_cons, elem_of_nil in H.
           decompose [or] H; try discriminate; done.
        -- case_bool_decide; [done|]. by apply elem_of_nil in H.
      * decompose [or] H; try discriminate; done.
    + intros ->. right. right. left. simpl. apply list_elem_of_here.
  - rewrite !last_app. done.
Qed.

Lemma template_update_line_witness :
  lines (get_template "apt" "ubuntu:22.04") !! 1 = Some "From: ubuntu:22.04" ∧
  ("apt update -y" ∈ lines (get_template "apt" "ubuntu:22.04")
   ↔ "apt" = "apt") ∧
  ("yum update -y" ∈ lines (get_template "apt" "ubuntu:22.04")
   ↔ "apt" = "yum") ∧
  last (lines (get_template "apt" "ubuntu:22.04")) = Some "".
Proof.
  apply (template_update_line "apt" "ubuntu:22.04"). reflexivity.
Defined.

(** ** Registering on a root that is in order *)

(** [os.makedirs] and [os.mkdir] of a free plain name inside a directory make
    exactly that directory. *)
Lemma mk_disk_plain_any all d cwd p v :
  plain_name v → path_isdir d cwd p = true →
  path_exists d cwd (os_path_join p v) = false →
  ∃ a, resolve d cwd p = Some a ∧ is_dir_abs d a = true ∧
       d !! (a ++ [v]) = None ∧
       mk_disk all false d cwd (os_path_join p v)
       = (<[a ++ [v] := Dir]> d, Ok tt).
Proof.
  intros Hv Hd He.
  destruct (anchor_join_plain d cwd p v Hv Hd)
    as (a & xs & Hr & Ha & Hne & Hcs & Hw).
  destruct (resolve_join_plain d cwd p v Hv Hd) as (a' & Hr' & _ & Hj).
  assert (a' = a) as -> by congruence.
  exists a. split; [done|]. split; [done|].
  unfold path_exists in He. rewrite Hj in He.
  assert (d !! (a ++ [v]) = None) as Hn.
  { unfold exists_abs in He. destruct (a ++ [v]) eqn:E.
    - by destruct a.
    - apply bool_decide_eq_false in He. by apply eq_None_not_Some. }
  split; [done|].
  unfold mk_disk. destruct (os_path_join p v) as [|c s] eqn:Ej; [done|].
  rewrite Hcs.
  rewrite (mk_walk_follow all d [v] xs _ a Hw Ha).
  simpl. rewrite Ha, (plain_not_special _ Hv).
  destruct Hv as (_ & _ & _ & Hdd). rewrite bool_decide_eq_false_2 by done.
  by rewrite Hn, orb_true_r.
Qed.

Lemma bind_ok {A B} (m : M A) (f : A → M B) w a w1 ev1 r w2 ev2 ev :
  m w = (Ok a, w1, ev1) → f a w1 = (r, w2, ev2) → ev = ev1 ++ ev2 →
  (m ≫= f) w = (r, w2, ev).
Proof. intros Hm Hf ->. by rewrite bind_run, Hm, Hf. Qed.

(** X16.  Registering succeeds on a root that is in order: when the root is
    a directory with a readable registry that does not know the name, and
    the identifier drawn is a plain name that is not taken in the root,
    [get_container_path] returns the root joined with the identifier, having
    made that directory and then written the registry once, with the new
    entry added. *)
Theorem registering_succeeds (P : Platform) env name w r :
  let p := os_path_join env (uuid4 P (w_drawn w)) in
  stored_registry w env = Some r →
  dict_get (containers r) name = None →
  isdir_in w env = true →
  plain_name (uuid4 P (w_drawn w)) →
  exists_in w p = false →
  ∃ w',
    get_container_path P env name w
    = (Ok p, w', [EvMkdir p; EvWrite (os_path_join env "registry.json")]) ∧
    stored_registry w' env = Some (with_container r name p) ∧
    isdir_in w' p = true.
Proof.
  intros p Hs Hg Hd Hu Hex.
  destruct (mk_disk_plain_any true _ _ _ _ Hu Hd Hex)
    as (a & Ha & Hda & Hn & Hm).
  destruct (resolve_join_plain _ _ _ _ plain_registry_json Hd)
    as (a' & Ha' & _ & Hk).
  assert (a' = a) as -> by congruence.
  pose proof Hs as Hfile.
  apply stored_registry_read, read_disk_ok in Hfile as (k & Hk' & _ & Hl).
  assert (k = a ++ ["registry.json"]) as -> by congruence.
  set (d3 := <[a ++ [uuid4 P (w_drawn w)] := Dir]> (w_disk w)) in *.
  assert (adds_dirs (w_disk w) d3) as Hadd by by apply adds_dirs_insert.
  assert (d3 !! (a ++ ["registry.json"]) = Some (File (Json r))) as Hl3.
  { destruct (Hadd (a ++ ["registry.json"])) as [->|[E _]]; congruence. }
  set (w3 := with_disk d3
               {| w_disk := w_disk w; w_cwd := w_cwd w;
                  w_drawn := S (w_drawn w); w_now := w_now w |}).
  set (reg' := with_container r name p).
  assert (write_disk d3 (w_cwd w) (os_path_join env "registry.json") (Json reg')
          = Ok (<[a ++ ["registry.json"] := File (Json reg')]> d3)) as Hwd.
  { unfold write_disk.
    rewrite (grows_resolve _ _ _ _ _ (adds_dirs_grows _ _ Hadd) Hk).
    assert (is_dir_abs d3 (a ++ ["registry.json"]) = false) as ->.
    { unfold is_dir_abs. destruct (a ++ ["registry.json"]) eqn:E;
        [by destruct a|]. by rewrite Hl3. }
    rewrite removelast_last.
    by rewrite (grows_is_dir _ _ _ (adds_dirs_grows _ _ Hadd) Hda). }
  assert (os_makedirs p false
            {| w_disk := w_disk w; w_cwd := w_cwd w;
               w_drawn := S (w_drawn w); w_now := w_now w |}
          = (Ok tt, w3, [EvMkdir p])) as Hmk.
  { unfold os_makedirs, os_mk. cbn [w_disk w_cwd]. fold p in Hm.
    by rewrite Hm. }
  assert (save_registry env reg' w3
          = (Ok tt,
             with_disk (<[a ++ ["registry.json"] := File (Json reg')]> d3) w3,
             [EvWrite (os_path_join env "registry.json")])) as Hsave.
  { unfold save_registry. rewrite (bind_pure _ _ w3 true).
    2: { unfold os_path_exists. cbn [w_disk w_cwd with_disk w3].
         f_equal. f_equal. f_equal.
         eapply grows_path_exists; [by apply adds_dirs_grows|].
         by apply (stored_registry_exists _ _ _ Hs). }
    change (negb true) with false. cbv iota.
    rewrite (bind_pure _ _ _ _ (ret_run _ _)).
    unfold write_json, write_content. cbn [w_disk w_cwd with_disk w3].
    by rewrite Hwd. }
  exists (with_disk (<[a ++ ["registry.json"] := File (Json reg')]> d3) w3).
  split; [|split].
  - unfold get_container_path.
    rewrite (bind_pure _ _ _ _ (load_registry_stored _ _ _ Hs)), Hg.
    eapply bind_ok; [reflexivity| |reflexivity].
    eapply bind_ok; [exact Hmk| |reflexivity].
    eapply bind_ok; [exact Hsave|reflexivity|reflexivity].
  - apply stored_registry_read. simpl. by eapply read_write_same.
  - unfold isdir_in, path_isdir. simpl.
    assert (resolve (w_disk w) (w_cwd w) p = Some (a ++ [uuid4 P (w_drawn w)]))
      as Hp.
    { unfold p.
      destruct (resolve_join_plain _ _ _ _ Hu Hd) as (a2 & Ha2 & _ & Hj2).
      assert (a2 = a) as -> by congruence. done. }
    assert (grows (w_disk w)
              (<[a ++ ["registry.json"] := File (Json reg')]> d3)) as Hgr.
    { eapply grows_trans; [by apply adds_dirs_grows|].
      apply grows_insert_file. unfold is_dir_abs.
      destruct (a ++ ["registry.json"]) eqn:E; [by destruct a|].
      by rewrite Hl3. }
    rewrite (grows_resolve _ _ _ _ _ Hgr Hp).
    eapply grows_is_dir; [by apply grows_insert_file; unfold is_dir_abs;
      destruct (a ++ ["registry.json"]) eqn:E; [by destruct a|by rewrite Hl3]|].
    apply is_dir_insert.
Qed.

Lemma registering_succeeds_witness :
  ∃ w',
    get_container_path Sample.platform "/E" "beta"
      (Sample.world Sample.partial_build)
    = (Ok "/E/c0ffee", w', [EvMkdir "/E/c0ffee"; EvWrite "/E/registry.json"]) ∧
    stored_registry w' "/E"
    = Some (with_container
              {| reg_version := 1; containers := [("alpha", "/E/a1")] |}
              "beta" "/E/c0ffee") ∧
    isdir_in w' "/E/c0ffee" = true.
Proof.
  apply (registering_succeeds Sample.platform "/E" "beta"
           (Sample.world Sample.partial_build)
           {| reg_version := 1; containers := [("alpha", "/E/a1")] |}).
  - vm_compute. reflexivity.
  - reflexivity.
  - vm_compute. reflexivity.
  - apply sample_uuid_plain.
  - vm_compute. reflexivity.
Defined.

(** ** Listing past a directory that is gone *)





